(** * Credential health monitors: keepalive heartbeat and API-key recovery

    A shallow embedding of [ClaudeHeartbeatService] and
    [DroidApiKeyRecoveryService].  Both services are JavaScript classes
    whose methods are [async]: they mutate the fields of one long-lived
    instance, call collaborators that may reject, and are driven by timers.

    - JavaScript values that the code inspects dynamically (response bodies,
      possibly-absent fields) are an inductive [jsval];
    - a method that may throw returns a [completion];
    - a method that mutates instance fields or calls collaborators is a
      function in the monad [M S], a state monad over the service's world
      [S] whose result is a [completion];
    - what a collaborator answers (the registry, the upstream provider, the
      clock) is not decided by this code: each method takes the answers as an
      environment record, and theorems quantify over every environment. *)

From Stdlib Require Import ZArith Lia Bool List String Ascii.
From stdpp Require Import gmap strings pretty list fin_maps.
Import ListNotations.
Local Open Scope string_scope.
Local Open Scope Z_scope.
Local Open Scope list_scope.
Set Warnings "-register-all".

(** ** JavaScript primitives *)

Module Js.

(** Values as the code meets them: the result of [JSON.parse] on a response
    body, plus [undefined] for a missing property.  An object is the list of
    its own properties, first binding first. *)
Inductive jsval : Type :=
| VUndefined
| VNull
| VBool (b : bool)
| VNum (n : Z)
| VStr (s : string)
| VArr (items : list jsval)
| VObj (fields : list (string * jsval)).

Record Response := {
  resp_status : Z;
  resp_headers : list (string * string);
  resp_data : jsval
}.

(** An [Error] object: [message], the optional [code] of a network failure,
    and the [response] axios attaches to an HTTP failure. *)
Record Error := {
  message : string;
  code : option string;
  response : option Response
}.

Definition mkError (msg : string) : Error :=
  {| message := msg; code := None; response := None |}.

Inductive completion (A : Type) : Type :=
| Normal (a : A)
| Throw (e : Error).
Arguments Normal {A} a.
Arguments Throw {A} e.

(** What the network does with one request: an HTTP response, or a
    transport failure (no response: refused, reset, timed out). *)
Inductive AxiosAnswer : Type :=
| Answered (r : Response)
| TransportFailure (e : Error).

(** axios settles a request by [validateStatus]: a response it accepts
    resolves the promise, any other rejects it with an error that carries
    the response; a transport failure rejects with the failure. *)
Definition axios (validateStatus : Z -> bool) (answer : AxiosAnswer) : completion Response :=
  match answer with
  | Answered r =>
      if validateStatus (resp_status r) then Normal r
      else Throw {| message := "Request failed with status code " +:+ pretty (resp_status r);
                    code := Some "ERR_BAD_RESPONSE";
                    response := Some r |}
  | TransportFailure e => Throw e
  end.

(** The default [validateStatus] of axios. *)
Definition defaultValidateStatus (status : Z) : bool :=
  (200 <=? status) && (status <? 300).

Definition isNormal {A} (c : completion A) : bool :=
  match c with Normal _ => true | Throw _ => false end.

(** *** State and exceptions *)

Definition M (S A : Type) : Type := S -> S * completion A.

Definition ret {S A} (a : A) : M S A := fun s => (s, Normal a).

Definition throw {S A} (e : Error) : M S A := fun s => (s, Throw e).

Definition bind {S A B} (m : M S A) (k : A -> M S B) : M S B :=
  fun s =>
    match m s with
    | (s', Normal a) => k a s'
    | (s', Throw e) => (s', Throw e)
    end.

(** [try { body } catch (error) { handler }] *)
Definition tryCatch {S A} (body : M S A) (handler : Error -> M S A) : M S A :=
  fun s =>
    match body s with
    | (s', Normal a) => (s', Normal a)
    | (s', Throw e) => handler e s'
    end.

(** [try { body } finally { fin }]: [fin] runs on every exit of [body],
    a [return] included; when [fin] completes normally the completion of
    [body] stands. *)
Definition tryFinally {S A} (body : M S A) (fin : M S unit) : M S A :=
  fun s =>
    match body s with
    | (s', c) =>
        match fin s' with
        | (s'', Normal _) => (s'', c)
        | (s'', Throw e) => (s'', Throw e)
        end
    end.

Definition lift {S A} (c : completion A) : M S A := fun s => (s, c).

(** Sequencing of pure computations that may throw. *)
Definition andThen {A B} (c : completion A) (k : A -> completion B) : completion B :=
  match c with
  | Normal a => k a
  | Throw e => Throw e
  end.

Fixpoint foldThrowing {A B} (f : A -> B -> completion A) (items : list B) (acc : A)
  : completion A :=
  match items with
  | [] => Normal acc
  | x :: rest => andThen (f acc x) (foldThrowing f rest)
  end.

Definition modify {S} (f : S -> S) : M S unit := fun s => (f s, Normal tt).

Definition gets {S A} (f : S -> A) : M S A := fun s => (s, Normal (f s)).

(** *** Truthiness, property access *)

Definition truthy (v : jsval) : bool :=
  match v with
  | VUndefined | VNull => false
  | VBool b => b
  | VNum n => negb (n =? 0)
  | VStr s => negb (String.eqb s "")
  | VArr _ | VObj _ => true
  end.

Fixpoint lookupField (k : string) (fields : list (string * jsval)) : jsval :=
  match fields with
  | [] => VUndefined
  | (k', v) :: rest => if String.eqb k k' then v else lookupField k rest
  end.

(** [v.k] where [v] is known not to be [null] or [undefined]: a primitive or
    an array has none of the data properties read here. *)
Definition prop (v : jsval) (k : string) : jsval :=
  match v with
  | VObj fields => lookupField k fields
  | _ => VUndefined
  end.

(** [v.k] in general: reading a property of [null] or [undefined] throws a
    [TypeError]. *)
Definition getProp (v : jsval) (k : string) : completion jsval :=
  match v with
  | VUndefined | VNull =>
      Throw (mkError ("Cannot read properties of null or undefined, reading " +:+ k))
  | _ => Normal (prop v k)
  end.

Definition isArray (v : jsval) : bool :=
  match v with VArr _ => true | _ => false end.

Definition isString (v : jsval) : bool :=
  match v with VStr _ => true | _ => false end.

(** [typeof v === 'object'] *)
Definition typeofObject (v : jsval) : bool :=
  match v with VNull | VArr _ | VObj _ => true | _ => false end.

(** A double quote, for the prompts that contain one. *)
Definition dquote : string := String (ascii_of_nat 34) EmptyString.

(** *** Strings *)

(** White space removed by [String.prototype.trim], within ASCII. *)
Definition isWhiteSpace (c : ascii) : bool :=
  let n := nat_of_ascii c in
  ((9 <=? n) && (n <=? 13))%nat || (n =? 32)%nat.

Fixpoint trimStart (s : string) : string :=
  match s with
  | String c rest => if isWhiteSpace c then trimStart rest else s
  | EmptyString => EmptyString
  end.

Fixpoint trimEnd (s : string) : string :=
  match s with
  | EmptyString => EmptyString
  | String c rest =>
      match trimEnd rest with
      | EmptyString => if isWhiteSpace c then EmptyString else String c EmptyString
      | rest' => String c rest'
      end
  end.

Definition trim (s : string) : string := trimEnd (trimStart s).

Definition nonEmpty (s : string) : bool := negb (String.eqb s "").

Definition toLowerChar (c : ascii) : ascii :=
  let n := nat_of_ascii c in
  if ((65 <=? n) && (n <=? 90))%nat then ascii_of_nat (n + 32) else c.

Fixpoint toLowerCase (s : string) : string :=
  match s with
  | EmptyString => EmptyString
  | String c rest => String (toLowerChar c) (toLowerCase rest)
  end.

Fixpoint startsWith (p s : string) : bool :=
  match p, s with
  | EmptyString, _ => true
  | String a p', String b s' => Ascii.eqb a b && startsWith p' s'
  | String _ _, EmptyString => false
  end.

(** [s.includes(p)] *)
Fixpoint includes (p s : string) : bool :=
  startsWith p s ||
  match s with
  | EmptyString => false
  | String _ s' => includes p s'
  end.

(** [s.split(sep)] for a one-character separator. *)
Fixpoint splitOn (sep : ascii) (s : string) : list string :=
  match s with
  | EmptyString => [EmptyString]
  | String c rest =>
      if Ascii.eqb c sep then EmptyString :: splitOn sep rest
      else
        match splitOn sep rest with
        | [] => [String c EmptyString]
        | w :: ws => String c w :: ws
        end
  end.

(** *** Numbers *)

(** A number is an integer or [NaN] ([None]).  The timestamps, counters and
    durations handled here are integers far below 2^53, where JavaScript
    arithmetic is exact. *)
Definition num := option Z.

Definition isDigit (c : ascii) : bool :=
  let n := nat_of_ascii c in ((48 <=? n) && (n <=? 57))%nat.

Definition digitValue (c : ascii) : Z := Z.of_nat (nat_of_ascii c) - 48.

Fixpoint parseDigits (acc : Z) (s : string) : Z :=
  match s with
  | String c rest => if isDigit c then parseDigits (10 * acc + digitValue c) rest else acc
  | EmptyString => acc
  end.

Definition startsWithDigit (s : string) : bool :=
  match s with String c _ => isDigit c | EmptyString => false end.

(** [parseInt(s, 10)]: leading white space, an optional sign, then the
    longest run of decimal digits; [NaN] when there is no digit. *)
Definition parseInt10 (s : string) : num :=
  match trimStart s with
  | String "-" rest => if startsWithDigit rest then Some (- parseDigits 0 rest) else None
  | String "+" rest => if startsWithDigit rest then Some (parseDigits 0 rest) else None
  | t => if startsWithDigit t then Some (parseDigits 0 t) else None
  end.

(** [x || d] on a number: [0] and [NaN] are falsy. *)
Definition numOr (x : num) (d : Z) : Z :=
  match x with
  | Some n => if n =? 0 then d else n
  | None => d
  end.

(** [Number.isFinite(x)].  An integer of 2^1024 or more is no double:
    [parseInt] yields [Infinity] for it. *)
Definition Number_isFinite (x : num) : bool :=
  match x with
  | Some n => Z.abs n <? 2 ^ 1024
  | None => false
  end.

Fixpoint lookupHeader (k : string) (headers : list (string * string)) : option string :=
  match headers with
  | [] => None
  | (k', v) :: rest => if String.eqb k k' then Some v else lookupHeader k rest
  end.

(** *** Values in a template literal *)

(** The text a template literal makes of a value read from a JSON body.
    An array is the texts of its elements joined by commas, null and
    undefined elements giving the empty text; an object is
    [[object Object]].  That is the conversion for the numbers of this
    development (integers far below 2^53) and for objects that have no
    property named [toString] of their own, which is the range taken here:
    on an object that has one the conversion throws. *)
Fixpoint ToString (v : jsval) : string :=
  match v with
  | VUndefined => "undefined"
  | VNull => "null"
  | VBool b => if b then "true" else "false"
  | VNum n => pretty n
  | VStr s => s
  | VArr items =>
      (fix join (items : list jsval) : string :=
         match items with
         | [] => ""
         | item :: rest =>
             let text :=
               match item with VUndefined | VNull => "" | _ => ToString item end in
             match rest with
             | [] => text
             | _ :: _ => text +:+ "," +:+ join rest
             end
         end) items
  | VObj _ => "[object Object]"
  end.

(** *** Dates *)

(** A field holding a timestamp as text.  [IsoAbsent] is [undefined] or the
    empty string (both falsy); [IsoTime ms] is a string that [Date.parse]
    reads as the instant [ms], such as the output of [toISOString];
    [IsoGarbage raw] is a non-empty string [Date.parse] rejects. *)
Inductive IsoField : Type :=
| IsoAbsent
| IsoTime (ms : Z)
| IsoGarbage (raw : string).

Definition isoTruthy (f : IsoField) : bool :=
  match f with IsoAbsent => false | _ => true end.

Definition maxTimeValue : Z := 8640000000000000.

(** [new Date(v)]: the time value, [NaN] when [v] is [NaN] or out of range. *)
Definition Date_new (v : num) : num :=
  match v with
  | Some ms => if (Z.abs ms <=? maxTimeValue) then Some ms else None
  | None => None
  end.

(** [Date.parse(f)] for a truthy [f]: a time value in range, or [NaN]. *)
Definition Date_parse (f : IsoField) : num :=
  match f with
  | IsoTime ms => Date_new (Some ms)
  | _ => None
  end.

(** [d.toISOString()] throws a [RangeError] on an invalid date. *)
Definition toISOString (d : num) : completion IsoField :=
  match d with
  | Some ms => Normal (IsoTime ms)
  | None => Throw (mkError "Invalid time value")
  end.

End Js.

Export Js.

Declare Scope js_scope.
Delimit Scope js_scope with js.
Notation "'let*' x ':=' c1 'in' c2" := (Js.bind c1 (fun x => c2))
  (at level 10, x name, c1 at level 100, c2 at level 200) : js_scope.
Notation "c1 ;; c2" := (Js.bind c1 (fun _ => c2))
  (at level 100, c2 at level 200, right associativity) : js_scope.

Local Open Scope js_scope.

(** ** The API-key recovery service: [DroidApiKeyRecoveryService] *)

Module Recovery.

(** *** Configuration and construction *)

(** [config.droid.keyRecovery] and [config.requestTimeout]; an absent
    string is the empty string, an absent number is [None]. *)
Record RawConfig := {
  cfg_enabled : option bool;
  cfg_scanIntervalMs : num;
  cfg_probeIntervalMs : num;
  cfg_recoveryWindowMs : num;
  cfg_maxConcurrentProbes : num;
  cfg_probePrompt : string;
  cfg_anthropicModel : string;
  cfg_openaiModel : string;
  cfg_requestTimeout : num
}.

(** The fields the constructor computes and never reassigns. *)
Record Service := {
  enabled : bool;
  scanIntervalMs : Z;
  probeIntervalMs : Z;
  recoveryWindowMs : Z;
  maxConcurrentProbes : Z;
  probePrompt : string;
  anthropicModel : string;
  openaiModel : string;
  requestTimeoutMs : Z;
  factoryApiBaseUrl : string
}.

Definition strOr (s d : string) : string := if nonEmpty s then s else d.

Definition constructor (config : RawConfig) : Service := {|
  enabled := match cfg_enabled config with Some false => false | _ => true end;
  scanIntervalMs := numOr (cfg_scanIntervalMs config) 30000;
  probeIntervalMs := numOr (cfg_probeIntervalMs config) (2 * 60 * 1000);
  recoveryWindowMs := numOr (cfg_recoveryWindowMs config) (24 * 60 * 60 * 1000);
  maxConcurrentProbes := numOr (cfg_maxConcurrentProbes config) 3;
  probePrompt :=
    strOr (cfg_probePrompt config)
      ("Please say the single word " +:+ dquote +:+ "hello" +:+ dquote
       +:+ " to confirm availability.");
  anthropicModel := strOr (cfg_anthropicModel config) "claude-sonnet-4-5-20250929";
  openaiModel := strOr (cfg_openaiModel config) "gpt-5-2025-08-07";
  requestTimeoutMs :=
    Z.min (Z.max (numOr (cfg_requestTimeout config) 600000) 1000) 600000;
  factoryApiBaseUrl := "https://app.factory.ai/api/llm"
|}.

Definition endpoints (endpointType : string) : option string :=
  if String.eqb endpointType "anthropic" then Some "/a/v1/messages"
  else if String.eqb endpointType "openai" then Some "/o/v1/responses"
  else None.

(** *** The registry of accounts and their key entries *)

(** The text [_formatFailureReason] returns, by its template: the status
    and the message of an HTTP failure, the code and the message of a
    failure with a code, or a message alone. *)
Inductive FailureReason : Type :=
| ReasonHttp (status : Z) (detail : string)
| ReasonCode (code detail : string)
| ReasonMessage (detail : string).

(** [lastRecoveryResult]: the three texts the service writes, by their
    template, and [NoNote] for a field never written. *)
Inductive ResultNote : Type :=
| NoNote
| RecoveredAt (nowIso : IsoField)
| EmptyResponseAt (nowIso : IsoField)
| FailedWith (reason : FailureReason).

Record ApiKeyEntry := {
  id : string;
  key : string;
  status : string;
  errorMessage : string;
  errorSince : IsoField;
  recoveryExpiresAt : IsoField;
  nextRecoveryAt : IsoField;
  recoveryAttempts : num;
  lastRecoveryAttemptAt : IsoField;
  lastRecoveryResult : ResultNote
}.

(** The object literal passed to [updateApiKeyRecoveryState]: [None] is a
    property the literal does not have. *)
Record RecoveryPatch := {
  p_status : option string;
  p_errorMessage : option string;
  p_errorSince : option IsoField;
  p_recoveryExpiresAt : option IsoField;
  p_nextRecoveryAt : option IsoField;
  p_recoveryAttempts : option Z;
  p_lastRecoveryAttemptAt : option IsoField;
  p_lastRecoveryResult : option ResultNote
}.

Record DroidAccount := {
  acc_name : string;
  acc_status : string;
  acc_schedulable : jsval;
  acc_errorMessage : string;
  apiKeys : list ApiKeyEntry
}.

Record AccountPatch := {
  ap_schedulable : option jsval;
  ap_status : option string;
  ap_errorMessage : option string
}.

Record Target := {
  accountId : string;
  accountName : string;
  endpointType : string;
  proxy : string;
  entry : ApiKeyEntry
}.

Record RequestOptions := {
  method : string;
  url : string;
  req_headers : list (string * string);
  req_data : jsval;
  timeout : Z;
  httpAgent : option string
}.

(** Calls made to collaborators, oldest first. *)
Inductive Call : Type :=
| CallGetRecoverableApiKeyEntries (maxEntries maxAgeMs dueBefore : Z)
| CallUpdateApiKeyRecoveryState (accountId entryId : string) (patch : RecoveryPatch)
| CallAxios (req : RequestOptions)
| CallGetAccount (accountId : string)
| CallUpdateAccount (accountId : string) (patch : AccountPatch).

(** The world the service acts on: its two mutable fields, the registry
    behind [droidAccountService], and the calls made so far. *)
Record World := {
  intervalHandle : bool;
  isTickRunning : bool;
  registry : gmap string DroidAccount;
  calls : list Call
}.

Definition setTickRunning (b : bool) (w : World) : World :=
  {| intervalHandle := intervalHandle w; isTickRunning := b;
     registry := registry w; calls := calls w |}.

Definition setIntervalHandle (b : bool) (w : World) : World :=
  {| intervalHandle := b; isTickRunning := isTickRunning w;
     registry := registry w; calls := calls w |}.

Definition setRegistry (r : gmap string DroidAccount) (w : World) : World :=
  {| intervalHandle := intervalHandle w; isTickRunning := isTickRunning w;
     registry := r; calls := calls w |}.

Definition record (c : Call) (w : World) : World :=
  {| intervalHandle := intervalHandle w; isTickRunning := isTickRunning w;
     registry := registry w; calls := calls w ++ [c] |}.

Definition orElse {A} (o : option A) (d : A) : A :=
  match o with Some a => a | None => d end.

(** Modelled from the spec: the body of
    [droidAccountService.updateApiKeyRecoveryState], which is not among the
    sources.  The spec asks of update-recovery-entry that a partial update
    does not clobber unrelated fields: the properties of the patch replace
    the fields of that name, every other field keeps its value. *)
Definition applyPatch (p : RecoveryPatch) (e : ApiKeyEntry) : ApiKeyEntry := {|
  id := id e;
  key := key e;
  status := orElse (p_status p) (status e);
  errorMessage := orElse (p_errorMessage p) (errorMessage e);
  errorSince := orElse (p_errorSince p) (errorSince e);
  recoveryExpiresAt := orElse (p_recoveryExpiresAt p) (recoveryExpiresAt e);
  nextRecoveryAt := orElse (p_nextRecoveryAt p) (nextRecoveryAt e);
  recoveryAttempts :=
    match p_recoveryAttempts p with
    | Some n => Some n
    | None => recoveryAttempts e
    end;
  lastRecoveryAttemptAt := orElse (p_lastRecoveryAttemptAt p) (lastRecoveryAttemptAt e);
  lastRecoveryResult := orElse (p_lastRecoveryResult p) (lastRecoveryResult e)
|}.

Definition patchKey (entryId : string) (p : RecoveryPatch) (e : ApiKeyEntry) : ApiKeyEntry :=
  if String.eqb (id e) entryId then applyPatch p e else e.

Definition patchAccountKeys (entryId : string) (p : RecoveryPatch) (a : DroidAccount)
  : DroidAccount := {|
  acc_name := acc_name a;
  acc_status := acc_status a;
  acc_schedulable := acc_schedulable a;
  acc_errorMessage := acc_errorMessage a;
  apiKeys := map (patchKey entryId p) (apiKeys a)
|}.

(** Modelled from the spec: the body of [droidAccountService.updateAccount]
    (update-fields, a partial update), which is not among the sources. *)
Definition applyAccountPatch (p : AccountPatch) (a : DroidAccount) : DroidAccount := {|
  acc_name := acc_name a;
  acc_status := orElse (ap_status p) (acc_status a);
  acc_schedulable := orElse (ap_schedulable p) (acc_schedulable a);
  acc_errorMessage := orElse (ap_errorMessage p) (acc_errorMessage a);
  apiKeys := apiKeys a
|}.

(** The entry the registry holds for a key. *)
Definition storedEntry (w : World) (accountId entryId : string) : option ApiKeyEntry :=
  match registry w !! accountId with
  | Some a => List.find (fun e => String.eqb (id e) entryId) (apiKeys a)
  | None => None
  end.

(** [await droidAccountService.updateApiKeyRecoveryState(...)]: the call is
    made; when the registry answers normally the patch is stored, when it
    rejects nothing is stored and the rejection is thrown. *)
Definition updateApiKeyRecoveryState (answer : completion unit)
    (accountId entryId : string) (patch : RecoveryPatch) : M World unit :=
  modify (record (CallUpdateApiKeyRecoveryState accountId entryId patch)) ;;
  match answer with
  | Normal _ =>
      modify (fun w =>
        setRegistry (alter (patchAccountKeys entryId patch) accountId (registry w)) w)
  | Throw e => throw e
  end.

Definition getAccount (answer : completion unit) (accountId : string)
  : M World (option DroidAccount) :=
  modify (record (CallGetAccount accountId)) ;;
  match answer with
  | Normal _ => gets (fun w => registry w !! accountId)
  | Throw e => throw e
  end.

Definition updateAccount (answer : completion unit) (accountId : string)
    (patch : AccountPatch) : M World unit :=
  modify (record (CallUpdateAccount accountId patch)) ;;
  match answer with
  | Normal _ =>
      modify (fun w =>
        setRegistry (alter (applyAccountPatch patch) accountId (registry w)) w)
  | Throw e => throw e
  end.

(** *** Building and sending the probe *)

Definition _normalizeEndpointType (endpointType : string) : string :=
  if negb (nonEmpty endpointType) then "anthropic"
  else
    let normalized := toLowerCase endpointType in
    if String.eqb normalized "openai" || String.eqb normalized "common" then "openai"
    else "anthropic".

Definition sayHello : string := "say word " +:+ dquote +:+ "hello" +:+ dquote.

Definition textBlock (text : string) : jsval :=
  VObj [("type", VStr "text"); ("text", VStr text)].

Definition userMessage : jsval :=
  VObj [("role", VStr "user"); ("content", VArr [textBlock sayHello])].

Definition _buildProbePayload (svc : Service) (endpointType : string) : jsval :=
  if String.eqb endpointType "openai" then
    VObj [("model", VStr (openaiModel svc));
          ("input", VArr [userMessage]);
          ("instructions", VStr (probePrompt svc));
          ("max_output_tokens", VNum 64);
          ("stream", VBool false)]
  else
    VObj [("model", VStr (anthropicModel svc));
          ("max_tokens", VNum 64);
          ("messages", VArr [userMessage]);
          ("system", VArr [textBlock (probePrompt svc)]);
          ("stream", VBool false)].

Definition _buildHeaders (sessionId apiKey endpointType : string) : list (string * string) :=
  let headers :=
    [("content-type", "application/json");
     ("authorization", "Bearer " +:+ apiKey);
     ("user-agent", "droid-key-recovery/1.0.0");
     ("x-factory-client", "cli");
     ("accept", "application/json");
     ("connection", "keep-alive");
     ("x-session-id", sessionId)] in
  if String.eqb endpointType "anthropic" then
    headers ++ [("anthropic-version", "2023-06-01");
                ("x-api-key", "placeholder");
                ("x-api-provider", "anthropic")]
  else if String.eqb endpointType "openai" then
    headers ++ [("x-api-provider", "azure_openai")]
  else headers.

(** The timeout option of the request: [Math.max(Math.min(requestTimeoutMs,
    60000), 5000)]. *)
Definition probeTimeout (svc : Service) : Z :=
  Z.max (Z.min (requestTimeoutMs svc) 60000) 5000.

(** What the collaborators answer during one [_attemptRecovery]:
    the clock, [randomUUID()], each registry call in program order, what
    [ProxyHelper.createProxyAgent] makes of the target's proxy (a rejection
    stands for a descriptor that does not parse as well), and the
    network. *)
Record AttemptEnv := {
  now : Z;
  sessionId : string;
  pendingWrite : completion unit;
  proxyAgent : completion (option string);
  probeAnswer : AxiosAnswer;
  resultWrite : completion unit;
  accountRead : completion unit;
  accountWrite : completion unit;
  failureWrite : completion unit
}.

Definition statusError (r : Response) : Error := {|
  message := "Probe failed with status " +:+ pretty (resp_status r);
  code := None;
  response := Some r
|}.

(** The [requestOptions] object [_sendProbeRequest] assembles. *)
Definition requestOptionsFor (svc : Service) (env : AttemptEnv)
    (endpointType apiKey proxy : string) : RequestOptions :=
  let endpointPath := orElse (endpoints endpointType) "/a/v1/messages" in
  let url := factoryApiBaseUrl svc +:+ endpointPath in
  let headers := _buildHeaders (sessionId env) apiKey endpointType in
  let data := _buildProbePayload svc endpointType in
  let agent :=
    if nonEmpty proxy then
      match proxyAgent env with
      | Normal a => a
      | Throw _ => None
      end
    else None in
  {| method := "POST";
     url := url;
     req_headers := headers;
     req_data := data;
     timeout := probeTimeout svc;
     httpAgent := agent |}.

Definition _sendProbeRequest (svc : Service) (env : AttemptEnv)
    (endpointType apiKey proxy : string) : M World Response :=
  let requestOptions := requestOptionsFor svc env endpointType apiKey proxy in
  modify (record (CallAxios requestOptions)) ;;
  let* response := lift (axios (fun _ => true) (probeAnswer env)) in
  if 400 <=? resp_status response then throw (statusError response)
  else ret response.

(** *** Reading the answer *)

Definition collect (texts : list string) (value : jsval) : list string :=
  match value with
  | VStr s => if nonEmpty (trim s) then texts ++ [trim s] else texts
  | _ => texts
  end.

(** The body shared by the three loops over content blocks:
    a string is collected, otherwise the [text] of a truthy block. *)
Definition collectBlock (texts : list string) (content : jsval) : list string :=
  if isString content then collect texts content
  else if truthy content && isString (prop content "text")
       then collect texts (prop content "text")
       else texts.

Definition collectOutputItem (texts : list string) (item : jsval) : list string :=
  if truthy item then
    let texts :=
      if isString (prop item "text") then collect texts (prop item "text") else texts in
    match prop item "content" with
    | VArr contents => fold_left collectBlock contents texts
    | _ => texts
    end
  else texts.

(** One turn of the loop over [data.choices].  [choice && choice.message]
    guards the first read; [choice.output_text] is read unguarded. *)
Definition collectChoice (texts : list string) (choice : jsval) : completion (list string) :=
  let message := if truthy choice then prop choice "message" else choice in
  let texts :=
    if truthy message then
      match prop message "content" with
      | VStr s => collect texts (VStr s)
      | VArr chunks => fold_left collectBlock chunks texts
      | _ => texts
      end
    else texts in
  andThen (getProp choice "output_text") (fun outputText =>
    match outputText with
    | VArr items => Normal (fold_left collect items texts)
    | _ => Normal texts
    end).

Definition fromOutputText (data : jsval) (texts : list string) : list string :=
  match prop data "output_text" with
  | VArr items => fold_left collect items texts
  | VStr s => collect texts (VStr s)
  | _ => texts
  end.

Definition fromOutput (data : jsval) (texts : list string) : list string :=
  match prop data "output" with
  | VArr items => fold_left collectOutputItem items texts
  | _ => texts
  end.

Definition fromContent (data : jsval) (texts : list string) : list string :=
  match prop data "content" with
  | VArr items => fold_left collectBlock items texts
  | _ => texts
  end.

Definition fromChoices (data : jsval) (texts : list string) : completion (list string) :=
  match prop data "choices" with
  | VArr items => foldThrowing collectChoice items texts
  | _ => Normal texts
  end.

Definition fromText (data : jsval) (texts : list string) : list string :=
  match prop data "text" with
  | VStr s => collect texts (VStr s)
  | _ => texts
  end.

Definition _extractResponseText (data : jsval) : completion string :=
  if negb (truthy data) || negb (typeofObject data) then Normal ""
  else
    let texts := fromOutputText data [] in
    let texts := fromOutput data texts in
    let texts := fromContent data texts in
    andThen (fromChoices data texts) (fun texts =>
      let texts := fromText data texts in
      Normal (hd "" texts)).

Definition _formatFailureReason (error : Error) : FailureReason :=
  match response error with
  | Some r =>
      let detail :=
        match resp_data r with
        | VStr s => VStr s
        | d =>
            let e := match d with VNull | VUndefined => VUndefined | _ => prop d "error" end in
            if truthy e then e else VStr (message error)
        end in
      ReasonHttp (resp_status r) (ToString detail)
  | None =>
      match code error with
      | Some c =>
          if nonEmpty c then ReasonCode c (strOr (message error) "network error")
          else ReasonMessage (strOr (message error) "unknown error")
      | None => ReasonMessage (strOr (message error) "unknown error")
      end
  end.

(** *** One recovery attempt *)

Definition noPatch : RecoveryPatch := {|
  p_status := None; p_errorMessage := None; p_errorSince := None;
  p_recoveryExpiresAt := None; p_nextRecoveryAt := None; p_recoveryAttempts := None;
  p_lastRecoveryAttemptAt := None; p_lastRecoveryResult := None
|}.

(** The immediately-invoked arrow function that yields [recoveryDeadlineMs]. *)
Definition recoveryDeadlineMs (svc : Service) (now : Z) (entry : ApiKeyEntry) : num :=
  let parsed :=
    if isoTruthy (recoveryExpiresAt entry) then Date_parse (recoveryExpiresAt entry)
    else None in
  match parsed with
  | Some finite => Some finite
  | None =>
      let errorSinceMs :=
        if isoTruthy (errorSince entry) then Date_parse (errorSince entry) else Some now in
      match errorSinceMs with
      | Some ms => Some (ms + recoveryWindowMs svc)
      | None => None
      end
  end.

Definition pendingUpdate (entry : ApiKeyEntry) (nowIso nextAttemptIso recoveryDeadlineIso : IsoField)
    (attemptNumber : Z) : RecoveryPatch := {|
  p_status := None;
  p_errorMessage := None;
  p_errorSince := if isoTruthy (errorSince entry) then None else Some nowIso;
  p_recoveryExpiresAt :=
    if isoTruthy (recoveryExpiresAt entry) then None else Some recoveryDeadlineIso;
  p_nextRecoveryAt := Some nextAttemptIso;
  p_recoveryAttempts := Some attemptNumber;
  p_lastRecoveryAttemptAt := Some nowIso;
  p_lastRecoveryResult := None
|}.

Definition recoveredUpdate (nowIso : IsoField) : RecoveryPatch := {|
  p_status := Some "active";
  p_errorMessage := Some "";
  p_errorSince := Some IsoAbsent;
  p_recoveryExpiresAt := Some IsoAbsent;
  p_nextRecoveryAt := Some IsoAbsent;
  p_recoveryAttempts := Some 0;
  p_lastRecoveryAttemptAt := Some nowIso;
  p_lastRecoveryResult := Some (RecoveredAt nowIso)
|}.

(** The update of the two paths that leave the key in error: an answer
    without text, and a failed probe. *)
Definition retryUpdate (note : ResultNote) (nextAttemptIso recoveryDeadlineIso : IsoField)
  : RecoveryPatch := {|
  p_status := None;
  p_errorMessage := None;
  p_errorSince := None;
  p_recoveryExpiresAt := Some recoveryDeadlineIso;
  p_nextRecoveryAt := Some nextAttemptIso;
  p_recoveryAttempts := None;
  p_lastRecoveryAttemptAt := None;
  p_lastRecoveryResult := Some note
|}.

Definition needsReactivation (account : DroidAccount) : bool :=
  negb (String.eqb (acc_status account) "active")
  || match acc_schedulable account with
     | VStr s => String.eqb s "false"
     | VBool b => negb b
     | _ => false
     end.

Definition _reactivateAccountIfNeeded (env : AttemptEnv) (accountId : string) : M World unit :=
  tryCatch
    (let* account := getAccount (accountRead env) accountId in
     match account with
     | Some a =>
         if needsReactivation a then
           updateAccount (accountWrite env) accountId
             {| ap_schedulable := Some (VBool true);
                ap_status := Some "active";
                ap_errorMessage := Some "" |}
         else ret tt
     | None => ret tt
     end)
    (fun _ => ret tt).

Definition _attemptRecovery (svc : Service) (env : AttemptEnv) (target : Target)
  : M World unit :=
  let accountId := accountId target in
  let entry := entry target in
  let normalizedEndpoint := _normalizeEndpointType (endpointType target) in
  let now := now env in
  let* nowIso := lift (toISOString (Date_new (Some now))) in
  let attemptNumber := numOr (recoveryAttempts entry) 0 + 1 in
  let* nextAttemptIso := lift (toISOString (Date_new (Some (now + probeIntervalMs svc)))) in
  let* recoveryDeadlineIso :=
    lift (toISOString (Date_new (recoveryDeadlineMs svc now entry))) in
  updateApiKeyRecoveryState (pendingWrite env) accountId (id entry)
    (pendingUpdate entry nowIso nextAttemptIso recoveryDeadlineIso attemptNumber) ;;
  tryCatch
    (let* response :=
       _sendProbeRequest svc env normalizedEndpoint (key entry) (proxy target) in
     let* extractedText := lift (_extractResponseText (resp_data response)) in
     if nonEmpty (trim extractedText) then
       updateApiKeyRecoveryState (resultWrite env) accountId (id entry)
         (recoveredUpdate nowIso) ;;
       _reactivateAccountIfNeeded env accountId
     else
       updateApiKeyRecoveryState (resultWrite env) accountId (id entry)
         (retryUpdate (EmptyResponseAt nowIso) nextAttemptIso recoveryDeadlineIso))
    (fun error =>
       let failureReason := _formatFailureReason error in
       updateApiKeyRecoveryState (failureWrite env) accountId (id entry)
         (retryUpdate (FailedWith failureReason) nextAttemptIso recoveryDeadlineIso)).

(** *** The same key over successive cycles

    The next cycle that selects a key reads its entry back from the
    registry.  [attemptsInTurn] is the sequence of attempts successive
    cycles make on one key, one environment per cycle. *)
Definition withEntry (target : Target) (e : ApiKeyEntry) : Target := {|
  accountId := accountId target;
  accountName := accountName target;
  endpointType := endpointType target;
  proxy := proxy target;
  entry := e
|}.

Fixpoint attemptsInTurn (svc : Service) (envs : list AttemptEnv) (target : Target)
  : M World unit :=
  match envs with
  | [] => ret tt
  | env :: rest =>
      let* stored := gets (fun w => storedEntry w (accountId target) (id (entry target))) in
      match stored with
      | Some e =>
          _attemptRecovery svc env (withEntry target e) ;;
          attemptsInTurn svc rest target
      | None => ret tt
      end
  end.

(** What the probe of an attempt comes to, apart from the calls it
    records: the response [_sendProbeRequest] returns or the error it
    throws, and the text [_extractResponseText] then finds. *)
Definition probeResponse (env : AttemptEnv) : completion Response :=
  andThen (axios (fun _ => true) (probeAnswer env)) (fun response =>
    if 400 <=? resp_status response then Throw (statusError response)
    else Normal response).

Definition extractedText (env : AttemptEnv) : completion string :=
  andThen (probeResponse env) (fun response => _extractResponseText (resp_data response)).

(** The test that opens the success branch of [_attemptRecovery]. *)
Definition recovers (env : AttemptEnv) : bool :=
  match extractedText env with
  | Normal text => nonEmpty (trim text)
  | Throw _ => false
  end.

(** The note of the attempt that does not recover the key: the one the
    [catch] block writes when the probe or the reading of its answer threw,
    else the one written after the test. *)
Definition retryNote (env : AttemptEnv) : ResultNote :=
  match extractedText env with
  | Normal _ => EmptyResponseAt (IsoTime (now env))
  | Throw error => FailedWith (_formatFailureReason error)
  end.

(** *** The cycle *)

(** What the collaborators answer during one [_tick]: the clock, the
    entries [getRecoverableApiKeyEntries] selects ([None] for a null
    answer), and the answers met by the attempt on the k-th target. *)
Record TickEnv := {
  tickNow : Z;
  selection : completion (option (list Target));
  answers : nat -> AttemptEnv
}.

Definition getRecoverableApiKeyEntries (answer : completion (option (list Target)))
    (maxEntries maxAgeMs dueBefore : Z) : M World (option (list Target)) :=
  modify (record (CallGetRecoverableApiKeyEntries maxEntries maxAgeMs dueBefore)) ;;
  lift answer.

(** [for (const target of targets) await this._attemptRecovery(target)] *)
Fixpoint attemptEach (svc : Service) (answers : nat -> AttemptEnv) (k : nat)
    (targets : list Target) : M World unit :=
  match targets with
  | [] => ret tt
  | target :: rest =>
      _attemptRecovery svc (answers k) target ;;
      attemptEach svc answers (S k) rest
  end.

(** The [try] block of [_tick]. *)
Definition tickBody (svc : Service) (env : TickEnv) : M World unit :=
  let* targets :=
    getRecoverableApiKeyEntries (selection env)
      (maxConcurrentProbes svc) (recoveryWindowMs svc) (tickNow env) in
  match targets with
  | None | Some [] => ret tt
  | Some ts => attemptEach svc (answers env) 0 ts
  end.

Definition _tick (svc : Service) (env : TickEnv) : M World unit :=
  let* running := gets isTickRunning in
  if (running : bool) then ret tt
  else
    modify (setTickRunning true) ;;
    tryFinally
      (tryCatch (tickBody svc env) (fun _ => ret tt))
      (modify (setTickRunning false)).

(** *** Timers and overlapping ticks

    [_tick] is [async]: it runs up to its first [await] when the timer
    fires, and the rest of its body runs later, interleaved with whatever
    the timers and the callers of [start] and [stop] do meanwhile.  A
    [Process] is the service between two such turns: its world, the
    number of [_tick] calls that entered the [try] block and have not yet
    left it, and the number of calls that returned at the guard. *)
Record Process := {
  world : World;
  inFlight : nat;
  skipped : nat
}.

Inductive Event : Type :=
| Start
| Stop
| IntervalFires
| CycleSettles (threw : bool).

(** The synchronous head of [_tick]: the guard test and, past it,
    [this.isTickRunning = true]. *)
Definition tickEnters (p : Process) : Process :=
  if isTickRunning (world p) then
    {| world := world p; inFlight := inFlight p; skipped := S (skipped p) |}
  else
    {| world := setTickRunning true (world p);
       inFlight := S (inFlight p); skipped := skipped p |}.

(** The [finally] block of a call that is in flight, reached whether the
    [try] block returned or threw. *)
Definition tickLeaves (p : Process) : option Process :=
  match inFlight p with
  | O => None
  | S n =>
      Some {| world := setTickRunning false (world p);
              inFlight := n; skipped := skipped p |}
  end.

Definition start (svc : Service) (p : Process) : Process :=
  if negb (enabled svc) then p
  else if intervalHandle (world p) then p
  else
    tickEnters {| world := setIntervalHandle true (world p);
                  inFlight := inFlight p; skipped := skipped p |}.

Definition stop (p : Process) : Process :=
  if intervalHandle (world p) then
    {| world := setIntervalHandle false (world p);
       inFlight := inFlight p; skipped := skipped p |}
  else p.

(** An event that cannot happen in the state ([setInterval] firing with no
    timer set, a cycle settling when none is in flight) has no successor. *)
Definition step (svc : Service) (p : Process) (e : Event) : option Process :=
  match e with
  | Start => Some (start svc p)
  | Stop => Some (stop p)
  | IntervalFires => if intervalHandle (world p) then Some (tickEnters p) else None
  | CycleSettles _ => tickLeaves p
  end.

Fixpoint run (svc : Service) (p : Process) (events : list Event) : option Process :=
  match events with
  | [] => Some p
  | e :: rest =>
      match step svc p e with
      | Some p' => run svc p' rest
      | None => None
      end
  end.

(** The service as [module.exports] creates it. *)
Definition newWorld (registry : gmap string DroidAccount) : World :=
  {| intervalHandle := false; isTickRunning := false;
     registry := registry; calls := [] |}.

Definition newProcess (registry : gmap string DroidAccount) : Process :=
  {| world := newWorld registry; inFlight := 0; skipped := 0 |}.

End Recovery.

(** ** The keepalive service: [ClaudeHeartbeatService] *)

Module Heartbeat.

(** *** Configuration *)

(** [config.claude.heartbeat].  Settings read through [parseInt] are kept as
    the text [parseInt] reads (a number is its decimal text, an absent
    setting the empty text); an absent string is the empty string. *)
Record HeartbeatConfig := {
  hb_enabled : bool;
  hb_scanIntervalMs : string;
  hb_model : string;
  hb_maxTokens : num;
  hb_prompt : string;
  hb_includeSystemPrompt : option bool;
  hb_systemPrompt : string;
  hb_cooldownMinutes : string;
  hb_usageRefreshMaxAgeMs : string;
  hb_endpoint : string;
  hb_userAgent : string;
  hb_timeoutMs : num
}.

(** [config.claude] *)
Record ClaudeConfig := {
  heartbeat : HeartbeatConfig;
  defaultModel : string;
  fallbackModel : string;
  apiUrl : string;
  apiVersion : string;
  betaHeader : string
}.

(** *** Accounts *)

(** An account as the registry returns it: a hash of strings, where the empty
    string also stands for a missing field; [scopes] and [subscriptionInfo]
    may hold text or structured data. *)
Record Account := {
  id : string;
  name : string;
  platform : string;
  accountType : string;
  scopes : jsval;
  isActive : string;
  schedulable : string;
  fiveHourAutoStopped : string;
  rateLimitAutoStopped : string;
  rateLimitStatus : string;
  rateLimitedAt : string;
  status : string;
  subscriptionInfo : jsval;
  claudeUsageUpdatedAt : IsoField;
  proxy : string
}.

Definition withId (accountId : string) (a : Account) : Account := {|
  id := accountId; name := name a; platform := platform a;
  accountType := accountType a; scopes := scopes a; isActive := isActive a;
  schedulable := schedulable a; fiveHourAutoStopped := fiveHourAutoStopped a;
  rateLimitAutoStopped := rateLimitAutoStopped a;
  rateLimitStatus := rateLimitStatus a; rateLimitedAt := rateLimitedAt a;
  status := status a; subscriptionInfo := subscriptionInfo a;
  claudeUsageUpdatedAt := claudeUsageUpdatedAt a; proxy := proxy a
|}.

Record Evaluation := {
  shouldHeartbeat : bool;
  account : Account
}.

Record Options := {
  model : string;
  maxTokens : Z;
  prompt : string;
  includeSystemPrompt : bool;
  systemPrompt : string
}.

Record PostRequest := {
  post_url : string;
  post_payload : jsval;
  post_headers : list (string * string);
  post_timeout : Z;
  post_agent : option string
}.

(** Calls made to collaborators, oldest first. *)
Inductive Call : Type :=
| CallGetAllClaudeAccounts
| CallGetClaudeAccount (accountId : string)
| CallFetchOAuthUsage (accountId : string)
| CallUpdateClaudeUsageSnapshot (accountId : string) (usageData : jsval)
| CallGetValidAccessToken (accountId : string)
| CallPost (req : PostRequest)
| CallMarkAccountRateLimited (accountId : string) (resetsAt : option Z)
| CallMarkAccountOverloaded (accountId : string).

(** The instance: its four fields, and the calls made so far. *)
Record World := {
  interval : bool;
  isRunning : bool;
  intervalMs : Z;
  recentHeartbeats : gmap string Z;
  calls : list Call
}.

Definition setInterval (b : bool) (ms : Z) (w : World) : World :=
  {| interval := b; isRunning := isRunning w; intervalMs := ms;
     recentHeartbeats := recentHeartbeats w; calls := calls w |}.

Definition setRunning (b : bool) (w : World) : World :=
  {| interval := interval w; isRunning := b; intervalMs := intervalMs w;
     recentHeartbeats := recentHeartbeats w; calls := calls w |}.

Definition setRecent (m : gmap string Z) (w : World) : World :=
  {| interval := interval w; isRunning := isRunning w; intervalMs := intervalMs w;
     recentHeartbeats := m; calls := calls w |}.

Definition record (c : Call) (w : World) : World :=
  {| interval := interval w; isRunning := isRunning w; intervalMs := intervalMs w;
     recentHeartbeats := recentHeartbeats w; calls := calls w ++ [c] |}.

(** [await collaborator(...)]: the call is made, then its answer stands. *)
Definition call {A} (c : Call) (answer : completion A) : M World A :=
  modify (record c) ;; lift answer.

Definition strOr (s d : string) : string := if nonEmpty s then s else d.

Section Service.

(** [JSON.parse], which throws on text that is not JSON. *)
Variable JSON_parse : string -> completion jsval.

(** *** The predicate chain *)

Definition _isClaudePlatform (account : Account) : bool :=
  includes "claude" (toLowerCase (strOr (platform account) (strOr (accountType account) ""))).

Definition jsStrEq (v : jsval) (s : string) : bool :=
  match v with VStr t => String.eqb t s | _ => false end.

(** [list.includes(s)] for a string [s]. *)
Definition arrayIncludes (s : string) (items : list jsval) : bool :=
  existsb (fun v => jsStrEq v s) items.

Definition _isOAuthAccount (account : Account) : bool :=
  if negb (truthy (scopes account)) then false
  else
    let scopeList :=
      match scopes account with
      | VStr text => map (fun scope => VStr (trim scope)) (splitOn " " text)
      | VArr items => items
      | _ => []
      end in
    arrayIncludes "user:profile" scopeList && arrayIncludes "user:inference" scopeList.

Definition _isAccountHealthy (account : Account) : bool :=
  if String.eqb (isActive account) "false" then false
  else if String.eqb (schedulable account) "false" then false
  else if String.eqb (fiveHourAutoStopped account) "true" then false
  else if String.eqb (rateLimitAutoStopped account) "true" then false
  else if String.eqb (rateLimitStatus account) "limited" then false
  else if nonEmpty (rateLimitedAt account) then false
  else if nonEmpty (status account) && negb (String.eqb (status account) "active") then false
  else true.

(** [null] is [VNull]. *)
Definition _parseSubscriptionInfo (subscriptionInfo : jsval) : jsval :=
  if negb (truthy subscriptionInfo) then VNull
  else if typeofObject subscriptionInfo then subscriptionInfo
  else
    match subscriptionInfo with
    | VStr text =>
        if nonEmpty (trim text) then
          match JSON_parse text with
          | Normal parsed => parsed
          | Throw _ => VNull
          end
        else VNull
    | _ => VNull
    end.

Definition _isClaudeMaxAccount (account : Account) : bool :=
  let info := _parseSubscriptionInfo (subscriptionInfo account) in
  if negb (truthy info) then false
  else if jsStrEq (prop info "accountType") "claude_max" then true
  else
    match prop info "hasClaudeMax" with
    | VBool true => true
    | _ => false
    end.

(** *** The usage snapshot *)

(** [o?.k] *)
Definition optProp (o : jsval) (k : string) : jsval :=
  match o with
  | VUndefined | VNull => VUndefined
  | _ => prop o k
  end.

(** [snapshot?.fiveHour?.remainingSeconds] *)
Definition remainingSecondsOf (snapshot : jsval) : jsval :=
  optProp (optProp snapshot "fiveHour") "remainingSeconds".

(** [typeof remainingSeconds === 'number' && remainingSeconds > 0] *)
Definition hasCountdown (snapshot : jsval) : bool :=
  match remainingSecondsOf snapshot with
  | VNum n => 0 <? n
  | _ => false
  end.

(** What the collaborators answer during one [_refreshUsageSnapshot]:
    [fetchOAuthUsage], [updateClaudeUsageSnapshot], [redis.getClaudeAccount]
    ([None] for null or an object without keys) and
    [buildClaudeUsageSnapshot] on the account just read. *)
Record RefreshEnv := {
  fetched : completion jsval;
  usageWrite : completion unit;
  latest : completion (option Account);
  latestSnapshot : jsval
}.

Definition _refreshUsageSnapshot (env : RefreshEnv) (accountId : string)
  : M World (option (Account * jsval)) :=
  tryCatch
    (let* usageData := call (CallFetchOAuthUsage accountId) (fetched env) in
     if truthy usageData then
       call (CallUpdateClaudeUsageSnapshot accountId usageData) (usageWrite env)
     else ret tt)
    (fun _ => ret tt) ;;
  let* latestAccount := call (CallGetClaudeAccount accountId) (latest env) in
  match latestAccount with
  | None => ret None
  | Some a => ret (Some (withId accountId a, latestSnapshot env))
  end.

(** What the collaborators answer during one
    [_evaluateAccountForHeartbeat]: [buildClaudeUsageSnapshot] on the
    account as scanned, and the refresh if one is made. *)
Record EvaluateEnv := {
  snapshot : jsval;
  refresh : RefreshEnv
}.

Definition usageFreshnessMs (heartbeatConfig : HeartbeatConfig) : Z :=
  numOr (parseInt10 (hb_usageRefreshMaxAgeMs heartbeatConfig)) 120000.

Definition usageIsStale (heartbeatConfig : HeartbeatConfig) (accountData : Account)
    (nowMs : Z) : bool :=
  let updatedAtMs :=
    if isoTruthy (claudeUsageUpdatedAt accountData)
    then Date_parse (claudeUsageUpdatedAt accountData)
    else Some 0 in
  (0 <? usageFreshnessMs heartbeatConfig)
  && match updatedAtMs with
     | None => true
     | Some ms => (ms =? 0) || (usageFreshnessMs heartbeatConfig <? nowMs - ms)
     end.

(** [lastHeartbeatAt && nowMs - lastHeartbeatAt < cooldownMs] *)
Definition inCooldown (lastHeartbeatAt : option Z) (nowMs cooldownMs : Z) : bool :=
  match lastHeartbeatAt with
  | Some t => negb (t =? 0) && (nowMs - t <? cooldownMs)
  | None => false
  end.

Definition _evaluateAccountForHeartbeat (env : EvaluateEnv) (account : Account)
    (nowMs : Z) (heartbeatConfig : HeartbeatConfig) (cooldownMs : Z)
  : M World (option Evaluation) :=
  let accountId := id account in
  if negb (_isClaudePlatform account) then ret None
  else if negb (_isOAuthAccount account) then ret None
  else if negb (_isAccountHealthy account) then ret None
  else if negb (_isClaudeMaxAccount account) then ret None
  else
    let* lastHeartbeatAt := gets (fun w => recentHeartbeats w !! accountId) in
    if inCooldown lastHeartbeatAt nowMs cooldownMs then ret None
    else
      let accountData := account in
      let snapshot := snapshot env in
      let* current :=
        if negb (hasCountdown snapshot) && usageIsStale heartbeatConfig accountData nowMs
        then
          let* refreshed := _refreshUsageSnapshot (refresh env) accountId in
          match refreshed with
          | Some (latestAccount, latestSnapshot) => ret (latestAccount, latestSnapshot)
          | None => ret (accountData, snapshot)
          end
        else ret (accountData, snapshot) in
      let '(accountData, snapshot) := current in
      if hasCountdown snapshot then ret None
      else ret (Some {| shouldHeartbeat := true; account := accountData |}).

(** The snapshot the decision of [_evaluateAccountForHeartbeat] is taken on,
    for an account that reaches the usage check: the one built from the
    scanned account, or, when that one shows no countdown and the stored
    usage is stale, the one built after the refresh ([getClaudeAccount]
    rejecting is the one failure the refresh lets through; a null answer
    keeps the first snapshot). *)
Definition usageInEffect (heartbeatConfig : HeartbeatConfig) (env : EvaluateEnv)
    (account : Account) (nowMs : Z) : completion jsval :=
  if negb (hasCountdown (snapshot env)) && usageIsStale heartbeatConfig account nowMs then
    match latest (refresh env) with
    | Normal (Some _) => Normal (latestSnapshot (refresh env))
    | Normal None => Normal (snapshot env)
    | Throw e => Throw e
    end
  else Normal (snapshot env).

(** *** The probe *)

(** What the collaborators answer during one [_sendHeartbeatForAccount]:
    [getValidAccessToken] (the empty string for no token),
    [ProxyHelper.createProxyAgent], the network, the refresh after a
    success, [markAccountRateLimited] or [markAccountOverloaded], and the
    clock read in the [finally] block. *)
Record SendEnv := {
  token : completion string;
  agent : completion (option string);
  posted : AxiosAnswer;
  afterSuccess : RefreshEnv;
  marked : completion unit;
  exitTime : Z
}.

Definition sayHello : string := "say word " +:+ dquote +:+ "hello" +:+ dquote.

Definition chatMessage (role content : string) : jsval :=
  VObj [("role", VStr role); ("content", VStr content)].

(** The request [_sendHeartbeatForAccount] posts: [apiUrl], [payload] and
    [axiosConfig]. *)
Definition postRequestFor (config : ClaudeConfig) (account : Account) (options : Options)
    (apiUrl token : string) (proxyAgent : option string) : PostRequest :=
  let heartbeatConfig := heartbeat config in
  let headers : list (string * string) :=
    List.app
      [("Authorization", "Bearer " +:+ token);
       ("Content-Type", "application/json");
       ("Accept", "application/json");
       ("anthropic-version", strOr (apiVersion config) "2023-06-01");
       ("User-Agent", strOr (hb_userAgent heartbeatConfig) "claude-heartbeat/1.0.0");
       ("X-Heartbeat-Account", id account)]
      (if nonEmpty (betaHeader config)
       then [("anthropic-beta", betaHeader config)] else []) in
  let messages : list jsval :=
    List.app
      (if includeSystemPrompt options
       then [chatMessage "system" (systemPrompt options)] else [])
      [chatMessage "user" (prompt options)] in
  let payload :=
    VObj [("model", VStr (model options));
          ("max_tokens", VNum (maxTokens options));
          ("messages", VArr messages)] in
  {| post_url := apiUrl;
     post_payload := payload;
     post_headers := headers;
     post_timeout := numOr (hb_timeoutMs heartbeatConfig) 15000;
     post_agent := proxyAgent |}.

(** The [try] block of [_sendHeartbeatForAccount]. *)
Definition heartbeatBody (config : ClaudeConfig) (env : SendEnv) (account : Account)
    (options : Options) : M World unit :=
  let* token := call (CallGetValidAccessToken (id account)) (token env) in
  if negb (nonEmpty token) then ret tt
  else
    let* proxyAgent := lift (agent env) in
    let heartbeatConfig := heartbeat config in
    let apiUrl := strOr (hb_endpoint heartbeatConfig) (apiUrl config) in
    if negb (nonEmpty apiUrl) then
      throw (mkError "Claude API URL is not configured (config.claude.apiUrl)")
    else
      call (CallPost (postRequestFor config account options apiUrl token proxyAgent))
        (axios defaultValidateStatus (posted env)) ;;
      _refreshUsageSnapshot (afterSuccess env) (id account) ;;
      ret tt.

(** [resetHeader ? parseInt(resetHeader, 10) : null], then
    [Number.isFinite(parsedReset) ? parsedReset : null]; [None] is null. *)
Definition resetEpoch (error : Error) : option Z :=
  let resetHeader :=
    match response error with
    | Some r => lookupHeader "anthropic-ratelimit-unified-reset" (resp_headers r)
    | None => None
    end in
  match resetHeader with
  | Some text =>
      if nonEmpty text then
        let parsedReset := parseInt10 text in
        if Number_isFinite parsedReset then parsedReset else None
      else None
  | None => None
  end.

(** The [catch] block of [_sendHeartbeatForAccount]; the message it
    assembles goes to the log only. *)
Definition heartbeatFailed (env : SendEnv) (account : Account) (error : Error)
  : M World unit :=
  let status := option_map resp_status (response error) in
  let statusIs (n : Z) := match status with Some s => s =? n | None => false end in
  if statusIs 429 then
    call (CallMarkAccountRateLimited (id account) (resetEpoch error)) (marked env)
  else if statusIs 529 then
    call (CallMarkAccountOverloaded (id account)) (marked env)
  else ret tt.

Definition _sendHeartbeatForAccount (config : ClaudeConfig) (env : SendEnv)
    (account : Account) (options : Options) : M World unit :=
  tryFinally
    (tryCatch (heartbeatBody config env account options)
              (heartbeatFailed env account))
    (modify (fun w =>
       setRecent (<[id account := exitTime env]> (recentHeartbeats w)) w)).

(** *** The cycle *)

Definition expirationMs : Z := 24 * 60 * 60 * 1000.

Definition keepRecent (nowMs timestamp : Z) : option Z :=
  if (timestamp =? 0) || (expirationMs <? nowMs - timestamp) then None
  else Some timestamp.

Definition _cleanupRecentHeartbeats (nowMs : Z) : M World unit :=
  modify (fun w => setRecent (omap (keepRecent nowMs) (recentHeartbeats w)) w).

(** What the collaborators answer during one [_runHeartbeatCycle]:
    [redis.getAllClaudeAccounts] ([None] for a null answer), and the answers
    met while the k-th account of the scan is evaluated and probed. *)
Record CycleEnv := {
  allAccounts : completion (option (list Account));
  evaluations : nat -> EvaluateEnv;
  sends : nat -> SendEnv
}.

(** The two counters of the scan, reported when it ends. *)
Record Counters := {
  processed : nat;
  heartbeatsTriggered : nat
}.

Definition cooldownMsOf (heartbeatConfig : HeartbeatConfig) : Z :=
  let cooldownMinutes := numOr (parseInt10 (hb_cooldownMinutes heartbeatConfig)) 10 in
  Z.max cooldownMinutes 0 * 60 * 1000.

Definition optionsOf (config : ClaudeConfig) : Options :=
  let heartbeatConfig := heartbeat config in {|
  model :=
    strOr (hb_model heartbeatConfig)
      (strOr (defaultModel config)
         (strOr (fallbackModel config) "claude-3-haiku-20240307"));
  maxTokens := numOr (hb_maxTokens heartbeatConfig) 32;
  prompt := strOr (hb_prompt heartbeatConfig) sayHello;
  includeSystemPrompt :=
    match hb_includeSystemPrompt heartbeatConfig with Some false => false | _ => true end;
  systemPrompt :=
    strOr (hb_systemPrompt heartbeatConfig)
      "You are performing an availability check. Reply briefly that you are online."
|}.

(** [for (const rawAccount of rawAccounts) { ... }], from the k-th account on. *)
Fixpoint scanAccounts (config : ClaudeConfig) (env : CycleEnv) (nowMs cooldownMs : Z)
    (k : nat) (rawAccounts : list Account) (counters : Counters) : M World Counters :=
  match rawAccounts with
  | [] => ret counters
  | rawAccount :: rest =>
      let processed := S (processed counters) in
      let* evaluation :=
        _evaluateAccountForHeartbeat (evaluations env k) rawAccount nowMs
          (heartbeat config) cooldownMs in
      match evaluation with
      | Some {| shouldHeartbeat := true; account := accountData |} =>
          let heartbeatsTriggered := S (heartbeatsTriggered counters) in
          _sendHeartbeatForAccount config (sends env k) accountData (optionsOf config) ;;
          scanAccounts config env nowMs cooldownMs (S k) rest
            {| processed := processed; heartbeatsTriggered := heartbeatsTriggered |}
      | _ =>
          scanAccounts config env nowMs cooldownMs (S k) rest
            {| processed := processed;
               heartbeatsTriggered := heartbeatsTriggered counters |}
      end
  end.

(** The result is the pair of counters the last log line reports, [None]
    when the scan found no account. *)
Definition _runHeartbeatCycle (config : ClaudeConfig) (env : CycleEnv) (timestamp : Z)
  : M World (option Counters) :=
  let cooldownMs := cooldownMsOf (heartbeat config) in
  let nowMs := timestamp in
  let* rawAccounts := call CallGetAllClaudeAccounts (allAccounts env) in
  match rawAccounts with
  | None | Some [] => ret None
  | Some accounts =>
      _cleanupRecentHeartbeats nowMs ;;
      let* counters :=
        scanAccounts config env nowMs cooldownMs 0 accounts
          {| processed := 0; heartbeatsTriggered := 0 |} in
      ret (Some counters)
  end.

(** [timestamp] is the [new Date()] the tick passes to the cycle. *)
Definition _tick (config : ClaudeConfig) (env : CycleEnv) (timestamp : Z) : M World unit :=
  let* running := gets isRunning in
  if (running : bool) then ret tt
  else
    modify (setRunning true) ;;
    tryFinally
      (tryCatch (_runHeartbeatCycle config env timestamp ;; ret tt) (fun _ => ret tt))
      (modify (setRunning false)).

(** *** Timers and overlapping ticks

    As for the recovery service, a [Process] is the instance between two
    turns of the event loop: its world, the warm-up timeouts not yet fired,
    the interval timers that are live ([start] does not clear the timer of
    an earlier [start], and [stop] clears only the one it holds), the
    [_tick] calls inside their [try] block, and those that returned at the
    guard. *)
Record Process := {
  world : World;
  warmups : nat;
  timers : nat;
  inFlight : nat;
  skipped : nat
}.

Inductive Event : Type :=
| Start
| Stop
| WarmupFires
| IntervalFires
| CycleSettles (threw : bool).

Definition tickEnters (p : Process) : Process :=
  if isRunning (world p) then
    {| world := world p; warmups := warmups p; timers := timers p;
       inFlight := inFlight p; skipped := S (skipped p) |}
  else
    {| world := setRunning true (world p); warmups := warmups p; timers := timers p;
       inFlight := S (inFlight p); skipped := skipped p |}.

Definition tickLeaves (p : Process) : option Process :=
  match inFlight p with
  | O => None
  | S n =>
      Some {| world := setRunning false (world p); warmups := warmups p;
              timers := timers p; inFlight := n; skipped := skipped p |}
  end.

Definition start (config : ClaudeConfig) (p : Process) : Process :=
  let heartbeatConfig := heartbeat config in
  if negb (hb_enabled heartbeatConfig) then p
  else
    let intervalMs := numOr (parseInt10 (hb_scanIntervalMs heartbeatConfig)) 60000 in
    {| world := setInterval true (Z.max intervalMs 15000) (world p);
       warmups := S (warmups p); timers := S (timers p);
       inFlight := inFlight p; skipped := skipped p |}.

Definition stop (p : Process) : Process :=
  let w := world p in
  {| world :=
       setRecent ∅
         (setRunning false
            (if interval w then setInterval false (intervalMs w) w else w));
     warmups := warmups p;
     timers := if interval w then Nat.pred (timers p) else timers p;
     inFlight := inFlight p; skipped := skipped p |}.

Definition step (config : ClaudeConfig) (p : Process) (e : Event) : option Process :=
  match e with
  | Start => Some (start config p)
  | Stop => Some (stop p)
  | WarmupFires =>
      match warmups p with
      | O => None
      | S n =>
          Some (tickEnters {| world := world p; warmups := n; timers := timers p;
                              inFlight := inFlight p; skipped := skipped p |})
      end
  | IntervalFires =>
      match timers p with
      | O => None
      | S _ => Some (tickEnters p)
      end
  | CycleSettles _ => tickLeaves p
  end.

Fixpoint run (config : ClaudeConfig) (p : Process) (events : list Event) : option Process :=
  match events with
  | [] => Some p
  | e :: rest =>
      match step config p e with
      | Some p' => run config p' rest
      | None => None
      end
  end.

(** [stop] is called only between cycles: at every [Stop] of the run no
    [_tick] is in flight. *)
Fixpoint stopsBetweenCycles (config : ClaudeConfig) (p : Process) (events : list Event)
  : bool :=
  match events with
  | [] => true
  | e :: rest =>
      match e with Stop => Nat.eqb (inFlight p) 0 | _ => true end
      && match step config p e with
         | Some p' => stopsBetweenCycles config p' rest
         | None => true
         end
  end.

(** The instance as the constructor leaves it. *)
Definition newWorld : World :=
  {| interval := false; isRunning := false; intervalMs := 60000;
     recentHeartbeats := ∅; calls := [] |}.

Definition newProcess : Process :=
  {| world := newWorld; warmups := 0; timers := 0; inFlight := 0; skipped := 0 |}.

End Service.

End Heartbeat.

(** ** The Claude Code headers service: [ClaudeCodeHeadersService] *)

Module Headers.

(** *** Profiles and construction *)

(** An element of [headerProfiles]: the empty id and [VUndefined] stand
    for a missing [id] and a missing [headers]. *)
Record Profile := {
  profile_id : string;
  profile_headers : jsval
}.

Record Service := {
  headerProfiles : list Profile;
  defaultHeaders : jsval;
  claudeCodeHeaderKeys : list string
}.

(** An object whose properties are the given strings. *)
Definition headersObject (headers : list (string * string)) : jsval :=
  VObj (map (fun '(k, v) => (k, VStr v)) headers).

(** The header literal of the constructor; the profile
    [mac-arm64-node20] and [defaultHeaders] spell out the same one. *)
Definition claudeCliHeaders : list (string * string) :=
  [("accept", "application/json");
   ("x-stainless-retry-count", "0");
   ("x-stainless-timeout", "600");
   ("x-stainless-lang", "js");
   ("x-stainless-package-version", "0.60.0");
   ("x-stainless-os", "MacOS");
   ("x-stainless-arch", "arm64");
   ("x-stainless-runtime", "node");
   ("x-stainless-runtime-version", "v20.18.1");
   ("anthropic-dangerous-direct-browser-access", "true");
   ("x-app", "cli");
   ("user-agent", "claude-cli/2.0.19 (external, cli)");
   ("anthropic-beta",
    "oauth-2025-04-20,interleaved-thinking-2025-05-14,fine-grained-tool-streaming-2025-05-14");
   ("x-stainless-helper-method", "stream");
   ("accept-language", "*");
   ("sec-fetch-mode", "cors");
   ("accept-encoding", "br, gzip, deflate")].

Definition constructor : Service := {|
  headerProfiles :=
    [{| profile_id := "mac-arm64-node20";
        profile_headers := headersObject claudeCliHeaders |}];
  defaultHeaders := headersObject claudeCliHeaders;
  claudeCodeHeaderKeys :=
    ["x-stainless-retry-count";
     "x-stainless-timeout";
     "x-stainless-lang";
     "x-stainless-package-version";
     "x-stainless-os";
     "x-stainless-arch";
     "x-stainless-runtime";
     "x-stainless-runtime-version";
     "anthropic-dangerous-direct-browser-access";
     "x-app";
     "user-agent";
     "anthropic-beta";
     "x-stainless-helper-method";
     "accept";
     "accept-language";
     "sec-fetch-mode";
     "accept-encoding"]
|}.

(** *** JSON and the texts redis holds *)

(** [JSON.parse(JSON.stringify(v))] for a [v] that is not [undefined]: a
    property holding [undefined] is dropped, an [undefined] element of an
    array becomes [null]. *)
Fixpoint jsonClone (v : jsval) : jsval :=
  match v with
  | VArr items =>
      VArr (map (fun item =>
                   match item with VUndefined => VNull | _ => jsonClone item end) items)
  | VObj fields =>
      VObj (omap (fun field =>
                    match snd field with
                    | VUndefined => None
                    | _ => Some (fst field, jsonClone (snd field))
                    end) fields)
  | _ => v
  end.

(** A string held by redis: a JSON text, kept as the value [JSON.parse]
    reads from it, or a text [JSON.parse] rejects (the empty string is
    one). *)
Inductive RedisText : Type :=
| Json (v : jsval)
| Garbled (raw : string).

Definition JSON_parse (text : RedisText) : completion jsval :=
  match text with
  | Json v => Normal v
  | Garbled _ => Throw (mkError "Unexpected token in JSON")
  end.

Definition JSON_stringify (v : jsval) : RedisText := Json (jsonClone v).

(** [if (text)] on a string read from redis. *)
Definition textTruthy (text : RedisText) : bool :=
  match text with
  | Json _ => true
  | Garbled raw => nonEmpty raw
  end.

Definition cloneHeaders (headers : jsval) : jsval :=
  jsonClone (if truthy headers then headers else VObj []).

(** *** The store *)

(** A key of redis: its text and, when it was set with [setex], its time
    to live in seconds. *)
Record Entry := {
  text : RedisText;
  ttl : option Z
}.

Definition World := gmap string Entry.

(** A command redis serves acts on the store; one that fails (no client,
    the connection lost, the command rejected) throws and leaves the store
    as it is.  [answer] says which. *)
Definition client_get (answer : completion unit) (key : string)
  : M World (option RedisText) :=
  match answer with
  | Normal _ => gets (fun w : World => option_map text (w !! key))
  | Throw e => throw e
  end.

Definition client_set (answer : completion unit) (key : string) (value : RedisText)
  : M World unit :=
  match answer with
  | Normal _ => modify (fun w : World => <[key := {| text := value; ttl := None |}]> w)
  | Throw e => throw e
  end.

Definition client_setex (answer : completion unit) (key : string) (seconds : Z)
    (value : RedisText) : M World unit :=
  match answer with
  | Normal _ =>
      modify (fun w : World => <[key := {| text := value; ttl := Some seconds |}]> w)
  | Throw e => throw e
  end.

Definition client_del (answer : completion unit) (key : string) : M World unit :=
  match answer with
  | Normal _ => modify (fun w : World => delete key w)
  | Throw e => throw e
  end.

Definition _getDefaultHeadersKey (accountId : string) : string :=
  "claude_code_default_headers:" +:+ accountId.

(** The key of [storeAccountHeaders], [getAccountHeaders] and
    [clearAccountHeaders]. *)
Definition headersKey (accountId : string) : string :=
  "claude_code_headers:" +:+ accountId.

(** *** Default headers *)

Record Assignment := {
  headers : jsval;
  profileId : jsval
}.

(** [random] is what [randomInt] draws; [randomInt(n)] lies below [n]. *)
Definition _pickRandomProfile (svc : Service) (random : nat) : Assignment :=
  match headerProfiles svc with
  | [] =>
      {| profileId := VStr "default"; headers := cloneHeaders (defaultHeaders svc) |}
  | first :: others =>
      let index := (random mod length (first :: others))%nat in
      let profile := nth index (first :: others) first in
      {| profileId :=
           VStr (if nonEmpty (profile_id profile) then profile_id profile
                 else "profile-" +:+ pretty index);
         headers :=
           cloneHeaders (if truthy (profile_headers profile) then profile_headers profile
                         else defaultHeaders svc) |}
  end.

(** What the collaborators answer during one [getOrAssignDefaultHeaders]:
    redis to the read, [randomInt], the text of [new Date().toISOString()],
    redis to the write. *)
Record AssignEnv := {
  cachedRead : completion unit;
  random : nat;
  assignedAt : string;
  assignWrite : completion unit
}.

Definition getOrAssignDefaultHeaders (svc : Service) (env : AssignEnv) (accountId : string)
  : M World Assignment :=
  if negb (nonEmpty accountId) then
    ret {| headers := cloneHeaders (defaultHeaders svc); profileId := VStr "fallback" |}
  else
    tryCatch
      (let key := _getDefaultHeadersKey accountId in
       let* cached := client_get (cachedRead env) key in
       let* found :=
         match cached with
         | Some cachedText =>
             if textTruthy cachedText then
               let* parsed := lift (JSON_parse cachedText) in
               if truthy parsed && truthy (prop parsed "headers") then
                 ret (Some {| headers := cloneHeaders (prop parsed "headers");
                              profileId :=
                                if truthy (prop parsed "profileId")
                                then prop parsed "profileId" else VStr "assigned" |})
               else ret None
             else ret None
         | None => ret None
         end in
       match found with
       | Some assignment => ret assignment
       | None =>
           let picked := _pickRandomProfile svc (random env) in
           let payload :=
             VObj [("headers", headers picked);
                   ("profileId", profileId picked);
                   ("assignedAt", VStr (assignedAt env))] in
           client_set (assignWrite env) key (JSON_stringify payload) ;;
           ret picked
       end)
      (fun _ =>
         ret {| headers := cloneHeaders (defaultHeaders svc);
                profileId := VStr "fallback-error" |}).

(** *** Versions *)

Definition isLetter (c : ascii) : bool :=
  let n := nat_of_ascii c in
  ((65 <=? n) && (n <=? 90))%nat || ((97 <=? n) && (n <=? 122))%nat.

(** A digit or a dot, the class of the first run of a version. *)
Definition isVersionChar (c : ascii) : bool := isDigit c || Ascii.eqb c ".".

(** A letter, a digit or a hyphen, the class of the run that may follow. *)
Definition isSuffixChar (c : ascii) : bool := isLetter c || isDigit c || Ascii.eqb c "-".

Fixpoint takeWhile (f : ascii -> bool) (s : string) : string :=
  match s with
  | String c rest => if f c then String c (takeWhile f rest) else EmptyString
  | EmptyString => EmptyString
  end.

Fixpoint dropWhile (f : ascii -> bool) (s : string) : string :=
  match s with
  | String c rest => if f c then dropWhile f rest else s
  | EmptyString => EmptyString
  end.

Fixpoint dropChars (n : nat) (s : string) : string :=
  match n, s with
  | S n', String _ rest => dropChars n' rest
  | _, _ => s
  end.

(** [claude-cli/] at the start of [s], in any letter case. *)
Definition startsWithCli (s : string) : bool := startsWith "claude-cli/" (toLowerCase s).

(** The expression of [extractVersionFromUserAgent], matched at the start
    of [s]: [claude-cli/] in any letter case, then the group, which is one
    or more digits and dots followed by any run of letters, digits and
    hyphens.  Both runs are greedy and nothing follows them, so the group
    is the longest of each.  The result is the text of the group. *)
Definition versionAt (s : string) : option string :=
  if startsWithCli s then
    let rest := dropChars 11 s in
    let digits := takeWhile isVersionChar rest in
    if nonEmpty digits
    then Some (digits +:+ takeWhile isSuffixChar (dropWhile isVersionChar rest))
    else None
  else None.

(** The leftmost match of that expression in [s]. *)
Fixpoint firstVersion (s : string) : option string :=
  match versionAt s with
  | Some version => Some version
  | None =>
      match s with
      | String _ rest => firstVersion rest
      | EmptyString => None
      end
  end.

(** [None] is null.  A truthy value that is no string has no [match]
    method: the call throws. *)
Definition extractVersionFromUserAgent (userAgent : jsval) : completion (option string) :=
  if negb (truthy userAgent) then Normal None
  else
    match userAgent with
    | VStr s => Normal (firstVersion s)
    | _ => Throw (mkError "userAgent.match is not a function")
    end.

(** The test of [storeAccountHeaders] on the user agent: at the start of
    [s], [claude-cli/] in any letter case, one or more digits and dots, one
    or more white spaces, and an opening parenthesis. *)
Definition looksLikeClaudeCli (s : string) : bool :=
  startsWithCli s
  && (let rest := dropChars 11 s in
      let afterDigits := dropWhile isVersionChar rest in
      nonEmpty (takeWhile isVersionChar rest)
      && nonEmpty (takeWhile isWhiteSpace afterDigits)
      && startsWith "(" (dropWhile isWhiteSpace afterDigits)).

(** A number as [Number] may return it. *)
Inductive number : Type :=
| NaN
| Finite (q : Qcanon.Qc)
| Infinity
| NegInfinity.

(** [a < b] *)
Definition lessThan (a b : number) : bool :=
  match a, b with
  | NaN, _ | _, NaN => false
  | Finite x, Finite y => bool_decide (Qcanon.Qclt x y)
  | Finite _, Infinity => true
  | Finite _, NegInfinity => false
  | Infinity, _ => false
  | NegInfinity, NegInfinity => false
  | NegInfinity, _ => true
  end.

(** [parts[i] || 0]: a missing part, [NaN] and 0 give 0. *)
Definition orZero (part : option number) : number :=
  match part with
  | Some NaN | None => Finite (Qc_of_Z 0)
  | Some p => p
  end.

Section Versions.

(** [Number], applied to a part of a version. *)
Variable Number : string -> number.

(** The [for] loop of [compareVersions] from index [i] on, with [n] turns
    to go. *)
Fixpoint compareFrom (n i : nat) (parts1 parts2 : list number) : Z :=
  match n with
  | O => 0
  | S n' =>
      let p1 := orZero (parts1 !! i) in
      let p2 := orZero (parts2 !! i) in
      if lessThan p2 p1 then 1
      else if lessThan p1 p2 then -1
      else compareFrom n' (S i) parts1 parts2
  end.

(** [None] and the empty string are the falsy versions. *)
Definition compareVersions (v1 v2 : option string) : Z :=
  match v1, v2 with
  | Some s1, Some s2 =>
      if negb (nonEmpty s1) || negb (nonEmpty s2) then 0
      else
        let parts1 := map Number (splitOn "." s1) in
        let parts2 := map Number (splitOn "." s2) in
        compareFrom (Nat.max (length parts1) (length parts2)) 0 parts1 parts2
  | _, _ => 0
  end.

(** *** The headers of an account *)

(** [clientHeaders] is the header object of a request: its entries in key
    order, every value a string; [None] is a missing object.  The names of
    [claudeCodeHeaderKeys] are looked up among the entries alone, as the
    source does for names that are distinct and that [Object.prototype]
    does not define, which is the case of the list of the constructor. *)
Definition extractClaudeCodeHeaders (svc : Service)
    (clientHeaders : option (list (string * string))) : list (string * string) :=
  let lowerCaseHeaders : gmap string string :=
    fold_left (fun lower entry => <[toLowerCase (fst entry) := snd entry]> lower)
      (match clientHeaders with Some entries => entries | None => [] end) ∅ in
  omap (fun key =>
          match lowerCaseHeaders !! toLowerCase key with
          | Some value => if nonEmpty value then Some (key, value) else None
          | None => None
          end)
    (claudeCodeHeaderKeys svc).

(** What the collaborators answer during one [storeAccountHeaders]: redis
    to the read, the text of [new Date().toISOString()], redis to the
    write. *)
Record StoreEnv := {
  currentRead : completion unit;
  updatedAt : string;
  storeWrite : completion unit
}.

(** The test on the entry redis holds: [true] when there is none, or when
    the version at hand is above the version of its user agent. *)
Definition supersedes (version : string) (currentData : option RedisText)
  : completion bool :=
  match currentData with
  | Some currentText =>
      if textTruthy currentText then
        andThen (JSON_parse currentText) (fun current =>
        andThen (getProp current "headers") (fun currentHeaders =>
        andThen (getProp currentHeaders "user-agent") (fun currentAgent =>
        andThen (extractVersionFromUserAgent currentAgent) (fun currentVersion =>
          Normal (negb (compareVersions (Some version) currentVersion <=? 0))))))
      else Normal true
  | None => Normal true
  end.

Definition storeAccountHeaders (svc : Service) (env : StoreEnv) (accountId : string)
    (clientHeaders : option (list (string * string))) : M World unit :=
  tryCatch
    (let extractedHeaders := extractClaudeCodeHeaders svc clientHeaders in
     match lookupHeader "user-agent" extractedHeaders with
     | Some userAgent =>
         if negb (nonEmpty userAgent) || negb (looksLikeClaudeCli userAgent) then ret tt
         else
           let* version := lift (extractVersionFromUserAgent (VStr userAgent)) in
           match version with
           | Some version =>
               if negb (nonEmpty version) then ret tt
               else
                 let key := headersKey accountId in
                 let* currentData := client_get (currentRead env) key in
                 let* newer := lift (supersedes version currentData) in
                 if (newer : bool) then
                   let data :=
                     VObj [("headers", headersObject extractedHeaders);
                           ("version", VStr version);
                           ("updatedAt", VStr (updatedAt env))] in
                   client_setex (storeWrite env) key (86400 * 7) (JSON_stringify data)
                 else ret tt
           | None => ret tt
           end
     | None => ret tt
     end)
    (fun _ => ret tt).

(** What the collaborators answer during one [getAccountHeaders]: redis to
    the read, and the answers of [getOrAssignDefaultHeaders] if it is
    called. *)
Record GetEnv := {
  storedRead : completion unit;
  assign : AssignEnv
}.

Definition getAccountHeaders (svc : Service) (env : GetEnv) (accountId : string)
  : M World jsval :=
  tryCatch
    (let key := headersKey accountId in
     let* data := client_get (storedRead env) key in
     let* stored :=
       match data with
       | Some dataText =>
           if textTruthy dataText then
             let* parsed := lift (JSON_parse dataText) in
             let* parsedHeaders := lift (getProp parsed "headers") in
             ret (Some (cloneHeaders parsedHeaders))
           else ret None
       | None => ret None
       end in
     match stored with
     | Some storedHeaders => ret storedHeaders
     | None =>
         let* assignment := getOrAssignDefaultHeaders svc (assign env) accountId in
         ret (headers assignment)
     end)
    (fun _ => ret (cloneHeaders (defaultHeaders svc))).

(** What redis answers to the two [del] commands of
    [clearAccountHeaders]. *)
Record ClearEnv := {
  headersDel : completion unit;
  defaultsDel : completion unit
}.

Definition clearAccountHeaders (env : ClearEnv) (accountId : string) : M World unit :=
  tryCatch
    (let key := headersKey accountId in
     let defaultKey := _getDefaultHeadersKey accountId in
     client_del (headersDel env) key ;;
     client_del (defaultsDel env) defaultKey)
    (fun _ => ret tt).

End Versions.

End Headers.

(** * Properties of the recovery service *)

Module RecoveryFacts.
Import Recovery.

Ltac run_m :=
  unfold bind, ret, throw, lift, modify, gets, tryCatch, tryFinally in *; simpl in *.

(** ** The registry *)

Lemma patchKey_id entryId p e : id (patchKey entryId p e) = id e.
Proof. unfold patchKey. destruct (String.eqb (id e) entryId); reflexivity. Qed.

Lemma find_patchKey entryId p (keys : list ApiKeyEntry) :
  List.find (fun e => String.eqb (id e) entryId) (map (patchKey entryId p) keys)
  = option_map (applyPatch p) (List.find (fun e => String.eqb (id e) entryId) keys).
Proof.
  induction keys as [|e keys IH]; simpl; [reflexivity|].
  rewrite patchKey_id.
  destruct (String.eqb (id e) entryId) eqn:He.
  - unfold patchKey. rewrite He. reflexivity.
  - exact IH.
Qed.

Lemma storedEntry_patched w accountId entryId p :
  storedEntry
    (setRegistry (alter (patchAccountKeys entryId p) accountId (registry w)) w)
    accountId entryId
  = option_map (applyPatch p) (storedEntry w accountId entryId).
Proof.
  unfold storedEntry; simpl. rewrite lookup_alter_eq.
  destruct (registry w !! accountId) as [a|]; simpl; [|reflexivity].
  apply find_patchKey.
Qed.

Lemma storedEntry_account_patched w accountId p accountId' entryId :
  storedEntry
    (setRegistry (alter (applyAccountPatch p) accountId (registry w)) w)
    accountId' entryId
  = storedEntry w accountId' entryId.
Proof.
  unfold storedEntry; simpl.
  destruct (decide (accountId = accountId')) as [->|Hne].
  - rewrite lookup_alter_eq. destruct (registry w !! accountId'); reflexivity.
  - rewrite lookup_alter_ne by exact Hne. reflexivity.
Qed.

Lemma storedEntry_record w c accountId entryId :
  storedEntry (record c w) accountId entryId = storedEntry w accountId entryId.
Proof. reflexivity. Qed.

(** ** One attempt

    The registry accepts every write of the attempt. *)
Definition registryAccepts (env : AttemptEnv) : Prop :=
  pendingWrite env = Normal tt /\ resultWrite env = Normal tt
  /\ failureWrite env = Normal tt.

Lemma Date_new_in_range ms : Z.abs ms <= maxTimeValue -> Date_new (Some ms) = Some ms.
Proof.
  intros H. unfold Date_new. destruct (Z.leb_spec (Z.abs ms) maxTimeValue); [reflexivity|lia].
Qed.

Lemma sendProbeRequest_result svc env endpointType apiKey proxy w :
  _sendProbeRequest svc env endpointType apiKey proxy w
  = (record (CallAxios (requestOptionsFor svc env endpointType apiKey proxy)) w,
     probeResponse env).
Proof.
  unfold _sendProbeRequest, probeResponse. run_m.
  destruct (axios _ (probeAnswer env)) as [r|e]; simpl; [|reflexivity].
  destruct (400 <=? resp_status r); reflexivity.
Qed.

Lemma reactivate_keeps env accountId w :
  exists w',
    _reactivateAccountIfNeeded env accountId w = (w', Normal tt)
    /\ isTickRunning w' = isTickRunning w
    /\ intervalHandle w' = intervalHandle w
    /\ (forall a k, storedEntry w' a k = storedEntry w a k)
    /\ exists extra, calls w' = calls w ++ extra.
Proof.
  unfold _reactivateAccountIfNeeded, getAccount, updateAccount. run_m.
  destruct (accountRead env) as [[]|e]; simpl.
  - destruct (registry w !! accountId) as [a|] eqn:Ha; simpl.
    + destruct (needsReactivation a); simpl.
      * destruct (accountWrite env) as [[]|e]; simpl.
        -- eexists; repeat split; try reflexivity.
           ++ intros. apply (storedEntry_account_patched (record _ (record _ w))).
           ++ simpl. rewrite <- app_assoc. eexists; reflexivity.
        -- eexists; repeat split; try reflexivity.
           simpl. rewrite <- app_assoc. eexists; reflexivity.
      * eexists; repeat split; try reflexivity. eexists; reflexivity.
    + eexists; repeat split; try reflexivity. eexists; reflexivity.
  - eexists; repeat split; try reflexivity. eexists; reflexivity.
Qed.

Lemma update_accepted accountId entryId p w :
  updateApiKeyRecoveryState (Normal tt) accountId entryId p w
  = (setRegistry
       (alter (patchAccountKeys entryId p) accountId
          (registry (record (CallUpdateApiKeyRecoveryState accountId entryId p) w)))
       (record (CallUpdateApiKeyRecoveryState accountId entryId p) w), Normal tt).
Proof. reflexivity. Qed.

Lemma attempt_once svc env target w d :
  registryAccepts env ->
  Z.abs (now env) <= maxTimeValue ->
  Z.abs (now env + probeIntervalMs svc) <= maxTimeValue ->
  recoveryDeadlineMs svc (now env) (entry target) = Some d ->
  Z.abs d <= maxTimeValue ->
  let pending :=
    pendingUpdate (entry target) (IsoTime (now env))
      (IsoTime (now env + probeIntervalMs svc))
      (IsoTime d) (numOr (recoveryAttempts (entry target)) 0 + 1) in
  exists w' final extra,
    _attemptRecovery svc env target w = (w', Normal tt)
    /\ isTickRunning w' = isTickRunning w
    /\ intervalHandle w' = intervalHandle w
    /\ storedEntry w' (accountId target) (id (entry target))
       = option_map (fun e => applyPatch final (applyPatch pending e))
           (storedEntry w (accountId target) (id (entry target)))
    /\ calls w'
       = calls w
         ++ [CallUpdateApiKeyRecoveryState (accountId target) (id (entry target)) pending;
             CallAxios (requestOptionsFor svc env
                          (_normalizeEndpointType (endpointType target))
                          (key (entry target)) (proxy target));
             CallUpdateApiKeyRecoveryState (accountId target) (id (entry target)) final]
         ++ extra
    /\ (if recovers env then final = recoveredUpdate (IsoTime (now env))
        else extra = []
             /\ final = retryUpdate (retryNote env)
                          (IsoTime (now env + probeIntervalMs svc)) (IsoTime d)).
Proof.
  intros (Hp & Hr & Hf) Hnow Hnext Hdeadline Hd pending.
  unfold _attemptRecovery. cbv zeta.
  rewrite Hdeadline, (Date_new_in_range _ Hnow), (Date_new_in_range _ Hnext),
    (Date_new_in_range _ Hd).
  unfold toISOString.
  unfold bind at 1. unfold lift at 1. cbv iota beta.
  unfold bind at 1. unfold lift at 1. cbv iota beta.
  unfold bind at 1. unfold lift at 1. cbv iota beta.
  fold pending.
  unfold bind at 1. rewrite Hp, Hr, Hf, update_accepted.
  set (w1 := setRegistry _ (record _ w)).
  assert (Hw1 : storedEntry w1 (accountId target) (id (entry target))
                = option_map (applyPatch pending)
                    (storedEntry w (accountId target) (id (entry target)))).
  { subst w1. rewrite storedEntry_patched, storedEntry_record. reflexivity. }
  assert (Hc1 : calls w1 = calls w ++ [CallUpdateApiKeyRecoveryState (accountId target)
                      (id (entry target)) pending]) by reflexivity.
  assert (Ht1 : isTickRunning w1 = isTickRunning w) by reflexivity.
  assert (Hi1 : intervalHandle w1 = intervalHandle w) by reflexivity.
  clearbody w1.
  unfold tryCatch. unfold bind at 1. rewrite sendProbeRequest_result.
  unfold recovers, retryNote, extractedText.
  set (req := requestOptionsFor _ _ _ _ _).
  set (w2 := record (CallAxios req) w1).
  assert (Hw2 : storedEntry w2 (accountId target) (id (entry target))
                = option_map (applyPatch pending)
                    (storedEntry w (accountId target) (id (entry target)))) by exact Hw1.
  assert (Hc2 : calls w2 = calls w ++ [CallUpdateApiKeyRecoveryState (accountId target)
                      (id (entry target)) pending; CallAxios req]).
  { subst w2. simpl. rewrite Hc1, <- app_assoc. reflexivity. }
  assert (Ht2 : isTickRunning w2 = isTickRunning w) by exact Ht1.
  assert (Hi2 : intervalHandle w2 = intervalHandle w) by exact Hi1.
  clearbody w2. clear Hw1 Hc1 Ht1 Hi1 w1.
  assert (Hretry : forall note,
    let final := retryUpdate note (IsoTime (now env + probeIntervalMs svc)) (IsoTime d) in
    exists w',
      updateApiKeyRecoveryState (Normal tt) (accountId target) (id (entry target)) final w2
      = (w', Normal tt)
      /\ isTickRunning w' = isTickRunning w
      /\ intervalHandle w' = intervalHandle w
      /\ storedEntry w' (accountId target) (id (entry target))
         = option_map (fun e => applyPatch final (applyPatch pending e))
             (storedEntry w (accountId target) (id (entry target)))
      /\ calls w'
         = calls w
           ++ [CallUpdateApiKeyRecoveryState (accountId target) (id (entry target)) pending;
               CallAxios req;
               CallUpdateApiKeyRecoveryState (accountId target) (id (entry target)) final]
           ++ []).
  { intros note final. rewrite update_accepted. eexists. split; [reflexivity|].
    split; [exact Ht2|]. split; [exact Hi2|].
    split; [rewrite storedEntry_patched, storedEntry_record, Hw2;
            destruct (storedEntry w _ _); reflexivity|].
    simpl. rewrite Hc2, <- app_assoc. reflexivity. }
  assert (Hnote : forall note,
    exists w' final extra,
      updateApiKeyRecoveryState (Normal tt) (accountId target) (id (entry target))
        (retryUpdate note (IsoTime (now env + probeIntervalMs svc)) (IsoTime d)) w2
      = (w', Normal tt)
      /\ isTickRunning w' = isTickRunning w
      /\ intervalHandle w' = intervalHandle w
      /\ storedEntry w' (accountId target) (id (entry target))
         = option_map (fun e => applyPatch final (applyPatch pending e))
             (storedEntry w (accountId target) (id (entry target)))
      /\ calls w'
         = calls w
           ++ [CallUpdateApiKeyRecoveryState (accountId target) (id (entry target)) pending;
               CallAxios req;
               CallUpdateApiKeyRecoveryState (accountId target) (id (entry target)) final]
           ++ extra
      /\ extra = []
      /\ final = retryUpdate note (IsoTime (now env + probeIntervalMs svc)) (IsoTime d)).
  { intros note. destruct (Hretry note) as (w' & Hrun & Htick & Hint & Hkeys & Hcalls).
    exists w', (retryUpdate note (IsoTime (now env + probeIntervalMs svc)) (IsoTime d)), [].
    repeat (split; [assumption|]). split; reflexivity. }
  clear Hretry.
  destruct (probeResponse env) as [r|err]; simpl andThen.
  - unfold bind at 1, lift at 1.
    destruct (_extractResponseText (resp_data r)) as [text|err]; cbv iota beta.
    + destruct (nonEmpty (trim text)).
      * unfold bind at 1. rewrite update_accepted.
        match goal with |- context [_reactivateAccountIfNeeded env ?a ?w0] =>
          destruct (reactivate_keeps env a w0)
            as (w' & Hrun & Htick & Hint & Hkeys & extra & Hcalls) end.
        rewrite Hrun.
        exists w', (recoveredUpdate (IsoTime (now env))), extra.
        split; [reflexivity|]. split; [rewrite Htick; exact Ht2|].
        split; [rewrite Hint; exact Hi2|].
        split; [rewrite Hkeys, storedEntry_patched, storedEntry_record, Hw2;
                destruct (storedEntry w _ _); reflexivity|].
        split; [|reflexivity].
        rewrite Hcalls. simpl. rewrite Hc2, <- !app_assoc. reflexivity.
      * apply Hnote.
    + apply Hnote.
  - apply Hnote.
Qed.

(** ** The same key over successive cycles *)

(** The clock of the attempt is a valid time value, and so is the time of
    the next attempt; the registry accepts the writes. *)
Definition proceeds (svc : Service) (env : AttemptEnv) : Prop :=
  registryAccepts env
  /\ Z.abs (now env) <= maxTimeValue
  /\ Z.abs (now env + probeIntervalMs svc) <= maxTimeValue.

(** The deadline [_attemptRecovery] computes for [e] at [now] is the valid
    time value [d]. *)
Definition deadlineAt (svc : Service) (now : Z) (e : ApiKeyEntry) (d : Z) : Prop :=
  recoveryDeadlineMs svc now e = Some d /\ Z.abs d <= maxTimeValue.

(** A write to a key's entry that leaves [recoveryExpiresAt] alone or sets
    it to the instant [d]. *)
Definition keepsDeadline (d : Z) (c : Call) : Prop :=
  match c with
  | CallUpdateApiKeyRecoveryState _ _ p =>
      p_recoveryExpiresAt p = None \/ p_recoveryExpiresAt p = Some (IsoTime d)
  | _ => True
  end.

Lemma deadline_fixed svc now e d :
  recoveryExpiresAt e = IsoTime d -> Z.abs d <= maxTimeValue -> deadlineAt svc now e d.
Proof.
  intros He Hd. split; [|exact Hd].
  unfold recoveryDeadlineMs. rewrite He. simpl isoTruthy. cbv iota.
  unfold Date_parse. rewrite (Date_new_in_range _ Hd). reflexivity.
Qed.

Lemma pendingUpdate_keepsDeadline a k e nowIso nextIso d n :
  keepsDeadline d (CallUpdateApiKeyRecoveryState a k (pendingUpdate e nowIso nextIso (IsoTime d) n)).
Proof.
  simpl. destruct (isoTruthy (recoveryExpiresAt e)); [left|right]; reflexivity.
Qed.

Lemma numOr_succ (x : num) : 0 <= numOr x 0 -> numOr (Some (numOr x 0 + 1)) 0 = numOr x 0 + 1.
Proof.
  intros H. unfold numOr at 1. destruct (Z.eqb_spec (numOr x 0 + 1) 0); [lia|reflexivity].
Qed.

Lemma attemptsInTurn_cons svc env rest target w e :
  storedEntry w (accountId target) (id (entry target)) = Some e ->
  attemptsInTurn svc (env :: rest) target w
  = match _attemptRecovery svc env (withEntry target e) w with
    | (w1, Normal _) => attemptsInTurn svc rest target w1
    | (w1, Throw err) => (w1, Throw err)
    end.
Proof.
  intros Hs. simpl. unfold bind at 1. unfold gets. rewrite Hs. reflexivity.
Qed.

Lemma turns_then_last svc target d (last : AttemptEnv) :
  forall (failed : list AttemptEnv) (w : World) (e : ApiKeyEntry),
    storedEntry w (accountId target) (id (entry target)) = Some e ->
    id e = id (entry target) ->
    deadlineAt svc (now (hd last failed)) e d ->
    Forall (proceeds svc) (failed ++ [last]) ->
    Forall (fun env => recovers env = false) failed ->
    exists w' e' earlier pending req final extra,
      attemptsInTurn svc (failed ++ [last]) target w = (w', Normal tt)
      /\ isTickRunning w' = isTickRunning w
      /\ storedEntry w' (accountId target) (id (entry target)) = Some e'
      /\ calls w'
         = calls w ++ earlier
           ++ [CallUpdateApiKeyRecoveryState (accountId target) (id (entry target)) pending;
               CallAxios req;
               CallUpdateApiKeyRecoveryState (accountId target) (id (entry target)) final]
           ++ extra
      /\ Forall (keepsDeadline d) earlier
      /\ keepsDeadline d
           (CallUpdateApiKeyRecoveryState (accountId target) (id (entry target)) pending)
      /\ (0 <= numOr (recoveryAttempts e) 0 ->
          p_recoveryAttempts pending
          = Some (numOr (recoveryAttempts e) 0 + Z.of_nat (length failed) + 1))
      /\ (if recovers last
          then final = recoveredUpdate (IsoTime (now last))
               /\ recoveryAttempts e' = Some 0
               /\ status e' = "active"
          else extra = []
               /\ (exists note,
                    final = retryUpdate note (IsoTime (now last + probeIntervalMs svc))
                              (IsoTime d))
               /\ (0 <= numOr (recoveryAttempts e) 0 ->
                   recoveryAttempts e'
                   = Some (numOr (recoveryAttempts e) 0 + Z.of_nat (length failed) + 1))
               /\ status e' = status e
               /\ recoveryExpiresAt e' = IsoTime d).
Proof.
  induction failed as [|env failed IH]; intros w e Hstored Hid Hdl Hgo Hfail.
  - simpl app. simpl hd in Hdl. destruct Hdl as [Hdl Hd].
    apply Forall_cons_iff in Hgo as [(Hacc & Hnow & Hnext) _].
    rewrite (attemptsInTurn_cons _ _ _ _ _ e Hstored).
    destruct (attempt_once svc last (withEntry target e) w d)
      as (w' & final & extra & Hrun & Htick & _ & Hst & Hcalls & Hfinal);
      try assumption.
    simpl accountId in *. simpl entry in *. rewrite Hid in *.
    rewrite Hstored in Hst. simpl option_map in Hst.
    rewrite Hrun. simpl attemptsInTurn. unfold ret.
    eexists w', _, [], _, _, final, extra.
    split; [reflexivity|]. split; [exact Htick|]. split; [exact Hst|].
    split; [exact Hcalls|]. split; [apply List.Forall_nil|].
    split; [apply pendingUpdate_keepsDeadline|].
    split; [intros _; simpl; f_equal; lia|].
    destruct (recovers last).
    + subst final. split; [reflexivity|]. split; reflexivity.
    + destruct Hfinal as (Hextra & ->).
      split; [exact Hextra|]. split; [eexists; reflexivity|].
      split; [intros _; simpl; f_equal; lia|].
      split; reflexivity.
  - simpl app in *. simpl hd in Hdl. destruct Hdl as [Hdl Hd].
    apply Forall_cons_iff in Hgo as [(Hacc & Hnow & Hnext) Hgo].
    apply Forall_cons_iff in Hfail as [Hfail0 Hfail].
    rewrite (attemptsInTurn_cons _ _ _ _ _ e Hstored).
    destruct (attempt_once svc env (withEntry target e) w d)
      as (w1 & final1 & extra1 & Hrun & Htick & _ & Hst & Hcalls & Hfinal);
      try assumption.
    simpl accountId in *. simpl entry in *. rewrite Hid in *.
    rewrite Hstored in Hst. simpl option_map in Hst.
    rewrite Hrun. rewrite Hfail0 in Hfinal. destruct Hfinal as (-> & ->).
    set (note := retryNote env).
    set (e1 := applyPatch _ (applyPatch _ e)) in Hst.
    assert (Hprev1 : 0 <= numOr (recoveryAttempts e) 0 ->
                     numOr (recoveryAttempts e1) 0 = numOr (recoveryAttempts e) 0 + 1).
    { intros Hprev. subst e1. simpl. apply numOr_succ. exact Hprev. }
    assert (Hid1 : id e1 = id (entry target)) by exact Hid.
    assert (Hs1 : status e1 = status e) by reflexivity.
    assert (Hdl1 : deadlineAt svc (now (hd last failed)) e1 d).
    { apply deadline_fixed; [reflexivity|exact Hd]. }
    clearbody e1.
    destruct (IH w1 e1 Hst Hid1 Hdl1 Hgo Hfail) as
      (w' & e' & earlier & pending & req & final & extra & Hrun' & Htick' & Hst'
       & Hcalls' & Hearlier & Hpending & Hcount & Hlast).
    exists w', e'.
    exists ([CallUpdateApiKeyRecoveryState (accountId target) (id (entry target))
               (pendingUpdate e (IsoTime (now env))
                  (IsoTime (now env + probeIntervalMs svc)) (IsoTime d)
                  (numOr (recoveryAttempts e) 0 + 1));
             CallAxios (requestOptionsFor svc env
                          (_normalizeEndpointType (endpointType target))
                          (key e) (proxy target));
             CallUpdateApiKeyRecoveryState (accountId target) (id (entry target))
               (retryUpdate note (IsoTime (now env + probeIntervalMs svc)) (IsoTime d))]
            ++ earlier).
    exists pending, req, final, extra.
    split; [exact Hrun'|]. split; [congruence|]. split; [exact Hst'|].
    split.
    { rewrite Hcalls', Hcalls. rewrite app_nil_r. rewrite <- !app_assoc. reflexivity. }
    split.
    { apply Forall_app. split; [|exact Hearlier].
      apply List.Forall_cons; [apply pendingUpdate_keepsDeadline|].
      apply List.Forall_cons; [exact I|].
      apply List.Forall_cons; [right; reflexivity|].
      apply List.Forall_nil. }
    split; [exact Hpending|].
    split.
    { intros Hprev. rewrite Hcount by (rewrite Hprev1; lia).
      rewrite (Hprev1 Hprev). simpl length. f_equal. lia. }
    destruct (recovers last); [exact Hlast|].
    destruct Hlast as (Hx & Hn & Ha & Hs & He).
    split; [exact Hx|]. split; [exact Hn|].
    split.
    { intros Hprev. rewrite Ha by (rewrite Hprev1; lia).
      rewrite (Hprev1 Hprev). simpl length. f_equal. lia. }
    split; [rewrite Hs; exact Hs1|exact He].
Qed.

(** C2: a key is attempted in successive cycles, each attempt reading the
    entry the registry holds; the attempts listed in [failed] do not
    recover it, and [last] is one more attempt.  Then the pending write of
    [last] persists the counter it read plus one; if [last] does not
    recover the key either, the counter stays at that value, which is the
    counter before the first attempt (0 when absent) plus the number of
    attempts, and the status is untouched; if [last] recovers the key the
    counter is 0 and the status active; and the counter ends at 0 only in
    that case. *)
Theorem C2_recovery_attempts_counter
    (svc : Service) (target : Target) (w : World) (d : Z)
    (failed : list AttemptEnv) (last : AttemptEnv) :
  storedEntry w (accountId target) (id (entry target)) = Some (entry target) ->
  0 <= numOr (recoveryAttempts (entry target)) 0 ->
  deadlineAt svc (now (hd last failed)) (entry target) d ->
  Forall (proceeds svc) (failed ++ [last]) ->
  Forall (fun env => recovers env = false) failed ->
  let previous := numOr (recoveryAttempts (entry target)) 0 in
  let read := previous + Z.of_nat (length failed) in
  exists w' e' pending,
    attemptsInTurn svc (failed ++ [last]) target w = (w', Normal tt)
    /\ storedEntry w' (accountId target) (id (entry target)) = Some e'
    /\ In (CallUpdateApiKeyRecoveryState (accountId target) (id (entry target)) pending)
          (calls w')
    /\ p_recoveryAttempts pending = Some (read + 1)
    /\ (recovers last = false ->
        recoveryAttempts e' = Some (read + 1)
        /\ previous <= read + 1
        /\ status e' = status (entry target))
    /\ (recovers last = true ->
        recoveryAttempts e' = Some 0 /\ status e' = "active")
    /\ (recoveryAttempts e' = Some 0 <-> recovers last = true).
Proof.
  intros Hstored Hprev Hdl Hgo Hfail previous read.
  destruct (turns_then_last svc target d last failed w (entry target)
              Hstored eq_refl Hdl Hgo Hfail)
    as (w' & e' & earlier & pending & req & final & extra & Hrun & _ & Hst
        & Hcalls & _ & _ & Hcount & Hlast).
  exists w', e', pending.
  split; [exact Hrun|]. split; [exact Hst|].
  split.
  { rewrite Hcalls. apply in_or_app; right. apply in_or_app; right.
    simpl. left. reflexivity. }
  split; [exact (Hcount Hprev)|].
  destruct (recovers last).
  - destruct Hlast as (_ & Ha & Hs).
    split; [discriminate|]. split; [intros _; split; assumption|].
    split; [reflexivity|exact (fun _ => Ha)].
  - destruct Hlast as (_ & _ & Ha & Hs & _). specialize (Ha Hprev).
    split; [intros _; split; [exact Ha|split; [subst read; lia|exact Hs]]|].
    split; [discriminate|].
    split; [|discriminate].
    rewrite Ha. intros H. injection H as H. subst read previous. lia.
Qed.


(** ** A sample key, and two attempts on it *)

Definition sampleConfig : RawConfig := {|
  cfg_enabled := None; cfg_scanIntervalMs := None; cfg_probeIntervalMs := None;
  cfg_recoveryWindowMs := None; cfg_maxConcurrentProbes := None;
  cfg_probePrompt := ""; cfg_anthropicModel := ""; cfg_openaiModel := "";
  cfg_requestTimeout := None
|}.

Definition sampleService : Service := constructor sampleConfig.

Definition sampleEntry : ApiKeyEntry := {|
  id := "key-1"; key := "fk-sample"; status := "error";
  errorMessage := "HTTP 402"; errorSince := IsoTime 1700000000000;
  recoveryExpiresAt := IsoAbsent; nextRecoveryAt := IsoAbsent;
  recoveryAttempts := None; lastRecoveryAttemptAt := IsoAbsent;
  lastRecoveryResult := NoNote
|}.

Definition sampleAccount : DroidAccount := {|
  acc_name := "droid"; acc_status := "error"; acc_schedulable := VStr "false";
  acc_errorMessage := "no usable key"; apiKeys := [sampleEntry]
|}.

Definition sampleWorld : World := newWorld {[ "account-1" := sampleAccount ]}.

Definition sampleTarget : Target := {|
  accountId := "account-1"; accountName := "droid"; endpointType := "openai";
  proxy := ""; entry := sampleEntry
|}.

Definition quietEnv (now : Z) (answer : AxiosAnswer) : AttemptEnv := {|
  now := now; sessionId := "00000000-0000-4000-8000-000000000000";
  pendingWrite := Normal tt; proxyAgent := Normal None; probeAnswer := answer;
  resultWrite := Normal tt; accountRead := Normal tt; accountWrite := Normal tt;
  failureWrite := Normal tt
|}.

Definition connectionRefused : AxiosAnswer :=
  TransportFailure {| message := "connect ECONNREFUSED"; code := Some "ECONNREFUSED";
                      response := None |}.

Definition saysHello : AxiosAnswer :=
  Answered {| resp_status := 200; resp_headers := [];
              resp_data :=
                VObj [("output",
                       VArr [VObj [("content",
                                    VArr [VObj [("type", VStr "output_text");
                                                ("text", VStr " hello ")]])]])] |}.

Definition emptyAnswer : AxiosAnswer :=
  Answered {| resp_status := 200; resp_headers := []; resp_data := VObj [] |}.

Lemma quietEnv_proceeds now answer :
  Z.abs now <= maxTimeValue ->
  Z.abs (now + probeIntervalMs sampleService) <= maxTimeValue ->
  proceeds sampleService (quietEnv now answer).
Proof. intros H1 H2. split; [repeat split|split; assumption]. Qed.

Lemma C2_recovery_attempts_counter_witness :
  exists w' e',
    attemptsInTurn sampleService
      ([quietEnv 1700003600000 connectionRefused] ++ [quietEnv 1700003720000 saysHello])
      sampleTarget sampleWorld = (w', Normal tt)
    /\ storedEntry w' "account-1" "key-1" = Some e'
    /\ recoveryAttempts e' = Some 0
    /\ status e' = "active".
Proof.
  destruct (C2_recovery_attempts_counter sampleService sampleTarget sampleWorld
              1700086400000
              [quietEnv 1700003600000 connectionRefused]
              (quietEnv 1700003720000 saysHello))
    as (w' & e' & pending & Hrun & Hst & _ & _ & _ & Hrecovered & _).
  - reflexivity.
  - vm_compute. discriminate.
  - split; [reflexivity|vm_compute; discriminate].
  - apply List.Forall_cons; [|apply List.Forall_cons; [|apply List.Forall_nil]];
      apply quietEnv_proceeds; vm_compute; discriminate.
  - apply List.Forall_cons; [reflexivity|apply List.Forall_nil].
  - exists w', e'. split; [exact Hrun|]. split; [exact Hst|].
    apply Hrecovered. reflexivity.
Defined.


(** ** Reading the answer *)

(** Every collector only appends to [texts]: what it adds is what it
    collects from nothing. *)
Lemma collect_appends texts value : collect texts value = texts ++ collect [] value.
Proof.
  unfold collect. destruct value; try (symmetry; apply app_nil_r).
  destruct (nonEmpty (trim s)); [reflexivity|symmetry; apply app_nil_r].
Qed.

Lemma fold_appends {A} (f : list string -> A -> list string) :
  (forall texts x, f texts x = texts ++ f [] x) ->
  forall items texts, fold_left f items texts = texts ++ fold_left f items [].
Proof.
  intros Hf. induction items as [|x items IH]; intros texts; simpl.
  - symmetry. apply app_nil_r.
  - rewrite IH, (IH (f [] x)), Hf, app_assoc. reflexivity.
Qed.

Lemma collectBlock_appends texts content :
  collectBlock texts content = texts ++ collectBlock [] content.
Proof.
  unfold collectBlock. destruct (isString content); [apply collect_appends|].
  destruct (truthy content && isString (prop content "text"));
    [apply collect_appends|symmetry; apply app_nil_r].
Qed.

Lemma collectOutputItem_appends texts item :
  collectOutputItem texts item = texts ++ collectOutputItem [] item.
Proof.
  unfold collectOutputItem. destruct (truthy item); [|symmetry; apply app_nil_r].
  cbv zeta.
  destruct (isString (prop item "text")).
  - destruct (prop item "content"); try apply collect_appends.
    rewrite (fold_appends collectBlock collectBlock_appends items (collect texts _)).
    rewrite (fold_appends collectBlock collectBlock_appends items (collect [] _)).
    rewrite collect_appends, app_assoc. reflexivity.
  - destruct (prop item "content"); try (symmetry; apply app_nil_r).
    apply (fold_appends collectBlock collectBlock_appends).
Qed.

Lemma collectChoice_appends texts choice :
  collectChoice texts choice
  = andThen (collectChoice [] choice) (fun more => Normal (texts ++ more)).
Proof.
  unfold collectChoice. cbv zeta.
  set (message := if truthy choice then prop choice "message" else choice).
  assert (Hinner :
    (if truthy message
     then match prop message "content" with
          | VStr s => collect texts (VStr s)
          | VArr chunks => fold_left collectBlock chunks texts
          | _ => texts
          end
     else texts)
    = texts ++
      (if truthy message
       then match prop message "content" with
            | VStr s => collect [] (VStr s)
            | VArr chunks => fold_left collectBlock chunks []
            | _ => []
            end
       else [])).
  { destruct (truthy message); [|symmetry; apply app_nil_r].
    destruct (prop message "content"); try (symmetry; apply app_nil_r).
    - apply collect_appends.
    - apply (fold_appends collectBlock collectBlock_appends). }
  rewrite Hinner.
  destruct (getProp choice "output_text") as [outputText|e]; simpl; [|reflexivity].
  destruct outputText; try reflexivity.
  cbn [andThen]. f_equal.
  rewrite (fold_appends collect collect_appends items (texts ++ _)).
  rewrite (fold_appends collect collect_appends items
             (if truthy message then _ else _)).
  rewrite app_assoc. reflexivity.
Qed.

Lemma foldThrowing_appends items :
  forall texts,
    foldThrowing collectChoice items texts
    = andThen (foldThrowing collectChoice items [])
        (fun more => Normal (texts ++ more)).
Proof.
  induction items as [|choice items IH]; intros texts; simpl.
  - rewrite app_nil_r. reflexivity.
  - rewrite collectChoice_appends.
    destruct (collectChoice [] choice) as [first|e]; simpl; [|reflexivity].
    rewrite IH, (IH first).
    destruct (foldThrowing collectChoice items []) as [more|e]; simpl; [|reflexivity].
    rewrite app_assoc. reflexivity.
Qed.

(** The fragments of a body, container by container, in the order
    [_extractResponseText] visits them. *)
Definition fragmentsBefore (data : jsval) : list string :=
  fromOutputText data [] ++ fromOutput data [] ++ fromContent data [].

(** When [_extractResponseText] returns on a body that is an object, it
    returns the first fragment in the order: [output_text], the blocks of
    [output], the blocks of [content], the messages of [choices], [text];
    and the empty string when there is none. *)
Lemma extract_reads_in_order (data : jsval) (text : string) :
  truthy data = true -> typeofObject data = true ->
  _extractResponseText data = Normal text ->
  exists fromMessages,
    fromChoices data [] = Normal fromMessages
    /\ text = hd "" (fragmentsBefore data ++ fromMessages ++ fromText data []).
Proof.
  intros Htruthy Hobject. unfold _extractResponseText.
  rewrite Htruthy, Hobject. cbn [negb orb]. cbv zeta.
  unfold fragmentsBefore.
  assert (Hchoices : forall texts,
            fromChoices data texts
            = andThen (fromChoices data []) (fun more => Normal (texts ++ more))).
  { intros texts. unfold fromChoices. destruct (prop data "choices"); simpl;
      rewrite ?app_nil_r; try reflexivity. apply foldThrowing_appends. }
  rewrite Hchoices.
  destruct (fromChoices data []) as [fromMessages|e]; simpl; [|discriminate].
  intros H. injection H as <-. exists fromMessages. split; [reflexivity|].
  f_equal.
  assert (Htext : forall texts, fromText data texts = texts ++ fromText data []).
  { intros texts. unfold fromText. destruct (prop data "text");
      try (symmetry; apply app_nil_r). apply collect_appends. }
  assert (Hcontent : forall texts, fromContent data texts = texts ++ fromContent data []).
  { intros texts. unfold fromContent. destruct (prop data "content");
      try (symmetry; apply app_nil_r).
    apply (fold_appends collectBlock collectBlock_appends). }
  assert (Houtput : forall texts, fromOutput data texts = texts ++ fromOutput data []).
  { intros texts. unfold fromOutput. destruct (prop data "output");
      try (symmetry; apply app_nil_r).
    apply (fold_appends collectOutputItem collectOutputItem_appends). }
  rewrite Htext, Hcontent, Houtput. rewrite <- !app_assoc. reflexivity.
Qed.

(** A body whose [choices], when a list, holds neither null nor undefined
    is read without an exception. *)
Definition choicesReadable (data : jsval) : Prop :=
  match prop data "choices" with
  | VArr items => Forall (fun choice => choice <> VNull /\ choice <> VUndefined) items
  | _ => True
  end.

Lemma extract_returns (data : jsval) :
  choicesReadable data -> exists text, _extractResponseText data = Normal text.
Proof.
  intros Hreadable. unfold _extractResponseText.
  destruct (negb (truthy data) || negb (typeofObject data)); [eexists; reflexivity|].
  cbv zeta.
  assert (Hfold : forall texts, exists texts', fromChoices data texts = Normal texts').
  { intros texts. unfold fromChoices. unfold choicesReadable in Hreadable.
    destruct (prop data "choices"); try (eexists; reflexivity).
    revert texts. induction Hreadable as [|choice items [Hnull Hundef] _ IH]; intros texts.
    - eexists; reflexivity.
    - simpl. unfold collectChoice at 1. cbv zeta.
      destruct choice; try contradiction; simpl getProp; simpl andThen;
        match goal with
        | |- context [match ?o with VArr _ => _ | _ => _ end] =>
            destruct o; simpl; apply IH
        | _ => apply IH
        end. }
  destruct (Hfold (fromContent data (fromOutput data (fromOutputText data []))))
    as [texts' Htexts].
  rewrite Htexts. simpl. eexists; reflexivity.
Qed.

(** An attempt whose probe is answered and read without a fragment is
    inconclusive: the entry keeps its status, is noted as an empty
    response, and is due again one probe interval later under the same
    deadline. *)
Lemma no_fragment_is_inconclusive svc env target w d e text :
  storedEntry w (accountId target) (id (entry target)) = Some e ->
  proceeds svc env ->
  deadlineAt svc (now env) (entry target) d ->
  extractedText env = Normal text ->
  nonEmpty (trim text) = false ->
  exists w' e',
    _attemptRecovery svc env target w = (w', Normal tt)
    /\ storedEntry w' (accountId target) (id (entry target)) = Some e'
    /\ status e' = status e
    /\ lastRecoveryResult e' = EmptyResponseAt (IsoTime (now env))
    /\ nextRecoveryAt e' = IsoTime (now env + probeIntervalMs svc)
    /\ recoveryExpiresAt e' = IsoTime d.
Proof.
  intros Hstored (Hacc & Hnow & Hnext) (Hdl & Hd) Htext Hblank.
  destruct (attempt_once svc env target w d Hacc Hnow Hnext Hdl Hd)
    as (w' & final & extra & Hrun & _ & _ & Hst & _ & Hfinal).
  unfold recovers, retryNote in Hfinal. rewrite Htext, Hblank in Hfinal.
  destruct Hfinal as (_ & ->).
  rewrite Hstored in Hst. simpl option_map in Hst.
  eexists w', _. split; [exact Hrun|]. split; [exact Hst|].
  repeat split.
Qed.

(** A 200 answer with the body [data]. *)
Definition okWith (data : jsval) : AxiosAnswer :=
  Answered {| resp_status := 200; resp_headers := []; resp_data := data |}.

(** The note an attempt on the sample key leaves in the registry. *)
Definition noteAfter (answer : AxiosAnswer) : option ResultNote :=
  option_map lastRecoveryResult
    (storedEntry
       (fst (_attemptRecovery sampleService (quietEnv 1700003600000 answer)
               sampleTarget sampleWorld))
       "account-1" "key-1").

Definition cannotReadOutputText : Error :=
  mkError "Cannot read properties of null or undefined, reading output_text".

(** C7, at the input where the code departs from it.  A body whose
    [choices] list holds a null makes [_extractResponseText] throw at
    [choice.output_text]: a body without any fragment is then recorded as a
    failed probe, where an empty body is recorded as an empty response; and
    the fragment an earlier container holds is lost with it. *)
Theorem C7_null_choice_is_recorded_as_failure :
  _extractResponseText (VObj [("choices", VArr [VNull])]) = Throw cannotReadOutputText
  /\ noteAfter (okWith (VObj [("choices", VArr [VNull])]))
     = Some (FailedWith (ReasonMessage (message cannotReadOutputText)))
  /\ noteAfter (okWith (VObj []))
     = Some (EmptyResponseAt (IsoTime 1700003600000))
  /\ _extractResponseText (VObj [("output_text", VStr "hello")]) = Normal "hello"
  /\ _extractResponseText
       (VObj [("output_text", VStr "hello"); ("choices", VArr [VNull])])
     = Throw cannotReadOutputText.
Proof.
  split; [reflexivity|]. split; [vm_compute; reflexivity|].
  split; [vm_compute; reflexivity|]. split; reflexivity.
Qed.

(** ** The cycle and its guard *)

(** The attempt on [target] under [env] goes through whatever the probe
    does: the registry accepts its writes and its three dates are valid. *)
Definition goesThrough (svc : Service) (env : AttemptEnv) (target : Target) : Prop :=
  proceeds svc env /\ exists d, deadlineAt svc (now env) (entry target) d.

Definition probeOf (svc : Service) (env : AttemptEnv) (target : Target) : Call :=
  CallAxios (requestOptionsFor svc env (_normalizeEndpointType (endpointType target))
               (key (entry target)) (proxy target)).

Lemma attemptEach_isolates svc answers :
  forall targets k w,
    (forall j target, targets !! j = Some target -> goesThrough svc (answers (k + j)%nat) target) ->
    exists w',
      attemptEach svc answers k targets w = (w', Normal tt)
      /\ isTickRunning w' = isTickRunning w
      /\ (forall c, In c (calls w) -> In c (calls w'))
      /\ forall j target, targets !! j = Some target ->
           In (probeOf svc (answers (k + j)%nat) target) (calls w').
Proof.
  induction targets as [|target rest IH]; intros k w Hgo.
  - exists w. split; [reflexivity|]. split; [reflexivity|]. split; [auto|].
    intros j t Hj. discriminate.
  - cbn [attemptEach]. unfold bind at 1.
    destruct (Hgo 0%nat target eq_refl) as ((Hacc & Hnow & Hnext) & d & Hdl & Hd).
    replace (k + 0)%nat with k in * by lia.
    destruct (attempt_once svc (answers k) target w d Hacc Hnow Hnext Hdl Hd)
      as (w1 & final & extra & Hrun & Htick & _ & _ & Hcalls & _).
    rewrite Hrun.
    destruct (IH (S k) w1) as (w' & Hrest & Htick' & Hkeep & Hprobes).
    { intros j t Hj. replace (S k + j)%nat with (k + S j)%nat by lia.
      apply Hgo. exact Hj. }
    exists w'. split; [exact Hrest|]. split; [congruence|].
    assert (Hkeep1 : forall c, In c (calls w) -> In c (calls w1)).
    { intros c Hc. rewrite Hcalls. apply in_or_app. left. exact Hc. }
    split; [intros c Hc; apply Hkeep, Hkeep1, Hc|].
    intros [|j] t Hj.
    + injection Hj as <-. replace (k + 0)%nat with k by lia.
      apply Hkeep. rewrite Hcalls. apply in_or_app. right.
      simpl. right. left. reflexivity.
    + replace (k + S j)%nat with (S k + j)%nat by lia. apply Hprobes. exact Hj.
Qed.

(** [_tick] never throws; a call that finds the guard set changes
    nothing; a call that finds it clear leaves it clear. *)
Lemma recovery_tick_unfold svc env w :
  _tick svc env w
  = if isTickRunning w then (w, Normal tt)
    else (setTickRunning false (fst (tickBody svc env (setTickRunning true w))), Normal tt).
Proof.
  unfold _tick. unfold bind at 1, gets at 1.
  destruct (isTickRunning w); [reflexivity|].
  unfold bind at 1, modify at 1. unfold tryFinally, tryCatch, modify, ret.
  destruct (tickBody svc env (setTickRunning true w)) as [w1 [[]|e]]; reflexivity.
Qed.

Lemma recovery_tick_settles svc env w :
  snd (_tick svc env w) = Normal tt
  /\ (isTickRunning w = true -> _tick svc env w = (w, Normal tt))
  /\ (isTickRunning w = false -> isTickRunning (fst (_tick svc env w)) = false).
Proof.
  rewrite recovery_tick_unfold.
  destruct (isTickRunning w); (split; [reflexivity|]; split; [|]);
    first [reflexivity | discriminate | intros _; reflexivity].
Qed.

Lemma recovery_tick_isolates svc env w targets :
  isTickRunning w = false ->
  selection env = Normal (Some targets) ->
  (forall j target, targets !! j = Some target -> goesThrough svc (answers env j) target) ->
  forall j target, targets !! j = Some target ->
    In (probeOf svc (answers env j) target) (calls (fst (_tick svc env w))).
Proof.
  intros Hguard Hsel Hgo j target Hj.
  rewrite recovery_tick_unfold, Hguard. simpl.
  unfold tickBody. unfold bind at 1, getRecoverableApiKeyEntries at 1.
  unfold bind at 1, modify at 1, lift at 1. rewrite Hsel.
  destruct targets as [|t0 rest]; [discriminate|].
  match goal with |- context [attemptEach svc (answers env) 0 (t0 :: rest) ?w0] =>
    destruct (attemptEach_isolates svc (answers env) (t0 :: rest) 0%nat w0 Hgo)
      as (w' & Hrun & _ & _ & Hprobes) end.
  rewrite Hrun. exact (Hprobes j target Hj).
Qed.

(** The guard counts the cycles in flight. *)
Definition guardCounts (p : Process) : Prop :=
  inFlight p = if isTickRunning (world p) then 1%nat else 0%nat.

Lemma recovery_step_keeps_count svc p e p' :
  guardCounts p -> step svc p e = Some p' -> guardCounts p'.
Proof.
  unfold guardCounts.
  destruct p as [[handle guard registry calls] flying skips]. simpl.
  intros Hinv Hstep.
  destruct e as [| | |threw]; simpl in Hstep;
    unfold start, stop, tickEnters, tickLeaves in Hstep; simpl in Hstep.
  - destruct (enabled svc), handle, guard; simpl in Hstep;
      injection Hstep as <-; simpl; congruence.
  - destruct handle; injection Hstep as <-; simpl; exact Hinv.
  - destruct handle; [|discriminate].
    destruct guard; injection Hstep as <-; simpl; congruence.
  - destruct flying as [|n]; [discriminate|].
    injection Hstep as <-. simpl. destruct guard; congruence.
Qed.

Lemma recovery_run_keeps_count svc events :
  forall p p', guardCounts p -> run svc p events = Some p' -> guardCounts p'.
Proof.
  induction events as [|e events IH]; intros p p' Hinv Hrun; simpl in Hrun.
  - injection Hrun as <-. exact Hinv.
  - destruct (step svc p e) as [p1|] eqn:Hstep; [|discriminate].
    apply (IH p1 p'); [|exact Hrun].
    apply (recovery_step_keeps_count svc p e p1 Hinv Hstep).
Qed.

Lemma guardCounts_at_most_one (p : Process) : guardCounts p -> (inFlight p <= 1)%nat.
Proof. unfold guardCounts. intros ->. destruct (isTickRunning (world p)); lia. Qed.

(** ** Request timeout *)

Lemma numOr_nonzero (x : num) (d : Z) : d <> 0 -> numOr x d <> 0.
Proof.
  intros Hd. unfold numOr. destruct x as [n|]; [|exact Hd].
  destruct (Z.eqb_spec n 0); [exact Hd | assumption].
Qed.

Lemma constructor_timeout_range (config : RawConfig) :
  1000 <= requestTimeoutMs (constructor config) <= 600000.
Proof. unfold constructor; simpl. lia. Qed.

Lemma probeTimeout_range (svc : Service) : 5000 <= probeTimeout svc <= 60000.
Proof. unfold probeTimeout. lia. Qed.

Lemma sendProbeRequest_calls svc env endpointType apiKey proxy w :
  calls (fst (_sendProbeRequest svc env endpointType apiKey proxy w))
  = calls w ++ [CallAxios (requestOptionsFor svc env endpointType apiKey proxy)].
Proof.
  unfold _sendProbeRequest. run_m.
  destruct (axios _ (probeAnswer env)) as [r|e]; simpl; [|reflexivity].
  destruct (400 <=? resp_status r); reflexivity.
Qed.

(** C10: whatever [config.requestTimeout] holds, the constructor keeps
    [requestTimeoutMs] within 1000 and 600000 milliseconds, and the one
    request [_sendProbeRequest] hands to axios carries a timeout within
    5000 and 60000 milliseconds. *)
Theorem C10_probe_timeout_within_bounds
    (config : RawConfig) (env : AttemptEnv) (endpointType apiKey proxy : string) (w : World) :
  1000 <= requestTimeoutMs (constructor config) <= 600000
  /\ exists req,
       calls (fst (_sendProbeRequest (constructor config) env endpointType apiKey proxy w))
         = calls w ++ [CallAxios req]
       /\ timeout req
            = Z.max (Z.min (requestTimeoutMs (constructor config)) 60000) 5000
       /\ 5000 <= timeout req <= 60000.
Proof.
  split; [apply constructor_timeout_range|].
  exists (requestOptionsFor (constructor config) env endpointType apiKey proxy).
  split; [apply sendProbeRequest_calls|]. split; [reflexivity|].
  apply probeTimeout_range.
Qed.

(** ** Errors outside the try block *)













End RecoveryFacts.

(** * Properties of the keepalive service *)

Module HeartbeatFacts.
Import Heartbeat.

Ltac run_m :=
  unfold bind, ret, throw, lift, modify, gets, tryCatch, tryFinally, call in *; simpl in *.

(** A call that probes the account [accountId]: the token request that
    opens [_sendHeartbeatForAccount], or the request posted upstream. *)
Definition probes (accountId : string) (c : Call) : Prop :=
  match c with
  | CallGetValidAccessToken a => a = accountId
  | CallPost req => lookupHeader "X-Heartbeat-Account" (post_headers req) = Some accountId
  | _ => False
  end.

(** A call of [_refreshUsageSnapshot]. *)
Definition refreshes (c : Call) : Prop :=
  match c with
  | CallFetchOAuthUsage _ | CallUpdateClaudeUsageSnapshot _ _ | CallGetClaudeAccount _ => True
  | _ => False
  end.

Lemma refresh_frame env accountId w :
  exists w' c new,
    _refreshUsageSnapshot env accountId w = (w', c)
    /\ isRunning w' = isRunning w
    /\ interval w' = interval w
    /\ recentHeartbeats w' = recentHeartbeats w
    /\ calls w' = calls w ++ new
    /\ Forall refreshes new
    /\ match c with
       | Normal (Some (a, s)) => id a = accountId /\ s = latestSnapshot env
                                 /\ exists raw, latest env = Normal (Some raw)
       | Normal None => latest env = Normal None
       | Throw e => latest env = Throw e
       end.
Proof.
  unfold _refreshUsageSnapshot. run_m.
  destruct (fetched env) as [usage|e1]; simpl;
    [destruct (truthy usage); simpl; [destruct (usageWrite env) as [[]|e2]; simpl|]|];
    (destruct (latest env) as [[a|]|e3]; simpl;
     eexists _, _, _; (split; [reflexivity|]);
     (split; [reflexivity|]); (split; [reflexivity|]); (split; [reflexivity|]);
     (split; [simpl; rewrite <- ?app_assoc; reflexivity|]);
     (split; [repeat (apply List.Forall_cons; [exact I|]); apply List.Forall_nil|]);
     first [reflexivity | split; [reflexivity|split; [reflexivity|eexists; reflexivity]]]).
Qed.

(** The calls in [new] probe no account but [who]. *)
Definition about (who : option string) (c : Call) : Prop :=
  forall a, probes a c -> who = Some a.

(** From [w] to [w'] the instance fields are untouched and the calls made
    probe no account but [who]. *)
Definition frames (who : option string) (w w' : World) : Prop :=
  isRunning w' = isRunning w
  /\ interval w' = interval w
  /\ intervalMs w' = intervalMs w
  /\ recentHeartbeats w' = recentHeartbeats w
  /\ exists new, calls w' = calls w ++ new /\ Forall (about who) new.

Lemma frames_refl who w : frames who w w.
Proof.
  repeat split. exists []. split; [symmetry; apply app_nil_r|apply List.Forall_nil].
Qed.

Lemma frames_trans who w1 w2 w3 : frames who w1 w2 -> frames who w2 w3 -> frames who w1 w3.
Proof.
  intros (Hr1 & Hi1 & Hm1 & Hh1 & n1 & Hc1 & Hf1) (Hr2 & Hi2 & Hm2 & Hh2 & n2 & Hc2 & Hf2).
  split; [congruence|]. split; [congruence|]. split; [congruence|]. split; [congruence|].
  exists (n1 ++ n2). split; [rewrite Hc2, Hc1, app_assoc; reflexivity|].
  apply Forall_app. split; assumption.
Qed.

Lemma frames_record who c w : about who c -> frames who w (record c w).
Proof.
  intros Hc. repeat split. exists [c]. split; [reflexivity|].
  apply List.Forall_cons; [exact Hc|apply List.Forall_nil].
Qed.

Lemma frames_weaken who w w' : frames None w w' -> frames who w w'.
Proof.
  intros (Hr & Hi & Hm & Hh & new & Hc & Hf).
  repeat split; try assumption. exists new. split; [exact Hc|].
  eapply Forall_impl; [exact Hf|]. intros c Hq a Ha. specialize (Hq a Ha). discriminate.
Qed.

Lemma refreshes_about c : refreshes c -> about None c.
Proof. destruct c; simpl; intros H a Ha; try contradiction. Qed.

Lemma refresh_frames env accountId w :
  frames None w (fst (_refreshUsageSnapshot env accountId w)).
Proof.
  destruct (refresh_frame env accountId w) as (w' & c & new & Hrun & Hr & Hi & Hh & Hc & Hf & _).
  rewrite Hrun. simpl.
  split; [exact Hr|]. split; [exact Hi|]. split.
  { revert Hrun. unfold _refreshUsageSnapshot. run_m.
    destruct (fetched env) as [usage|e1]; simpl;
    [destruct (truthy usage); simpl; [destruct (usageWrite env) as [[]|e2]; simpl|]|];
    destruct (latest env) as [[a|]|e3]; simpl; intros H; injection H as <- _; reflexivity. }
  split; [exact Hh|].
  exists new. split; [exact Hc|].
  eapply Forall_impl; [exact Hf|]. intros c0 H0. apply refreshes_about. exact H0.
Qed.

Section Probe.

Variables (config : ClaudeConfig) (env : SendEnv) (account : Account) (options : Options).

Lemma postRequest_account apiUrl token proxyAgent :
  lookupHeader "X-Heartbeat-Account"
    (post_headers (postRequestFor config account options apiUrl token proxyAgent))
  = Some (id account).
Proof. reflexivity. Qed.

Lemma heartbeatBody_frames w :
  frames (Some (id account)) w (fst (heartbeatBody config env account options w)).
Proof.
  unfold heartbeatBody. unfold bind at 1. unfold call at 1.
  unfold bind at 1, modify at 1, lift at 1.
  assert (Htok : frames (Some (id account)) w (record (CallGetValidAccessToken (id account)) w)).
  { apply frames_record. intros a Ha. simpl in Ha. congruence. }
  destruct (token env) as [tok|e]; [|exact Htok].
  destruct (nonEmpty tok); cbn [negb]; cbv iota beta; [|exact Htok].
  unfold bind at 1, lift at 1.
  destruct (agent env) as [proxyAgent|e]; [|exact Htok].
  cbv zeta.
  destruct (nonEmpty (strOr (hb_endpoint (heartbeat config)) (apiUrl config)));
    cbn [negb]; cbv iota beta; [|exact Htok].
  unfold bind at 1. unfold call at 1. unfold bind at 1, modify at 1, lift at 1.
  set (req := postRequestFor _ _ _ _ _ _).
  assert (Hpost : frames (Some (id account)) w
                    (record (CallPost req) (record (CallGetValidAccessToken (id account)) w))).
  { eapply frames_trans; [exact Htok|]. apply frames_record.
    intros a Ha. unfold probes in Ha. subst req. rewrite postRequest_account in Ha.
    congruence. }
  destruct (axios defaultValidateStatus (posted env)) as [r|e]; [|exact Hpost].
  unfold bind at 1. cbv beta.
  match goal with |- context [_refreshUsageSnapshot ?a ?b ?c] =>
    pose proof (refresh_frames a b c) as Hre;
    destruct (_refreshUsageSnapshot a b c) as [w2 [cc|e]] end;
    simpl in Hre; simpl fst;
    (eapply frames_trans; [exact Hpost|apply frames_weaken; exact Hre]).
Qed.

Lemma heartbeatFailed_frames error w :
  frames (Some (id account)) w (fst (heartbeatFailed env account error w)).
Proof.
  unfold heartbeatFailed. cbv zeta.
  repeat match goal with
  | |- context [if ?b then _ else _] => destruct b
  end; try apply frames_refl;
  unfold call, bind, modify, lift;
  destruct (marked env); apply frames_record; intros who Hwho; contradiction.
Qed.

(** Whatever the collaborators answer, [_sendHeartbeatForAccount] leaves
    the cooldown record of the account at the time read in its [finally]
    block, touches no other record, and probes no other account. *)
Lemma send_frame w :
  let w' := fst (_sendHeartbeatForAccount config env account options w) in
  isRunning w' = isRunning w
  /\ interval w' = interval w
  /\ intervalMs w' = intervalMs w
  /\ recentHeartbeats w' = <[id account := exitTime env]> (recentHeartbeats w)
  /\ exists new, calls w' = calls w ++ new /\ Forall (about (Some (id account))) new.
Proof.
  unfold _sendHeartbeatForAccount, tryFinally, tryCatch, modify.
  pose proof (heartbeatBody_frames w) as Hbody.
  destruct (heartbeatBody config env account options w) as [w1 [[]|error]]; simpl in Hbody.
  - simpl. destruct Hbody as (Hr & Hi & Hm & Hh & Hc).
    rewrite Hh. repeat split; assumption.
  - pose proof (heartbeatFailed_frames error w1) as Hfail.
    destruct (heartbeatFailed env account error w1) as [w2 c]; simpl in Hfail.
    destruct (frames_trans _ _ _ _ Hbody Hfail) as (Hr & Hi & Hm & Hh & Hc).
    simpl. rewrite Hh. repeat split; assumption.
Qed.

End Probe.

Section Scan.

Variable JSON_parse : string -> completion jsval.
Variables (config : ClaudeConfig) (env : CycleEnv) (nowMs cooldownMs : Z).

(** What [_evaluateAccountForHeartbeat] decides, and on what grounds. *)
Lemma evaluate_spec (ev : EvaluateEnv) (account : Account) (w w' : World)
    (c : completion (option Evaluation)) :
  _evaluateAccountForHeartbeat JSON_parse ev account nowMs (heartbeat config) cooldownMs w
  = (w', c) ->
  frames None w w'
  /\ match c with
     | Normal (Some decision) =>
         shouldHeartbeat decision = true
         /\ id (Heartbeat.account decision) = id account
         /\ inCooldown (recentHeartbeats w !! id account) nowMs cooldownMs = false
         /\ exists s,
              usageInEffect (heartbeat config) ev account nowMs = Normal s
              /\ hasCountdown s = false
     | _ => True
     end.
Proof.
  unfold _evaluateAccountForHeartbeat. cbv zeta.
  assert (Hnone : forall A (x : A), (w, x) = (w', x) -> frames None w w').
  { intros A x H. injection H as <-. apply frames_refl. }
  destruct (_isClaudePlatform account); cbn [negb]; cbv iota;
    [|unfold ret; intros H; injection H as <- <-; split; [apply frames_refl|exact I]].
  destruct (_isOAuthAccount account); cbn [negb]; cbv iota;
    [|unfold ret; intros H; injection H as <- <-; split; [apply frames_refl|exact I]].
  destruct (_isAccountHealthy account); cbn [negb]; cbv iota;
    [|unfold ret; intros H; injection H as <- <-; split; [apply frames_refl|exact I]].
  destruct (_isClaudeMaxAccount JSON_parse account); cbn [negb]; cbv iota;
    [|unfold ret; intros H; injection H as <- <-; split; [apply frames_refl|exact I]].
  unfold bind at 1, gets at 1. cbv beta.
  destruct (inCooldown (recentHeartbeats w !! id account) nowMs cooldownMs) eqn:Hcool;
    cbv iota;
    [unfold ret; intros H; injection H as <- <-; split; [apply frames_refl|exact I]|].
  unfold usageInEffect.
  destruct (negb (hasCountdown (snapshot ev)) && usageIsStale (heartbeat config) account nowMs)
    eqn:Hstale; cbv iota.
  - unfold bind at 1. unfold bind at 1.
    destruct (refresh_frame (refresh ev) (id account) w)
      as (w1 & c1 & new & Hrun & Hr & Hi & Hh & Hc & Hf & Hres).
    pose proof (refresh_frames (refresh ev) (id account) w) as Hfr.
    rewrite Hrun in *. simpl in Hfr.
    destruct c1 as [[[latestAccount latestSnap]|]|e]; cbv iota beta.
    + destruct Hres as (Hid & -> & raw & Hlatest). rewrite Hlatest.
      unfold ret at 1. cbv iota beta.
      destruct (hasCountdown (latestSnapshot (refresh ev))) eqn:Hcount;
        unfold ret; intros H; injection H as <- <-;
        (split; [exact Hfr|]); [exact I|].
      simpl. split; [reflexivity|]. split; [exact Hid|]. split; [reflexivity|].
      eexists; split; [reflexivity|exact Hcount].
    + rewrite Hres. unfold ret at 1. cbv iota beta.
      destruct (hasCountdown (snapshot ev)) eqn:Hcount;
        unfold ret; intros H; injection H as <- <-;
        (split; [exact Hfr|]); [exact I|].
      simpl. split; [reflexivity|]. split; [reflexivity|]. split; [reflexivity|].
      eexists; split; [reflexivity|exact Hcount].
    + intros H; injection H as <- <-. split; [exact Hfr|exact I].
  - unfold bind at 1. unfold ret at 1. cbv iota beta.
    destruct (hasCountdown (snapshot ev)) eqn:Hcount;
      unfold ret; intros H; injection H as <- <-;
      (split; [apply frames_refl|]); [exact I|].
    simpl. split; [reflexivity|]. split; [reflexivity|]. split; [reflexivity|].
    eexists; split; [reflexivity|exact Hcount].
Qed.

(** A scan spares the account [accountId]: provided every evaluation of an
    entry of that name ends without a decision to probe, none of the calls
    the scan makes probes it.  [P] is what is known of the cooldown
    records, [Q] of the entries of that name. *)
Lemma scan_spares (accountId : string) (P : gmap string Z -> Prop)
    (Q : nat -> Account -> Prop) :
  (forall m a t, P m -> a <> accountId -> P (<[a := t]> m)) ->
  (forall w k a w' decision,
      P (recentHeartbeats w) -> Q k a -> id a = accountId ->
      _evaluateAccountForHeartbeat JSON_parse (evaluations env k) a nowMs
        (heartbeat config) cooldownMs w = (w', Normal (Some decision)) ->
      shouldHeartbeat decision = true -> False) ->
  forall accounts k counters w w' c,
    P (recentHeartbeats w) ->
    (forall j a, accounts !! j = Some a -> id a = accountId -> Q (k + j)%nat a) ->
    scanAccounts JSON_parse config env nowMs cooldownMs k accounts counters w = (w', c) ->
    isRunning w' = isRunning w
    /\ P (recentHeartbeats w')
    /\ exists new, calls w' = calls w ++ new /\ Forall (fun c => ~ probes accountId c) new.
Proof.
  intros Hother Hspared.
  assert (Hquiet : forall w1 w2, frames None w1 w2 ->
            isRunning w2 = isRunning w1 /\ recentHeartbeats w2 = recentHeartbeats w1
            /\ exists new, calls w2 = calls w1 ++ new
                           /\ Forall (fun c => ~ probes accountId c) new).
  { intros w1 w2 (Hr & _ & _ & Hh & new & Hc & Hf). split; [exact Hr|]. split; [exact Hh|].
    exists new. split; [exact Hc|]. eapply Forall_impl; [exact Hf|].
    intros c Hc0 Hp. specialize (Hc0 _ Hp). discriminate. }
  assert (Hjoin : forall w1 w2 w3 : World,
            (exists new, calls w2 = calls w1 ++ new
                         /\ Forall (fun c => ~ probes accountId c) new) ->
            (exists new, calls w3 = calls w2 ++ new
                         /\ Forall (fun c => ~ probes accountId c) new) ->
            exists new, calls w3 = calls w1 ++ new
                        /\ Forall (fun c => ~ probes accountId c) new).
  { intros w1 w2 w3 (n1 & H1 & F1) (n2 & H2 & F2). exists (n1 ++ n2).
    split; [rewrite H2, H1, app_assoc; reflexivity|apply Forall_app; split; assumption]. }
  induction accounts as [|a rest IH]; intros k counters w w' c HP HQ Hrun.
  - simpl in Hrun. unfold ret in Hrun. injection Hrun as <- <-.
    split; [reflexivity|]. split; [exact HP|].
    exists []. split; [symmetry; apply app_nil_r|apply List.Forall_nil].
  - assert (HQ' : forall j b, rest !! j = Some b -> id b = accountId -> Q (S k + j)%nat b).
    { intros j b Hj Hb. replace (S k + j)%nat with (k + S j)%nat by lia.
      apply HQ; [exact Hj|exact Hb]. }
    cbn [scanAccounts] in Hrun. cbv zeta in Hrun. unfold bind at 1 in Hrun.
    destruct (_evaluateAccountForHeartbeat JSON_parse (evaluations env k) a nowMs
                (heartbeat config) cooldownMs w) as [w1 c1] eqn:Heval.
    destruct (evaluate_spec _ _ _ _ _ Heval) as [Hfr Hdec].
    destruct (Hquiet _ _ Hfr) as (Hr1 & Hh1 & Hc1).
    assert (HP1 : P (recentHeartbeats w1)) by (rewrite Hh1; exact HP).
    assert (Hcontinue : forall counters',
      scanAccounts JSON_parse config env nowMs cooldownMs (S k) rest counters' w1 = (w', c) ->
      isRunning w' = isRunning w /\ P (recentHeartbeats w')
      /\ exists new, calls w' = calls w ++ new
                     /\ Forall (fun c => ~ probes accountId c) new).
    { intros counters' Hrest.
      destruct (IH (S k) counters' w1 w' c HP1 HQ' Hrest) as (Hr & HP' & Hc).
      split; [rewrite Hr; exact Hr1|]. split; [exact HP'|].
      eapply Hjoin; [exact Hc1|exact Hc]. }
    destruct c1 as [[[should accountData]|]|e]; cbv iota beta in Hrun.
    + destruct should.
      * destruct Hdec as (_ & Hid & _).
        assert (Hne : id accountData <> accountId).
        { intros Heq. simpl in Hid.
          assert (Hida : id a = accountId) by congruence.
          assert (HQk : Q k a).
          { replace k with (k + 0)%nat by lia. apply HQ; [reflexivity|exact Hida]. }
          exact (Hspared w k a w1 _ HP HQk Hida Heval eq_refl). }
        unfold bind at 1 in Hrun.
        pose proof (send_frame config (sends env k) accountData (optionsOf config) w1)
          as Hsend.
        destruct (_sendHeartbeatForAccount config (sends env k) accountData
                    (optionsOf config) w1) as [w2 [[]|e]]; simpl in Hsend;
          destruct Hsend as (Hr2 & _ & _ & Hh2 & new2 & Hc2 & Hf2).
        -- assert (HP2 : P (recentHeartbeats w2)).
           { rewrite Hh2. apply Hother; [exact HP1|exact Hne]. }
           destruct (IH (S k) _ w2 w' c HP2 HQ' Hrun) as (Hr & HP' & Hc).
           split; [rewrite Hr, Hr2; exact Hr1|]. split; [exact HP'|].
           eapply Hjoin; [|exact Hc]. eapply Hjoin; [exact Hc1|].
           exists new2. split; [exact Hc2|]. eapply Forall_impl; [exact Hf2|].
           intros c0 Hc0 Hp. specialize (Hc0 _ Hp). congruence.
        -- injection Hrun as <- <-. split; [rewrite Hr2; exact Hr1|]. split.
           { rewrite Hh2. apply Hother; [exact HP1|exact Hne]. }
           eapply Hjoin; [exact Hc1|].
           exists new2. split; [exact Hc2|]. eapply Forall_impl; [exact Hf2|].
           intros c0 Hc0 Hp. specialize (Hc0 _ Hp). congruence.
      * eapply Hcontinue. exact Hrun.
    + eapply Hcontinue. exact Hrun.
    + injection Hrun as <- <-. split; [exact Hr1|]. split; [exact HP1|exact Hc1].
Qed.

End Scan.

(** ** A sample account *)

(** A [JSON.parse] that rejects every text; the sample account carries its
    subscription as an object. *)
Definition rejectJson (text : string) : completion jsval :=
  Throw (mkError "Unexpected token in JSON").

Definition sampleHeartbeat (cooldownMinutes : string) : HeartbeatConfig := {|
  hb_enabled := true; hb_scanIntervalMs := ""; hb_model := ""; hb_maxTokens := None;
  hb_prompt := ""; hb_includeSystemPrompt := None; hb_systemPrompt := "";
  hb_cooldownMinutes := cooldownMinutes; hb_usageRefreshMaxAgeMs := "";
  hb_endpoint := ""; hb_userAgent := ""; hb_timeoutMs := None
|}.

Definition sampleConfig (cooldownMinutes : string) : ClaudeConfig := {|
  heartbeat := sampleHeartbeat cooldownMinutes; defaultModel := ""; fallbackModel := "";
  apiUrl := "https://api.anthropic.com/v1/messages"; apiVersion := ""; betaHeader := ""
|}.

Definition sampleAccount : Account := {|
  id := "claude-1"; name := "primary"; platform := "claude"; accountType := "";
  scopes := VStr "user:profile user:inference";
  isActive := "true"; schedulable := "true"; fiveHourAutoStopped := "";
  rateLimitAutoStopped := ""; rateLimitStatus := ""; rateLimitedAt := "";
  status := "active";
  subscriptionInfo := VObj [("accountType", VStr "claude_max")];
  claudeUsageUpdatedAt := IsoAbsent; proxy := ""
|}.

Definition countdown (remainingSeconds : Z) : jsval :=
  VObj [("fiveHour", VObj [("remainingSeconds", VNum remainingSeconds)])].

Definition quietRefresh (after : jsval) : RefreshEnv := {|
  fetched := Normal VNull; usageWrite := Normal tt;
  latest := Normal (Some sampleAccount); latestSnapshot := after
|}.

Definition answering (status : Z) (headers : list (string * string)) : AxiosAnswer :=
  Answered {| resp_status := status; resp_headers := headers; resp_data := VNull |}.

Definition sendEnv (token : string) (answer : AxiosAnswer) (exit : Z) : SendEnv := {|
  token := Normal token; agent := Normal None; posted := answer;
  afterSuccess := quietRefresh (countdown 0); marked := Normal tt; exitTime := exit
|}.

Definition cycleEnv (before after : jsval) (send : SendEnv) : CycleEnv := {|
  allAccounts := Normal (Some [sampleAccount]);
  evaluations := fun _ => {| snapshot := before; refresh := quietRefresh after |};
  sends := fun _ => send
|}.

Section Cycle.

Variable JSON_parse : string -> completion jsval.
Variables (config : ClaudeConfig) (env : CycleEnv) (timestamp : Z).

Lemma cycle_spares (accountId : string) (P : gmap string Z -> Prop)
    (Q : nat -> Account -> Prop) :
  (forall m a t, P m -> a <> accountId -> P (<[a := t]> m)) ->
  (forall m, P m -> P (omap (keepRecent timestamp) m)) ->
  (forall w k a w' decision,
      P (recentHeartbeats w) -> Q k a -> id a = accountId ->
      _evaluateAccountForHeartbeat JSON_parse (evaluations env k) a timestamp
        (heartbeat config) (cooldownMsOf (heartbeat config)) w
      = (w', Normal (Some decision)) ->
      shouldHeartbeat decision = true -> False) ->
  forall w w' c,
    P (recentHeartbeats w) ->
    (forall accounts k a,
        allAccounts env = Normal (Some accounts) ->
        accounts !! k = Some a -> id a = accountId -> Q k a) ->
    _runHeartbeatCycle JSON_parse config env timestamp w = (w', c) ->
    isRunning w' = isRunning w
    /\ exists new, calls w' = calls w ++ new /\ Forall (fun c => ~ probes accountId c) new.
Proof.
  intros Hother Hsweep Hspared w w' c HP HQ.
  unfold _runHeartbeatCycle. cbv zeta.
  unfold bind at 1, call at 1. unfold bind at 1, modify at 1, lift at 1.
  assert (Hfirst : exists new,
            calls (record CallGetAllClaudeAccounts w) = calls w ++ new
            /\ Forall (fun c => ~ probes accountId c) new).
  { exists [CallGetAllClaudeAccounts]. split; [reflexivity|].
    apply List.Forall_cons; [intros H; exact H|apply List.Forall_nil]. }
  destruct (allAccounts env) as [[accounts|]|e] eqn:Hall.
  - destruct accounts as [|a rest].
    + unfold ret. intros H; injection H as <- <-. split; [reflexivity|exact Hfirst].
    + unfold bind at 1, _cleanupRecentHeartbeats at 1, modify at 1.
      unfold bind at 1.
      set (w1 := setRecent _ (record CallGetAllClaudeAccounts w)).
      destruct (scanAccounts JSON_parse config env timestamp (cooldownMsOf (heartbeat config))
                  0 (a :: rest) {| processed := 0; heartbeatsTriggered := 0 |} w1)
        as [w2 c2] eqn:Hscan.
      destruct (scan_spares JSON_parse config env timestamp (cooldownMsOf (heartbeat config))
                  accountId P Q Hother Hspared (a :: rest) 0%nat _ w1 w2 c2
                  (Hsweep _ HP : P (recentHeartbeats w1))
                  (fun j b Hj Hb => HQ (a :: rest) j b eq_refl Hj Hb) Hscan)
        as (Hr & _ & new & Hc & Hf).
      assert (Hw2 : isRunning w2 = isRunning w
                    /\ exists new, calls w2 = calls w ++ new
                                   /\ Forall (fun c => ~ probes accountId c) new).
      { split; [exact Hr|]. destruct Hfirst as (n1 & H1 & F1).
        exists (n1 ++ new). split.
        - rewrite Hc. change (calls w1) with (calls (record CallGetAllClaudeAccounts w)).
          rewrite H1, app_assoc. reflexivity.
        - apply Forall_app. split; assumption. }
      destruct c2 as [counters|e]; unfold ret; intros H; injection H as <- <-; exact Hw2.
  - unfold ret. intros H; injection H as <- <-. split; [reflexivity|exact Hfirst].
  - intros H; injection H as <- <-. split; [reflexivity|exact Hfirst].
Qed.

(** C8: in a cycle, take an account name every scanned entry of which has,
    in the snapshot its evaluation ends on (after the one refresh made when
    the usage is stale), a numeric [remainingSeconds] above 0.  No call of
    the cycle probes that account: neither a token request nor a posted
    request bears its name. *)
Theorem C8_positive_countdown_not_probed (accountId : string) (w : World) :
  (forall accounts k a,
      allAccounts env = Normal (Some accounts) ->
      accounts !! k = Some a -> id a = accountId ->
      exists s n,
        usageInEffect (heartbeat config) (evaluations env k) a timestamp = Normal s
        /\ remainingSecondsOf s = VNum n /\ 0 < n) ->
  let w' := fst (_runHeartbeatCycle JSON_parse config env timestamp w) in
  exists new,
    calls w' = calls w ++ new
    /\ Forall (fun c => ~ probes accountId c) new.
Proof.
  intros Hpositive w'.
  destruct (_runHeartbeatCycle JSON_parse config env timestamp w) as [w1 c] eqn:Hrun.
  subst w'. simpl.
  apply (cycle_spares accountId (fun _ => True)
           (fun k a => exists s n,
              usageInEffect (heartbeat config) (evaluations env k) a timestamp = Normal s
              /\ remainingSecondsOf s = VNum n /\ 0 < n))
    with (w := w) (c := c); try (intros; exact I).
  - intros w0 k a w0' decision _ (s & n & Hs & Hn & Hpos) _ Heval _.
    destruct (evaluate_spec JSON_parse config timestamp _ _ _ _ _ _ Heval) as [_ Hdec].
    destruct Hdec as (_ & _ & _ & s' & Hs' & Hcount).
    rewrite Hs in Hs'. injection Hs' as <-.
    unfold hasCountdown in Hcount. rewrite Hn in Hcount.
    apply Z.ltb_ge in Hcount. lia.
  - exact Hpositive.
  - exact Hrun.
Qed.

Lemma inCooldown_within (t cooldownMs : Z) :
  t <> 0 -> timestamp - t < cooldownMs -> inCooldown (Some t) timestamp cooldownMs = true.
Proof.
  intros Ht Hlt. unfold inCooldown.
  destruct (Z.eqb_spec t 0); [contradiction|].
  destruct (Z.ltb_spec (timestamp - t) cooldownMs); [reflexivity|lia].
Qed.

Lemma keepRecent_young (t : Z) :
  t <> 0 -> timestamp - t <= expirationMs -> keepRecent timestamp t = Some t.
Proof.
  intros Ht Hle. unfold keepRecent.
  destruct (Z.eqb_spec t 0); [contradiction|].
  destruct (Z.ltb_spec expirationMs (timestamp - t)); [lia|reflexivity].
Qed.

(** C4: on every exit of [_sendHeartbeatForAccount], whatever each
    collaborator answered and whether the call returns or throws, the
    cooldown record of the account holds the time read in the [finally]
    block.  A later cycle that finds the record of an account, not older
    than the 24 hours after which the cycle sweeps records and within the
    cooldown window, makes no call that probes the account. *)
Theorem C4_cooldown_recorded_on_every_exit
    (senv : SendEnv) (account : Account) (options : Options) (w0 : World) :
  recentHeartbeats (fst (_sendHeartbeatForAccount config senv account options w0))
    !! id account = Some (exitTime senv)
  /\ forall (w : World) (t : Z),
       recentHeartbeats w !! id account = Some t ->
       t <> 0 ->
       timestamp - t < cooldownMsOf (heartbeat config) ->
       timestamp - t <= expirationMs ->
       exists new,
         calls (fst (_runHeartbeatCycle JSON_parse config env timestamp w)) = calls w ++ new
         /\ Forall (fun c => ~ probes (id account) c) new.
Proof.
  split.
  { destruct (send_frame config senv account options w0) as (_ & _ & _ & Hh & _).
    rewrite Hh. apply lookup_insert_eq. }
  intros w t Hrecord Ht Hwindow Hyoung.
  destruct (_runHeartbeatCycle JSON_parse config env timestamp w) as [w1 c] eqn:Hrun.
  simpl.
  apply (cycle_spares (id account) (fun m => m !! id account = Some t) (fun _ _ => True))
    with (w := w) (c := c); try (intros; exact I).
  - intros m a t' Hm Hne. rewrite lookup_insert_ne by exact Hne. exact Hm.
  - intros m Hm. rewrite lookup_omap, Hm. simpl. apply keepRecent_young; assumption.
  - intros w2 k a w2' decision Hm _ Hid Heval _.
    destruct (evaluate_spec JSON_parse config timestamp _ _ _ _ _ _ Heval) as [_ Hdec].
    destruct Hdec as (_ & _ & Hcool & _).
    rewrite Hid, Hm, (inCooldown_within t _ Ht Hwindow) in Hcool. discriminate.
  - exact Hrecord.
  - exact Hrun.
Qed.

End Cycle.

(** C5: when [getValidAccessToken] answers no token,
    [_sendHeartbeatForAccount] returns having made that one call: nothing
    is posted and no write to the account or its usage is requested; and
    the cooldown record of the account is set to the time read in the
    [finally] block. *)
Theorem C5_no_token_sets_only_the_cooldown
    (config : ClaudeConfig) (env : SendEnv) (account : Account) (options : Options)
    (w : World) :
  token env = Normal "" ->
  _sendHeartbeatForAccount config env account options w
  = (setRecent (<[id account := exitTime env]> (recentHeartbeats w))
       (record (CallGetValidAccessToken (id account)) w),
     Normal tt).
Proof.
  intros Htoken.
  unfold _sendHeartbeatForAccount, tryFinally, tryCatch, heartbeatBody.
  unfold bind at 1, call at 1. unfold bind at 1, modify at 1, lift at 1.
  rewrite Htoken. reflexivity.
Qed.

(** The reset time handed to [markAccountRateLimited]: the integer
    [parseInt] reads in the reset header when that is a finite number,
    null ([None]) when the header is missing or reads as no finite number. *)
Definition resetFromHeader (r : Response) : option Z :=
  match lookupHeader "anthropic-ratelimit-unified-reset" (resp_headers r) with
  | Some text => if Number_isFinite (parseInt10 text) then parseInt10 text else None
  | None => None
  end.

Lemma resetEpoch_from_header (error : Error) (r : Response) :
  response error = Some r -> resetEpoch error = resetFromHeader r.
Proof.
  intros Hr. unfold resetEpoch, resetFromHeader. rewrite Hr.
  destruct (lookupHeader _ _) as [text|]; [|reflexivity].
  destruct (nonEmpty text) eqn:Hne; [reflexivity|].
  unfold nonEmpty in Hne. apply negb_false_iff, String.eqb_eq in Hne. subst text.
  reflexivity.
Qed.

(** C9: the token is there, the proxy agent is built, the endpoint is
    configured, and the provider answers the posted request with status 429
    or 529.  Then the calls made are the token request, the post, and one
    remediation: for 429 [markAccountRateLimited] with the reset time of
    the header, for 529 [markAccountOverloaded]; the call completes as the
    remediation does, and the cooldown record is set either way. *)
Theorem C9_rate_limit_and_overload_remediation
    (config : ClaudeConfig) (env : SendEnv) (account : Account) (options : Options)
    (w : World) (tok : string) (proxyAgent : option string) (r : Response) :
  token env = Normal tok -> nonEmpty tok = true ->
  agent env = Normal proxyAgent ->
  nonEmpty (strOr (hb_endpoint (heartbeat config)) (apiUrl config)) = true ->
  posted env = Answered r ->
  resp_status r = 429 \/ resp_status r = 529 ->
  let run := _sendHeartbeatForAccount config env account options w in
  let request :=
    postRequestFor config account options
      (strOr (hb_endpoint (heartbeat config)) (apiUrl config)) tok proxyAgent in
  calls (fst run)
  = calls w
    ++ [CallGetValidAccessToken (id account);
        CallPost request;
        if resp_status r =? 429
        then CallMarkAccountRateLimited (id account) (resetFromHeader r)
        else CallMarkAccountOverloaded (id account)]
  /\ snd run = marked env
  /\ recentHeartbeats (fst run) !! id account = Some (exitTime env).
Proof.
  intros Htoken Htok Hagent Hurl Hposted Hstatus run request.
  assert (Hrun : run
    = (setRecent (<[id account := exitTime env]> (recentHeartbeats w))
         (record (if resp_status r =? 429
                  then CallMarkAccountRateLimited (id account) (resetFromHeader r)
                  else CallMarkAccountOverloaded (id account))
            (record (CallPost request)
               (record (CallGetValidAccessToken (id account)) w))),
       marked env)).
  { subst run request.
    unfold _sendHeartbeatForAccount, tryFinally, tryCatch, heartbeatBody.
    unfold bind at 1, call at 1. unfold bind at 1, modify at 1, lift at 1.
    rewrite Htoken, Htok. cbn [negb]. cbv iota beta.
    unfold bind at 1, lift at 1. rewrite Hagent. cbv zeta iota beta.
    rewrite Hurl. cbn [negb]. cbv iota beta.
    unfold bind at 1, call at 1. unfold bind at 1, modify at 1, lift at 1.
    rewrite Hposted. unfold axios, defaultValidateStatus.
    assert (Hreject : (200 <=? resp_status r) && (resp_status r <? 300) = false).
    { destruct Hstatus as [-> | ->]; reflexivity. }
    rewrite Hreject. cbv iota beta.
    unfold heartbeatFailed. cbv zeta. cbn [response option_map].
    match goal with |- context [resetEpoch ?e] =>
      rewrite (resetEpoch_from_header e r eq_refl) end.
    destruct Hstatus as [Hs | Hs]; rewrite Hs; simpl Z.eqb; cbv iota;
      unfold call, bind, modify, lift; destruct (marked env) as [[]|e]; reflexivity. }
  rewrite Hrun. simpl.
  split; [rewrite <- !app_assoc; reflexivity|]. split; [reflexivity|].
  apply lookup_insert_eq.
Qed.

Lemma C8_positive_countdown_not_probed_witness :
  exists new,
    calls (fst (_runHeartbeatCycle rejectJson (sampleConfig "")
                  (cycleEnv (countdown 0) (countdown 300)
                     (sendEnv "token" (answering 200 []) 1700000001000))
                  1700000000000 newWorld))
    = calls newWorld ++ new
    /\ Forall (fun c => ~ probes "claude-1" c) new.
Proof.
  apply (C8_positive_countdown_not_probed rejectJson (sampleConfig "")
           (cycleEnv (countdown 0) (countdown 300)
              (sendEnv "token" (answering 200 []) 1700000001000))
           1700000000000 "claude-1" newWorld).
  intros accounts k a Hall Hk _. simpl in Hall. injection Hall as <-.
  destruct k as [|k]; [|destruct k; discriminate].
  injection Hk as <-. exists (countdown 300), 300.
  split; [reflexivity|]. split; [reflexivity|lia].
Defined.

(** The world after a probe of the sample account that the provider
    turned down with status 401, left at [exit]. *)
Definition afterRefusedProbe (cooldownMinutes : string) (exit : Z) : World :=
  fst (_sendHeartbeatForAccount (sampleConfig cooldownMinutes)
         (sendEnv "token" (answering 401 []) exit) sampleAccount
         (optionsOf (sampleConfig cooldownMinutes)) newWorld).

Lemma C4_cooldown_recorded_on_every_exit_witness :
  recentHeartbeats (afterRefusedProbe "" 1700000000000) !! "claude-1"
  = Some 1700000000000
  /\ exists new,
       calls (fst (_runHeartbeatCycle rejectJson (sampleConfig "")
                     (cycleEnv (countdown 0) (countdown 0)
                        (sendEnv "token" (answering 401 []) 1700000301000))
                     1700000300000 (afterRefusedProbe "" 1700000000000)))
       = calls (afterRefusedProbe "" 1700000000000) ++ new
       /\ Forall (fun c => ~ probes "claude-1" c) new.
Proof.
  destruct (C4_cooldown_recorded_on_every_exit rejectJson (sampleConfig "")
              (cycleEnv (countdown 0) (countdown 0)
                 (sendEnv "token" (answering 401 []) 1700000301000))
              1700000300000
              (sendEnv "token" (answering 401 []) 1700000000000) sampleAccount
              (optionsOf (sampleConfig "")) newWorld) as [Hrecorded Hspared].
  split; [exact Hrecorded|].
  apply (Hspared (afterRefusedProbe "" 1700000000000) 1700000000000).
  - exact Hrecorded.
  - discriminate.
  - vm_compute. reflexivity.
  - vm_compute. discriminate.
Defined.

(** With a cooldown of 2000 minutes, the cycle that runs 25 hours after
    the probe sweeps the record and probes the account again, 500 minutes
    into the window. *)
Lemma C4_probed_again_within_long_cooldown :
  ~ (forall (JSON_parse : string -> completion jsval) (config : ClaudeConfig)
            (env : CycleEnv) (timestamp : Z) (accountId : string) (w : World) (t : Z),
        recentHeartbeats w !! accountId = Some t ->
        t <> 0 ->
        timestamp - t < cooldownMsOf (heartbeat config) ->
        exists new,
          calls (fst (_runHeartbeatCycle JSON_parse config env timestamp w)) = calls w ++ new
          /\ Forall (fun c => ~ probes accountId c) new).
Proof.
  intros Hnever.
  destruct (Hnever rejectJson (sampleConfig "2000")
              (cycleEnv (countdown 0) (countdown 0)
                 (sendEnv "token" (answering 401 []) 1700090001000))
              1700090000000 "claude-1"
              (afterRefusedProbe "2000" 1700000000000) 1700000000000)
    as (new & Hcalls & Hquiet).
  - reflexivity.
  - discriminate.
  - vm_compute. reflexivity.
  - vm_compute in Hcalls. injection Hcalls as <-.
    repeat match goal with
    | H : Forall _ (_ :: _) |- _ => apply Forall_cons_iff in H as [? ?]
    end.
    match goal with
    | H : ~ probes "claude-1" (CallGetValidAccessToken "claude-1") |- _ =>
        apply H; reflexivity
    end.
Qed.

Lemma C5_no_token_sets_only_the_cooldown_witness :
  _sendHeartbeatForAccount (sampleConfig "")
    (sendEnv "" (answering 200 []) 1700000000000) sampleAccount
    (optionsOf (sampleConfig "")) newWorld
  = (setRecent (<["claude-1" := 1700000000000]> (recentHeartbeats newWorld))
       (record (CallGetValidAccessToken "claude-1") newWorld),
     Normal tt).
Proof.
  apply (C5_no_token_sets_only_the_cooldown (sampleConfig "")
           (sendEnv "" (answering 200 []) 1700000000000) sampleAccount
           (optionsOf (sampleConfig "")) newWorld).
  reflexivity.
Defined.

(** Without a token the cooldown record of the account does change. *)
Lemma C5_cooldown_record_is_modified :
  ~ (forall (config : ClaudeConfig) (env : SendEnv) (account : Account)
            (options : Options) (w : World),
        token env = Normal "" ->
        recentHeartbeats (fst (_sendHeartbeatForAccount config env account options w))
        = recentHeartbeats w).
Proof.
  intros Hsame.
  specialize (Hsame (sampleConfig "") (sendEnv "" (answering 200 []) 1700000000000)
                sampleAccount (optionsOf (sampleConfig "")) newWorld eq_refl).
  apply (f_equal (fun m => m !! "claude-1")) in Hsame.
  vm_compute in Hsame. discriminate.
Qed.

Lemma C9_rate_limit_and_overload_remediation_witness :
  calls (fst (_sendHeartbeatForAccount (sampleConfig "")
                (sendEnv "token"
                   (answering 429 [("anthropic-ratelimit-unified-reset", "1700000000")])
                   1699999000000)
                sampleAccount (optionsOf (sampleConfig "")) newWorld))
  = [CallGetValidAccessToken "claude-1";
     CallPost (postRequestFor (sampleConfig "") sampleAccount (optionsOf (sampleConfig ""))
                 "https://api.anthropic.com/v1/messages" "token" None);
     CallMarkAccountRateLimited "claude-1" (Some 1700000000)]
  /\ recentHeartbeats
       (fst (_sendHeartbeatForAccount (sampleConfig "")
               (sendEnv "token"
                  (answering 429 [("anthropic-ratelimit-unified-reset", "1700000000")])
                  1699999000000)
               sampleAccount (optionsOf (sampleConfig "")) newWorld))
     !! "claude-1" = Some 1699999000000.
Proof.
  destruct (C9_rate_limit_and_overload_remediation (sampleConfig "")
              (sendEnv "token"
                 (answering 429 [("anthropic-ratelimit-unified-reset", "1700000000")])
                 1699999000000)
              sampleAccount (optionsOf (sampleConfig "")) newWorld
              "token" None
              {| resp_status := 429;
                 resp_headers := [("anthropic-ratelimit-unified-reset", "1700000000")];
                 resp_data := VNull |})
    as (Hcalls & _ & Hrecent); try reflexivity.
  - left. reflexivity.
  - split; [exact Hcalls|exact Hrecent].
Defined.

(** ** The cycle and its guard *)


Section Isolation.

Variable JSON_parse : string -> completion jsval.
Variables (config : ClaudeConfig) (env : CycleEnv) (nowMs cooldownMs : Z).



End Isolation.


Section Guard.

Variable JSON_parse : string -> completion jsval.
Variables (config : ClaudeConfig) (env : CycleEnv) (timestamp : Z).

Lemma heartbeat_tick_unfold w :
  _tick JSON_parse config env timestamp w
  = if isRunning w then (w, Normal tt)
    else (setRunning false
            (fst (_runHeartbeatCycle JSON_parse config env timestamp (setRunning true w))),
          Normal tt).
Proof.
  unfold _tick. unfold bind at 1, gets at 1.
  destruct (isRunning w); [reflexivity|].
  unfold bind at 1, modify at 1. unfold tryFinally, tryCatch, modify, ret, bind.
  destruct (_runHeartbeatCycle JSON_parse config env timestamp (setRunning true w))
    as [w1 [counters|e]]; reflexivity.
Qed.

Lemma heartbeat_tick_settles w :
  snd (_tick JSON_parse config env timestamp w) = Normal tt
  /\ (isRunning w = true -> _tick JSON_parse config env timestamp w = (w, Normal tt))
  /\ (isRunning w = false ->
      isRunning (fst (_tick JSON_parse config env timestamp w)) = false).
Proof.
  rewrite heartbeat_tick_unfold.
  destruct (isRunning w); (split; [reflexivity|]; split; [|]);
    first [reflexivity | discriminate | intros _; reflexivity].
Qed.

End Guard.

(** The guard counts the cycles in flight. *)
Definition guardCounts (p : Process) : Prop :=
  inFlight p = if isRunning (world p) then 1%nat else 0%nat.

Lemma heartbeat_step_keeps_count config p e p' :
  guardCounts p ->
  match e with Stop => inFlight p = 0%nat | _ => True end ->
  step config p e = Some p' -> guardCounts p'.
Proof.
  unfold guardCounts.
  destruct p as [[handle guard ms recent calls] pending live flying skips]. simpl.
  intros Hinv Hidle Hstep.
  destruct e as [| | | |threw]; simpl in Hstep;
    unfold start, stop, tickEnters, tickLeaves in Hstep; simpl in Hstep.
  - destruct (hb_enabled (heartbeat config)); simpl in Hstep;
      injection Hstep as <-; simpl; exact Hinv.
  - injection Hstep as <-. simpl. destruct handle; simpl; exact Hidle.
  - destruct pending as [|n]; [discriminate|].
    destruct guard; injection Hstep as <-; simpl; congruence.
  - destruct live as [|n]; [discriminate|].
    destruct guard; injection Hstep as <-; simpl; congruence.
  - destruct flying as [|n]; [discriminate|].
    injection Hstep as <-. simpl. destruct guard; congruence.
Qed.

Lemma heartbeat_run_keeps_count config events :
  forall p p',
    guardCounts p -> stopsBetweenCycles config p events = true ->
    run config p events = Some p' -> guardCounts p'.
Proof.
  induction events as [|e events IH]; intros p p' Hinv Hstops Hrun; simpl in Hrun.
  - injection Hrun as <-. exact Hinv.
  - cbn [stopsBetweenCycles] in Hstops.
    destruct (step config p e) as [p1|] eqn:Hstep; [|discriminate].
    apply andb_true_iff in Hstops as [Hidle Hstops].
    apply (IH p1 p'); [|exact Hstops|exact Hrun].
    apply (heartbeat_step_keeps_count config p e p1 Hinv); [|exact Hstep].
    destruct e; try exact I. apply Nat.eqb_eq. exact Hidle.
Qed.

(** ** Errors outside the try block *)


Section Stops.

Variable JSON_parse : string -> completion jsval.
Variable config : ClaudeConfig.





End Stops.

End HeartbeatFacts.

(** * Properties shared by the two monitors *)

Module MonitorFacts.

(** ** Sample cycles *)

Definition secondEntry : Recovery.ApiKeyEntry := {|
  Recovery.id := "key-2"; Recovery.key := "fk-second"; Recovery.status := "error";
  Recovery.errorMessage := "HTTP 402"; Recovery.errorSince := IsoTime 1700000000000;
  Recovery.recoveryExpiresAt := IsoAbsent; Recovery.nextRecoveryAt := IsoAbsent;
  Recovery.recoveryAttempts := None; Recovery.lastRecoveryAttemptAt := IsoAbsent;
  Recovery.lastRecoveryResult := Recovery.NoNote
|}.

Definition twoTargets : list Recovery.Target :=
  [RecoveryFacts.sampleTarget; Recovery.withEntry RecoveryFacts.sampleTarget secondEntry].

Definition twoKeys : Recovery.World :=
  Recovery.newWorld
    {[ "account-1" :=
         {| Recovery.acc_name := "droid"; Recovery.acc_status := "error";
            Recovery.acc_schedulable := VStr "false";
            Recovery.acc_errorMessage := "no usable key";
            Recovery.apiKeys := [RecoveryFacts.sampleEntry; secondEntry] |} ]}.

Definition registryDown : Error :=
  {| message := "READONLY You can't write against a read only replica.";
     code := None; response := None |}.


Definition tickEnv (first : Recovery.AttemptEnv) : Recovery.TickEnv := {|
  Recovery.tickNow := 1700003600000;
  Recovery.selection := Normal (Some twoTargets);
  Recovery.answers := fun k =>
    match k with
    | O => first
    | S _ => RecoveryFacts.quietEnv 1700003601000 RecoveryFacts.saysHello
    end
|}.

(** The key-recovery monitor after [start], one timer tick during the
    first cycle, and [stop]. *)
Definition recoveryMidCycle : Recovery.Process := {|
  Recovery.world :=
    {| Recovery.intervalHandle := false; Recovery.isTickRunning := true;
       Recovery.registry := ∅; Recovery.calls := [] |};
  Recovery.inFlight := 1; Recovery.skipped := 1
|}.

(** The keepalive monitor after a first cycle that threw, a [stop] and a
    second [start] whose warm-up began the next cycle. *)
Definition keepaliveMidCycle : Heartbeat.Process := {|
  Heartbeat.world :=
    {| Heartbeat.interval := true; Heartbeat.isRunning := true;
       Heartbeat.intervalMs := 60000; Heartbeat.recentHeartbeats := ∅;
       Heartbeat.calls := [] |};
  Heartbeat.warmups := 0; Heartbeat.timers := 1;
  Heartbeat.inFlight := 1; Heartbeat.skipped := 1
|}.

(** ** Overlapping ticks *)

(** C1: the key-recovery monitor never has two cycles in flight, whatever
    [start], [stop], timer and completion events occur; the keepalive
    monitor never has two in flight as long as every [stop] falls between
    cycles.  For both, a [_tick] that finds the guard set returns at once
    and changes nothing (one more skipped tick, none started, none
    queued), a [_tick] that finds it clear returns normally with the guard
    clear whatever its cycle did, and the [finally] block of a cycle in
    flight clears the guard whether the cycle threw or not. *)
Theorem C1_single_flight_guard
    (svc : Recovery.Service) (registry : gmap string Recovery.DroidAccount)
    (recoveryEvents : list Recovery.Event) (recovery : Recovery.Process)
    (config : Heartbeat.ClaudeConfig)
    (keepaliveEvents : list Heartbeat.Event) (keepalive : Heartbeat.Process) :
  Recovery.run svc (Recovery.newProcess registry) recoveryEvents = Some recovery ->
  Heartbeat.run config Heartbeat.newProcess keepaliveEvents = Some keepalive ->
  Heartbeat.stopsBetweenCycles config Heartbeat.newProcess keepaliveEvents = true ->
  (Recovery.inFlight recovery <= 1)%nat
  /\ (Heartbeat.inFlight keepalive <= 1)%nat
  /\ (Recovery.isTickRunning (Recovery.world recovery) = true ->
      Recovery.tickEnters recovery
      = {| Recovery.world := Recovery.world recovery;
           Recovery.inFlight := Recovery.inFlight recovery;
           Recovery.skipped := S (Recovery.skipped recovery) |})
  /\ (Heartbeat.isRunning (Heartbeat.world keepalive) = true ->
      Heartbeat.tickEnters keepalive
      = {| Heartbeat.world := Heartbeat.world keepalive;
           Heartbeat.warmups := Heartbeat.warmups keepalive;
           Heartbeat.timers := Heartbeat.timers keepalive;
           Heartbeat.inFlight := Heartbeat.inFlight keepalive;
           Heartbeat.skipped := S (Heartbeat.skipped keepalive) |})
  /\ (forall threw p,
        Recovery.step svc recovery (Recovery.CycleSettles threw) = Some p ->
        Recovery.isTickRunning (Recovery.world p) = false
        /\ Recovery.inFlight p = 0%nat)
  /\ (forall threw p,
        Heartbeat.step config keepalive (Heartbeat.CycleSettles threw) = Some p ->
        Heartbeat.isRunning (Heartbeat.world p) = false
        /\ Heartbeat.inFlight p = 0%nat)
  /\ (forall env w,
        snd (Recovery._tick svc env w) = Normal tt
        /\ (Recovery.isTickRunning w = true -> Recovery._tick svc env w = (w, Normal tt))
        /\ (Recovery.isTickRunning w = false ->
            Recovery.isTickRunning (fst (Recovery._tick svc env w)) = false))
  /\ (forall JSON_parse env timestamp w,
        snd (Heartbeat._tick JSON_parse config env timestamp w) = Normal tt
        /\ (Heartbeat.isRunning w = true ->
            Heartbeat._tick JSON_parse config env timestamp w = (w, Normal tt))
        /\ (Heartbeat.isRunning w = false ->
            Heartbeat.isRunning (fst (Heartbeat._tick JSON_parse config env timestamp w))
            = false)).
Proof.
  intros Hrecovery Hkeepalive Hstops.
  assert (Hr : RecoveryFacts.guardCounts recovery).
  { apply (RecoveryFacts.recovery_run_keeps_count svc recoveryEvents
             (Recovery.newProcess registry)); [reflexivity|exact Hrecovery]. }
  assert (Hk : HeartbeatFacts.guardCounts keepalive).
  { apply (HeartbeatFacts.heartbeat_run_keeps_count config keepaliveEvents
             Heartbeat.newProcess); [reflexivity|exact Hstops|exact Hkeepalive]. }
  split; [apply RecoveryFacts.guardCounts_at_most_one; exact Hr|].
  split; [unfold HeartbeatFacts.guardCounts in Hk; rewrite Hk;
          destruct (Heartbeat.isRunning (Heartbeat.world keepalive)); lia|].
  split; [intros Hset; unfold Recovery.tickEnters; rewrite Hset; reflexivity|].
  split; [intros Hset; unfold Heartbeat.tickEnters; rewrite Hset; reflexivity|].
  split.
  { intros threw p Hstep. simpl in Hstep. unfold Recovery.tickLeaves in Hstep.
    unfold RecoveryFacts.guardCounts in Hr.
    destruct (Recovery.inFlight recovery) as [|n]; [discriminate|].
    injection Hstep as <-. simpl. split; [reflexivity|].
    destruct (Recovery.isTickRunning (Recovery.world recovery)); congruence. }
  split.
  { intros threw p Hstep. simpl in Hstep. unfold Heartbeat.tickLeaves in Hstep.
    unfold HeartbeatFacts.guardCounts in Hk.
    destruct (Heartbeat.inFlight keepalive) as [|n]; [discriminate|].
    injection Hstep as <-. simpl. split; [reflexivity|].
    destruct (Heartbeat.isRunning (Heartbeat.world keepalive)); congruence. }
  split.
  - intros env w. apply RecoveryFacts.recovery_tick_settles.
  - intros JSON_parse env timestamp w. apply HeartbeatFacts.heartbeat_tick_settles.
Qed.

Lemma C1_single_flight_guard_witness :
  (Recovery.inFlight recoveryMidCycle <= 1)%nat
  /\ (Heartbeat.inFlight keepaliveMidCycle <= 1)%nat.
Proof.
  destruct (C1_single_flight_guard RecoveryFacts.sampleService ∅
              [Recovery.Start; Recovery.IntervalFires; Recovery.Stop]
              recoveryMidCycle
              (HeartbeatFacts.sampleConfig "")
              [Heartbeat.Start; Heartbeat.WarmupFires; Heartbeat.IntervalFires;
               Heartbeat.CycleSettles true; Heartbeat.Stop; Heartbeat.Start;
               Heartbeat.WarmupFires]
              keepaliveMidCycle)
    as (Hr & Hk & _).
  - reflexivity.
  - reflexivity.
  - reflexivity.
  - split; [exact Hr|exact Hk].
Defined.

(** The keepalive monitor with a [stop] during a cycle: the warm-up of the
    next [start] finds the guard clear and a second cycle begins while the
    first is in flight. *)
Lemma C1_stop_during_a_cycle_lets_two_overlap :
  ~ (forall (config : Heartbeat.ClaudeConfig) (events : list Heartbeat.Event)
            (p : Heartbeat.Process),
        Heartbeat.run config Heartbeat.newProcess events = Some p ->
        (Heartbeat.inFlight p <= 1)%nat).
Proof.
  intros Hnever.
  pose proof (Hnever (HeartbeatFacts.sampleConfig "")
                [Heartbeat.Start; Heartbeat.WarmupFires; Heartbeat.Stop;
                 Heartbeat.Start; Heartbeat.WarmupFires]
                _ eq_refl) as Htwo.
  vm_compute in Htwo. lia.
Qed.

(** ** Errors inside a cycle *)







(** The first probe is refused and the registry rejects the write of the
    [catch] block: the cycle is the cycle of the first key alone, and the
    second key is never attempted. *)
Definition failureWriteRejected : Recovery.AttemptEnv := {|
  Recovery.now := 1700003600000;
  Recovery.sessionId := "00000000-0000-4000-8000-000000000000";
  Recovery.pendingWrite := Normal tt;
  Recovery.proxyAgent := Normal None;
  Recovery.probeAnswer := RecoveryFacts.connectionRefused;
  Recovery.resultWrite := Normal tt; Recovery.accountRead := Normal tt;
  Recovery.accountWrite := Normal tt; Recovery.failureWrite := Throw registryDown
|}.

Lemma rejected_failure_write_ends_the_cycle :
  let after :=
    fst (Recovery._tick RecoveryFacts.sampleService (tickEnv failureWriteRejected) twoKeys) in
  length (Recovery.calls after) = 4%nat
  /\ Forall (fun c =>
               match c with
               | Recovery.CallUpdateApiKeyRecoveryState _ entryId _ => entryId = "key-1"
               | Recovery.CallAxios req =>
                   lookupHeader "authorization" (Recovery.req_headers req)
                   = Some "Bearer fk-sample"
               | _ => True
               end) (Recovery.calls after)
  /\ Recovery.isTickRunning after = false.
Proof.
  cbv zeta. split; [reflexivity|]. split; [|reflexivity].
  vm_compute. repeat (apply List.Forall_cons; [reflexivity || exact I|]).
  apply List.Forall_nil.
Qed.

Definition secondAccount : Heartbeat.Account := {|
  Heartbeat.id := "claude-2"; Heartbeat.name := "second"; Heartbeat.platform := "claude";
  Heartbeat.accountType := "";
  Heartbeat.scopes := VStr "user:profile user:inference";
  Heartbeat.isActive := "true"; Heartbeat.schedulable := "true";
  Heartbeat.fiveHourAutoStopped := ""; Heartbeat.rateLimitAutoStopped := "";
  Heartbeat.rateLimitStatus := ""; Heartbeat.rateLimitedAt := "";
  Heartbeat.status := "active";
  Heartbeat.subscriptionInfo := VObj [("accountType", VStr "claude_max")];
  Heartbeat.claudeUsageUpdatedAt := IsoAbsent; Heartbeat.proxy := ""
|}.

(** Two accounts are due; the probe of the first is answered 429 and the
    registry rejects the marking. *)
Definition markingRejected : Heartbeat.CycleEnv := {|
  Heartbeat.allAccounts := Normal (Some [HeartbeatFacts.sampleAccount; secondAccount]);
  Heartbeat.evaluations := fun _ =>
    {| Heartbeat.snapshot := HeartbeatFacts.countdown 0;
       Heartbeat.refresh := HeartbeatFacts.quietRefresh (HeartbeatFacts.countdown 0) |};
  Heartbeat.sends := fun _ =>
    {| Heartbeat.token := Normal "token"; Heartbeat.agent := Normal None;
       Heartbeat.posted := HeartbeatFacts.answering 429 [];
       Heartbeat.afterSuccess := HeartbeatFacts.quietRefresh (HeartbeatFacts.countdown 0);
       Heartbeat.marked := Throw registryDown; Heartbeat.exitTime := 1700000001000 |}
|}.

Lemma rejected_marking_ends_the_scan :
  let run :=
    Heartbeat._runHeartbeatCycle HeartbeatFacts.rejectJson (HeartbeatFacts.sampleConfig "")
      markingRejected 1700000000000 Heartbeat.newWorld in
  snd run = Throw registryDown
  /\ Forall (fun c => ~ HeartbeatFacts.probes "claude-2" c) (Heartbeat.calls (fst run))
  /\ Heartbeat.recentHeartbeats (fst run) !! "claude-1" = Some 1700000001000.
Proof.
  cbv zeta. split; [reflexivity|]. split; [|reflexivity].
  vm_compute. repeat (apply List.Forall_cons; [intros H; try discriminate H; exact H|]).
  apply List.Forall_nil.
Qed.

End MonitorFacts.

(** * More on the recovery service: outcomes of an attempt, the cycle *)

Module RecoveryOutcomes.
Import Recovery RecoveryFacts.

(** ** The course of one attempt *)



(** ** Endpoints and the probe request *)

(** X1: whatever the endpoint type of a target, [_normalizeEndpointType]
    yields one of the two types the service has a path for; it yields
    [openai] exactly for [openai] and [common], in any letter case; and
    normalising twice changes nothing. *)
Theorem normalized_endpoint_is_one_of_two (endpointType : string) :
  let normalized := _normalizeEndpointType endpointType in
  (normalized = "anthropic" \/ normalized = "openai")
  /\ (normalized = "openai"
      <-> toLowerCase endpointType = "openai" \/ toLowerCase endpointType = "common")
  /\ _normalizeEndpointType normalized = normalized
  /\ endpoints normalized <> None.
Proof.
  cbv zeta. unfold _normalizeEndpointType.
  destruct (nonEmpty endpointType) eqn:Hne; cbn [negb]; cbv iota.
  - destruct (String.eqb_spec (toLowerCase endpointType) "openai") as [Ho|Ho]; cbn [orb].
    + split; [right; reflexivity|]. split; [tauto|]. split; [reflexivity|discriminate].
    + destruct (String.eqb_spec (toLowerCase endpointType) "common") as [Hc|Hc].
      * split; [right; reflexivity|]. split; [tauto|]. split; [reflexivity|discriminate].
      * split; [left; reflexivity|].
        split; [split; [discriminate|intros [H|H]; contradiction]|].
        split; [reflexivity|discriminate].
  - unfold nonEmpty in Hne. apply negb_false_iff, String.eqb_eq in Hne. subst endpointType.
    split; [left; reflexivity|].
    split; [split; [discriminate|intros [H|H]; discriminate]|].
    split; [reflexivity|discriminate].
Qed.

(** X2: the request [_sendProbeRequest] makes for a normalised endpoint
    type is one POST whose path, provider header and payload belong to the
    same protocol: the responses path with [azure_openai] and the OpenAI
    model and envelope, or the messages path with [anthropic], the version
    header and the Anthropic model and envelope.  It carries the key as a
    bearer token and the session id of the attempt. *)
Theorem probe_request_matches_endpoint
    (svc : Service) (env : AttemptEnv) (endpointType apiKey proxy : string) (w : World) :
  let normalized := _normalizeEndpointType endpointType in
  exists req,
    calls (fst (_sendProbeRequest svc env normalized apiKey proxy w))
    = calls w ++ [CallAxios req]
    /\ method req = "POST"
    /\ lookupHeader "authorization" (req_headers req) = Some ("Bearer " +:+ apiKey)
    /\ lookupHeader "x-session-id" (req_headers req) = Some (sessionId env)
    /\ if String.eqb normalized "openai"
       then url req = factoryApiBaseUrl svc +:+ "/o/v1/responses"
            /\ lookupHeader "x-api-provider" (req_headers req) = Some "azure_openai"
            /\ lookupHeader "anthropic-version" (req_headers req) = None
            /\ prop (req_data req) "model" = VStr (openaiModel svc)
            /\ prop (req_data req) "instructions" = VStr (probePrompt svc)
            /\ prop (req_data req) "max_output_tokens" = VNum 64
            /\ prop (req_data req) "messages" = VUndefined
       else url req = factoryApiBaseUrl svc +:+ "/a/v1/messages"
            /\ lookupHeader "x-api-provider" (req_headers req) = Some "anthropic"
            /\ lookupHeader "anthropic-version" (req_headers req) = Some "2023-06-01"
            /\ prop (req_data req) "model" = VStr (anthropicModel svc)
            /\ prop (req_data req) "system" = VArr [textBlock (probePrompt svc)]
            /\ prop (req_data req) "max_tokens" = VNum 64
            /\ prop (req_data req) "input" = VUndefined.
Proof.
  intros normalized.
  exists (requestOptionsFor svc env normalized apiKey proxy).
  split; [apply sendProbeRequest_calls|].
  assert (Htwo : normalized = "anthropic" \/ normalized = "openai").
  { subst normalized. unfold _normalizeEndpointType.
    destruct (negb (nonEmpty endpointType)); [left; reflexivity|].
    destruct (_ || _); [right|left]; reflexivity. }
  destruct Htwo as [-> | ->]; repeat split.
Qed.

(** The same answers, but no proxy agent is made. *)
Definition withoutProxyAgent (env : AttemptEnv) : AttemptEnv := {|
  now := now env; sessionId := sessionId env; pendingWrite := pendingWrite env;
  proxyAgent := Normal None; probeAnswer := probeAnswer env;
  resultWrite := resultWrite env; accountRead := accountRead env;
  accountWrite := accountWrite env; failureWrite := failureWrite env
|}.

(** X3: a proxy descriptor from which no agent can be made does not stop
    the attempt: it runs exactly as it would with no proxy agent, the
    request going out directly. *)
Theorem unusable_proxy_does_not_stop_the_probe
    (svc : Service) (env : AttemptEnv) (target : Target) (w : World) (e : Error) :
  proxyAgent env = Throw e ->
  _attemptRecovery svc env target w
  = _attemptRecovery svc (withoutProxyAgent env) target w
  /\ forall endpointType apiKey proxy,
       httpAgent (requestOptionsFor svc env endpointType apiKey proxy) = None.
Proof.
  intros Hproxy. split.
  - unfold _attemptRecovery, _sendProbeRequest, _reactivateAccountIfNeeded.
    assert (Hreq : forall a b c,
              requestOptionsFor svc env a b c
              = requestOptionsFor svc (withoutProxyAgent env) a b c).
    { intros a b c. unfold requestOptionsFor. rewrite Hproxy. simpl.
      destruct (nonEmpty c); reflexivity. }
    rewrite Hreq. reflexivity.
  - intros endpointType apiKey proxy. unfold requestOptionsFor. simpl.
    rewrite Hproxy. destruct (nonEmpty proxy); reflexivity.
Qed.

(** ** What an attempt leaves in the registry *)




(** X5: the attempt that recovers a key leaves its entry active with every
    error field cleared and the counter at 0, whatever reading or
    reactivating the parent account comes to. *)
Theorem recovered_key_is_cleared
    (svc : Service) (env : AttemptEnv) (target : Target) (w : World) (d : Z)
    (stored : ApiKeyEntry) :
  storedEntry w (accountId target) (id (entry target)) = Some stored ->
  proceeds svc env ->
  deadlineAt svc (now env) (entry target) d ->
  recovers env = true ->
  exists w',
    _attemptRecovery svc env target w = (w', Normal tt)
    /\ storedEntry w' (accountId target) (id (entry target))
       = Some {| id := id stored; key := key stored; status := "active";
                 errorMessage := ""; errorSince := IsoAbsent;
                 recoveryExpiresAt := IsoAbsent; nextRecoveryAt := IsoAbsent;
                 recoveryAttempts := Some 0;
                 lastRecoveryAttemptAt := IsoTime (now env);
                 lastRecoveryResult := RecoveredAt (IsoTime (now env)) |}.
Proof.
  intros Hstored (Hacc & Hnow & Hnext) (Hdl & Hd) Hrecovers.
  destruct (attempt_once svc env target w d Hacc Hnow Hnext Hdl Hd)
    as (w' & final & extra & Hrun & _ & _ & Hst & _ & Hfinal).
  rewrite Hrecovers in Hfinal. subst final.
  rewrite Hstored in Hst. simpl option_map in Hst.
  exists w'. split; [exact Hrun|]. rewrite Hst. reflexivity.
Qed.

(** X6: an attempt that does not recover the key keeps the start of the
    error episode: [errorSince] is written only when the entry had none,
    and then it is the time of the attempt; the attempt itself is dated,
    and the next one is due one probe interval later. *)
Theorem retry_keeps_the_start_of_the_episode
    (svc : Service) (env : AttemptEnv) (target : Target) (w : World) (d : Z) :
  storedEntry w (accountId target) (id (entry target)) = Some (entry target) ->
  proceeds svc env ->
  deadlineAt svc (now env) (entry target) d ->
  recovers env = false ->
  exists w' e',
    _attemptRecovery svc env target w = (w', Normal tt)
    /\ storedEntry w' (accountId target) (id (entry target)) = Some e'
    /\ errorSince e'
       = (if isoTruthy (errorSince (entry target)) then errorSince (entry target)
          else IsoTime (now env))
    /\ lastRecoveryAttemptAt e' = IsoTime (now env)
    /\ nextRecoveryAt e' = IsoTime (now env + probeIntervalMs svc)
    /\ key e' = key (entry target)
    /\ errorMessage e' = errorMessage (entry target).
Proof.
  intros Hstored (Hacc & Hnow & Hnext) (Hdl & Hd) Hfails.
  destruct (attempt_once svc env target w d Hacc Hnow Hnext Hdl Hd)
    as (w' & final & extra & Hrun & _ & _ & Hst & _ & Hfinal).
  rewrite Hfails in Hfinal. destruct Hfinal as (_ & ->).
  rewrite Hstored in Hst. simpl option_map in Hst.
  eexists w', _. split; [exact Hrun|]. split; [exact Hst|].
  simpl. split; [destruct (isoTruthy (errorSince (entry target))); reflexivity|].
  repeat split.
Qed.

(** ** Reactivating the parent account *)

(** The update [_reactivateAccountIfNeeded] sends. *)
Definition reactivation : AccountPatch :=
  {| ap_schedulable := Some (VBool true); ap_status := Some "active";
     ap_errorMessage := Some "" |}.

(** The account is read, exists, and is inactive or unschedulable. *)
Definition wantsReactivation (env : AttemptEnv) (accountId : string) (w : World) : bool :=
  match accountRead env, registry w !! accountId with
  | Normal _, Some account => needsReactivation account
  | _, _ => false
  end.

Lemma reactivate_calls (env : AttemptEnv) (accountId : string) (w : World) :
  calls (fst (_reactivateAccountIfNeeded env accountId w))
  = calls w ++ CallGetAccount accountId
      :: (if wantsReactivation env accountId w
          then [CallUpdateAccount accountId reactivation] else []).
Proof.
  unfold wantsReactivation, _reactivateAccountIfNeeded, getAccount, updateAccount,
    reactivation. run_m.
  destruct (accountRead env) as [[]|e]; simpl; [|reflexivity].
  destruct (registry w !! accountId) as [a|]; simpl; [|reflexivity].
  destruct (needsReactivation a); simpl; [|reflexivity].
  destruct (accountWrite env) as [[]|e]; simpl; rewrite <- app_assoc; reflexivity.
Qed.

(** X7: [_reactivateAccountIfNeeded] never throws, whatever the registry
    answers; it reads the account once and sends an update exactly when the
    account exists and is inactive or unschedulable; an account that is
    active and schedulable, or that the registry does not know, is left
    alone, and no key entry is touched. *)
Theorem reactivation_is_best_effort (env : AttemptEnv) (accountId : string) (w : World) :
  let run := _reactivateAccountIfNeeded env accountId w in
  snd run = Normal tt
  /\ calls (fst run)
     = calls w ++ CallGetAccount accountId
         :: (if wantsReactivation env accountId w
             then [CallUpdateAccount accountId reactivation] else [])
  /\ (wantsReactivation env accountId w = false -> registry (fst run) = registry w)
  /\ forall a k, storedEntry (fst run) a k = storedEntry w a k.
Proof.
  cbv zeta.
  destruct (reactivate_keeps env accountId w) as (w' & Hrun & _ & _ & Hkeys & _).
  split; [rewrite Hrun; reflexivity|].
  split; [apply reactivate_calls|].
  split; [|rewrite Hrun; exact Hkeys].
  unfold wantsReactivation, _reactivateAccountIfNeeded, getAccount, updateAccount.
  run_m.
  destruct (accountRead env) as [[]|e]; simpl; [|reflexivity].
  destruct (registry w !! accountId) as [a|]; simpl; [|reflexivity].
  destruct (needsReactivation a); simpl; [discriminate|reflexivity].
Qed.

(** ** The cycle *)

(** X8: a cycle that finds nothing due (the registry answers null or an
    empty list, or the selection fails) asks the registry once, with the
    batch cap, the recovery window and the current time, and does nothing
    else: no key is written, no request is sent, and the guard is clear
    again. *)
Theorem idle_cycle_only_asks_the_registry (svc : Service) (env : TickEnv) (w : World) :
  isTickRunning w = false ->
  match selection env with Normal (Some (_ :: _)) => False | _ => True end ->
  _tick svc env w
  = (record (CallGetRecoverableApiKeyEntries (maxConcurrentProbes svc)
               (recoveryWindowMs svc) (tickNow env)) w,
     Normal tt).
Proof.
  intros Hguard Hidle. rewrite recovery_tick_unfold, Hguard.
  unfold tickBody, getRecoverableApiKeyEntries. run_m.
  destruct w as [handle running reg cs]. simpl in Hguard. subst running.
  destruct (selection env) as [[[|t ts]|]|e]; simpl; try reflexivity.
  contradiction.
Qed.






(** ** Sample attempts *)

Definition proxyUnreadable : Error :=
  mkError "Unexpected token h in JSON at position 0".

(** The proxy descriptor of the target cannot be read. *)
Definition brokenProxy : AttemptEnv := {|
  now := 1700003600000; sessionId := "00000000-0000-4000-8000-000000000000";
  pendingWrite := Normal tt; proxyAgent := Throw proxyUnreadable;
  probeAnswer := saysHello; resultWrite := Normal tt; accountRead := Normal tt;
  accountWrite := Normal tt; failureWrite := Normal tt
|}.

Definition proxiedTarget : Target := {|
  accountId := "account-1"; accountName := "droid"; endpointType := "openai";
  proxy := "http://proxy.internal:3128"; entry := sampleEntry
|}.

Lemma unusable_proxy_does_not_stop_the_probe_witness :
  _attemptRecovery sampleService brokenProxy proxiedTarget sampleWorld
  = _attemptRecovery sampleService (withoutProxyAgent brokenProxy) proxiedTarget sampleWorld
  /\ forall endpointType apiKey proxy,
       httpAgent (requestOptionsFor sampleService brokenProxy endpointType apiKey proxy)
       = None.
Proof.
  exact (unusable_proxy_does_not_stop_the_probe sampleService brokenProxy proxiedTarget
           sampleWorld proxyUnreadable eq_refl).
Defined.

Lemma sample_attempt_goes_through (now : Z) (answer : AxiosAnswer) :
  Z.abs now <= maxTimeValue ->
  Z.abs (now + probeIntervalMs sampleService) <= maxTimeValue ->
  proceeds sampleService (quietEnv now answer)
  /\ deadlineAt sampleService now sampleEntry 1700086400000.
Proof.
  intros H1 H2. split; [apply quietEnv_proceeds; assumption|].
  split; [reflexivity|vm_compute; discriminate].
Qed.



Lemma recovered_key_is_cleared_witness :
  exists w',
    _attemptRecovery sampleService (quietEnv 1700003600000 saysHello)
      sampleTarget sampleWorld = (w', Normal tt)
    /\ storedEntry w' "account-1" "key-1"
       = Some {| id := "key-1"; key := "fk-sample"; status := "active";
                 errorMessage := ""; errorSince := IsoAbsent;
                 recoveryExpiresAt := IsoAbsent; nextRecoveryAt := IsoAbsent;
                 recoveryAttempts := Some 0;
                 lastRecoveryAttemptAt := IsoTime 1700003600000;
                 lastRecoveryResult := RecoveredAt (IsoTime 1700003600000) |}.
Proof.
  destruct (sample_attempt_goes_through 1700003600000 saysHello) as [Hgo Hdl];
    [vm_compute; discriminate|vm_compute; discriminate|].
  exact (recovered_key_is_cleared sampleService (quietEnv 1700003600000 saysHello)
           sampleTarget sampleWorld 1700086400000 sampleEntry eq_refl Hgo Hdl eq_refl).
Defined.

Lemma retry_keeps_the_start_of_the_episode_witness :
  exists w' e',
    _attemptRecovery sampleService (quietEnv 1700003600000 emptyAnswer)
      sampleTarget sampleWorld = (w', Normal tt)
    /\ storedEntry w' "account-1" "key-1" = Some e'
    /\ errorSince e' = IsoTime 1700000000000
    /\ lastRecoveryAttemptAt e' = IsoTime 1700003600000
    /\ nextRecoveryAt e' = IsoTime 1700003720000
    /\ key e' = "fk-sample"
    /\ errorMessage e' = "HTTP 402".
Proof.
  destruct (sample_attempt_goes_through 1700003600000 emptyAnswer) as [Hgo Hdl];
    [vm_compute; discriminate|vm_compute; discriminate|].
  exact (retry_keeps_the_start_of_the_episode sampleService
           (quietEnv 1700003600000 emptyAnswer) sampleTarget sampleWorld 1700086400000
           eq_refl Hgo Hdl eq_refl).
Defined.

(** The registry has nothing due. *)
Definition nothingDue : TickEnv := {|
  tickNow := 1700003600000;
  selection := Normal (Some []);
  answers := fun _ => quietEnv 1700003600000 saysHello
|}.

Lemma idle_cycle_only_asks_the_registry_witness :
  _tick sampleService nothingDue sampleWorld
  = (record (CallGetRecoverableApiKeyEntries 3 86400000 1700003600000) sampleWorld,
     Normal tt).
Proof.
  exact (idle_cycle_only_asks_the_registry sampleService nothingDue sampleWorld eq_refl I).
Defined.


End RecoveryOutcomes.

(** * More on the keepalive service: settings, eligibility, outcomes of a probe *)

Module KeepaliveOutcomes.
Import Heartbeat HeartbeatFacts.

(** ** Settings *)

(** X10: the cooldown window is never negative.  A setting that reads as
    no number or as 0 gives the default 10 minutes, a negative one gives no
    cooldown at all, and a positive one that many minutes. *)
Theorem cooldown_window_is_never_negative (heartbeatConfig : HeartbeatConfig) :
  0 <= cooldownMsOf heartbeatConfig
  /\ match parseInt10 (hb_cooldownMinutes heartbeatConfig) with
     | None | Some 0 => cooldownMsOf heartbeatConfig = 600000
     | Some minutes =>
         cooldownMsOf heartbeatConfig = (if minutes <? 0 then 0 else minutes * 60000)
     end.
Proof.
  unfold cooldownMsOf. cbv zeta.
  destruct (parseInt10 (hb_cooldownMinutes heartbeatConfig)) as [minutes|]; simpl.
  - destruct (Z.eqb_spec minutes 0) as [->|Hne].
    + split; [lia|reflexivity].
    + split; [lia|].
      destruct minutes as [|m|m]; [contradiction| |].
      * destruct (Z.ltb_spec (Z.pos m) 0); lia.
      * destruct (Z.ltb_spec (Z.neg m) 0); lia.
  - split; [lia|reflexivity].
Qed.

(** The scan interval [start] computes. *)
Definition scanInterval (config : ClaudeConfig) : Z :=
  Z.max (numOr (parseInt10 (hb_scanIntervalMs (heartbeat config))) 60000) 15000.

Definition intervalSettled (config : ClaudeConfig) (p : Process) : Prop :=
  15000 <= intervalMs (world p)
  /\ (interval (world p) = true ->
      hb_enabled (heartbeat config) = true /\ intervalMs (world p) = scanInterval config).

Lemma step_keeps_interval_settled config p e p' :
  intervalSettled config p -> step config p e = Some p' -> intervalSettled config p'.
Proof.
  intros [Hfloor Hset] Hstep. destruct e; simpl in Hstep.
  - injection Hstep as <-. unfold start. cbv zeta.
    destruct (hb_enabled (heartbeat config)) eqn:Hen; cbn [negb]; cbv iota.
    + split; simpl; [lia|]. intros _. split; [exact Hen|reflexivity].
    + split; [exact Hfloor|]. rewrite Hen. exact Hset.
  - injection Hstep as <-. unfold stop, intervalSettled. simpl.
    destruct (interval (world p)) eqn:Hheld; simpl; rewrite ?Hheld;
      (split; [exact Hfloor|discriminate]).
  - destruct (warmups p); [discriminate|]. injection Hstep as <-.
    unfold tickEnters. simpl. destruct (isRunning (world p)); split; assumption.
  - destruct (timers p); [discriminate|]. injection Hstep as <-.
    unfold tickEnters. destruct (isRunning (world p)); split; assumption.
  - unfold tickLeaves in Hstep. destruct (inFlight p); [discriminate|].
    injection Hstep as <-. split; assumption.
Qed.

(** X11: however the instance is started and stopped, its scan interval
    is at least 15 seconds; while an interval timer is held the service is
    enabled and the interval is the configured one, 60 seconds when the
    setting reads as no number or as 0, raised to 15 seconds when lower. *)
Theorem scan_interval_is_at_least_15_seconds
    (config : ClaudeConfig) (events : list Event) (p : Process) :
  run config newProcess events = Some p ->
  15000 <= intervalMs (world p)
  /\ (interval (world p) = true ->
      hb_enabled (heartbeat config) = true
      /\ intervalMs (world p)
         = Z.max (numOr (parseInt10 (hb_scanIntervalMs (heartbeat config))) 60000) 15000).
Proof.
  assert (Hinv : forall events p0 p1,
            intervalSettled config p0 -> run config p0 events = Some p1 ->
            intervalSettled config p1).
  { clear. induction events as [|e events IH]; intros p0 p1 H0 Hrun; simpl in Hrun.
    - injection Hrun as <-. exact H0.
    - destruct (step config p0 e) as [p'|] eqn:Hstep; [|discriminate].
      apply (IH p' p1); [|exact Hrun].
      apply (step_keeps_interval_settled config p0 e); assumption. }
  intros Hrun. apply (Hinv events newProcess p); [|exact Hrun].
  split; simpl; [lia|discriminate].
Qed.

(** ** The cooldown records *)

(** X12: the sweep that opens a scan removes exactly the cooldown records
    that hold no time or are more than 24 hours old; every other record is
    kept as it is, nothing else changes, and sweeping twice at the same
    time is sweeping once. *)
Theorem sweep_drops_exactly_the_old_records (nowMs : Z) (w : World) :
  let swept := fst (_cleanupRecentHeartbeats nowMs w) in
  (forall accountId t,
      recentHeartbeats swept !! accountId = Some t
      <-> recentHeartbeats w !! accountId = Some t
          /\ t <> 0 /\ nowMs - t <= 24 * 60 * 60 * 1000)
  /\ calls swept = calls w
  /\ isRunning swept = isRunning w
  /\ fst (_cleanupRecentHeartbeats nowMs swept) = swept.
Proof.
  cbv zeta. unfold _cleanupRecentHeartbeats, modify. simpl.
  assert (Hkeep : forall t t', keepRecent nowMs t = Some t'
                    <-> t' = t /\ t <> 0 /\ nowMs - t <= 24 * 60 * 60 * 1000).
  { intros t t'. unfold keepRecent, expirationMs.
    destruct (Z.eqb_spec t 0) as [->|Hne]; simpl.
    - split; [discriminate|intros (_ & H & _); contradiction].
    - destruct (Z.ltb_spec (24 * 60 * 60 * 1000) (nowMs - t)).
      + split; [discriminate|intros (_ & _ & H'); lia].
      + split; [intros H'; injection H' as <-; repeat split; [exact Hne|lia]
               |intros (-> & _); reflexivity]. }
  split; [|split; [reflexivity|split; [reflexivity|]]].
  - intros accountId t. rewrite lookup_omap.
    destruct (recentHeartbeats w !! accountId) as [t0|]; simpl.
    + rewrite Hkeep. split.
      * intros (-> & H1 & H2). repeat split; assumption.
      * intros (H0 & H1 & H2). injection H0 as ->. repeat split; assumption.
    + split; [discriminate|intros (H & _); discriminate].
  - unfold setRecent. simpl. f_equal. apply map_eq. intros accountId.
    rewrite !lookup_omap.
    destruct (recentHeartbeats w !! accountId) as [t0|]; simpl; [|reflexivity].
    destruct (keepRecent nowMs t0) as [t1|] eqn:Hk; simpl; [|reflexivity].
    apply Hkeep in Hk as (-> & H1 & H2). apply Hkeep. repeat split; assumption.
Qed.

(** ** Who is probed *)

Section Eligibility.

Variable JSON_parse : string -> completion jsval.
Variables (config : ClaudeConfig) (env : CycleEnv) (timestamp : Z).

(** The four predicates [_evaluateAccountForHeartbeat] tests first. *)
Definition eligible (account : Account) : bool :=
  _isClaudePlatform account && _isOAuthAccount account
  && _isAccountHealthy account && _isClaudeMaxAccount JSON_parse account.

Lemma evaluate_needs_eligible (ev : EvaluateEnv) (account : Account) (nowMs cooldownMs : Z)
    (w w' : World) (decision : Evaluation) :
  _evaluateAccountForHeartbeat JSON_parse ev account nowMs (heartbeat config) cooldownMs w
  = (w', Normal (Some decision)) ->
  eligible account = true.
Proof.
  unfold _evaluateAccountForHeartbeat, eligible. cbv zeta.
  destruct (_isClaudePlatform account); cbn [negb andb]; cbv iota; [|discriminate].
  destruct (_isOAuthAccount account); cbn [negb andb]; cbv iota; [|discriminate].
  destruct (_isAccountHealthy account); cbn [negb andb]; cbv iota; [|discriminate].
  destruct (_isClaudeMaxAccount JSON_parse account); cbn [negb]; cbv iota; [|discriminate].
  reflexivity.
Qed.

(** X13: a cycle never probes an account that fails one of the four
    tests: not a Claude account, without both OAuth scopes, unhealthy
    (inactive, unschedulable, stopped or rate-limited) or without a Claude
    Max subscription, a subscription text that does not parse included. *)
Theorem ineligible_account_is_never_probed (accountId : string) (w : World) :
  (forall accounts k a,
      allAccounts env = Normal (Some accounts) ->
      accounts !! k = Some a -> id a = accountId ->
      _isClaudePlatform a = false \/ _isOAuthAccount a = false
      \/ _isAccountHealthy a = false \/ _isClaudeMaxAccount JSON_parse a = false) ->
  exists new,
    calls (fst (_runHeartbeatCycle JSON_parse config env timestamp w)) = calls w ++ new
    /\ Forall (fun c => ~ probes accountId c) new.
Proof.
  intros Hfails.
  destruct (_runHeartbeatCycle JSON_parse config env timestamp w) as [w1 c] eqn:Hrun.
  simpl.
  apply (cycle_spares JSON_parse config env timestamp accountId (fun _ => True)
           (fun _ a => eligible a = false))
    with (w := w) (c := c); try (intros; exact I).
  - intros w0 k a w0' decision _ Hno _ Heval _.
    apply evaluate_needs_eligible in Heval. congruence.
  - intros accounts k a Hall Hk Hid. unfold eligible.
    destruct (Hfails accounts k a Hall Hk Hid) as [H|[H|[H|H]]]; rewrite H;
      rewrite ?andb_false_r; reflexivity.
  - exact Hrun.
Qed.

End Eligibility.

(** An account is unhealthy as soon as one of its stop marks is set. *)
Lemma marked_account_is_unhealthy (a : Account) :
  isActive a = "false" \/ schedulable a = "false" \/ fiveHourAutoStopped a = "true"
  \/ rateLimitAutoStopped a = "true" \/ rateLimitStatus a = "limited"
  \/ rateLimitedAt a <> "" ->
  _isAccountHealthy a = false.
Proof.
  intros Hmark. unfold _isAccountHealthy, nonEmpty.
  destruct (String.eqb_spec (isActive a) "false"); [reflexivity|].
  destruct (String.eqb_spec (schedulable a) "false"); [reflexivity|].
  destruct (String.eqb_spec (fiveHourAutoStopped a) "true"); [reflexivity|].
  destruct (String.eqb_spec (rateLimitAutoStopped a) "true"); [reflexivity|].
  destruct (String.eqb_spec (rateLimitStatus a) "limited"); [reflexivity|].
  destruct (String.eqb_spec (rateLimitedAt a) ""); [|reflexivity].
  exfalso. tauto.
Qed.

(** ** The usage refresh *)

(** The calls of one [_refreshUsageSnapshot]. *)
Definition refreshCalls (env : RefreshEnv) (accountId : string) : list Call :=
  CallFetchOAuthUsage accountId
  :: match fetched env with
     | Normal usageData =>
         if truthy usageData then [CallUpdateClaudeUsageSnapshot accountId usageData]
         else []
     | Throw _ => []
     end
  ++ [CallGetClaudeAccount accountId].

Lemma refresh_runs (env : RefreshEnv) (accountId : string) (w : World) :
  _refreshUsageSnapshot env accountId w
  = ({| interval := interval w; isRunning := isRunning w; intervalMs := intervalMs w;
        recentHeartbeats := recentHeartbeats w;
        calls := calls w ++ refreshCalls env accountId |},
     match latest env with
     | Normal (Some a) => Normal (Some (withId accountId a, latestSnapshot env))
     | Normal None => Normal None
     | Throw e => Throw e
     end).
Proof.
  unfold _refreshUsageSnapshot, refreshCalls. run_m.
  destruct (fetched env) as [usage|e1]; simpl;
    [destruct (truthy usage); simpl; [destruct (usageWrite env) as [[]|e2]; simpl|]|];
    destruct (latest env) as [[a|]|e3]; unfold record; simpl;
    rewrite <- ?app_assoc; reflexivity.
Qed.

(** X14: a usage refresh survives the failure of fetching or storing the
    usage: it always goes on to read the account back, and its result is
    decided by that read alone, the account read carrying the id asked
    for; the usage is stored only when the fetch returned some. *)
Theorem refresh_survives_a_failed_fetch (env : RefreshEnv) (accountId : string) (w : World) :
  let run := _refreshUsageSnapshot env accountId w in
  calls (fst run)
  = calls w
    ++ CallFetchOAuthUsage accountId
       :: match fetched env with
          | Normal usageData =>
              if truthy usageData then [CallUpdateClaudeUsageSnapshot accountId usageData]
              else []
          | Throw _ => []
          end
       ++ [CallGetClaudeAccount accountId]
  /\ snd run
     = match latest env with
       | Normal (Some a) => Normal (Some (withId accountId a, latestSnapshot env))
       | Normal None => Normal None
       | Throw e => Throw e
       end
  /\ recentHeartbeats (fst run) = recentHeartbeats w
  /\ isRunning (fst run) = isRunning w.
Proof.
  cbv zeta. rewrite refresh_runs. repeat split.
Qed.

(** X15: an evaluation makes no call at all when the scanned account
    already shows a countdown or its usage is not stale; it then decides on
    the scanned account alone. *)
Theorem fresh_usage_is_not_fetched_again
    (JSON_parse : string -> completion jsval) (ev : EvaluateEnv) (account : Account)
    (nowMs cooldownMs : Z) (heartbeatConfig : HeartbeatConfig) (w : World) :
  hasCountdown (snapshot ev) = true \/ usageIsStale heartbeatConfig account nowMs = false ->
  _evaluateAccountForHeartbeat JSON_parse ev account nowMs heartbeatConfig cooldownMs w
  = (w,
     Normal
       (if eligible JSON_parse account
           && negb (inCooldown (recentHeartbeats w !! id account) nowMs cooldownMs)
           && negb (hasCountdown (snapshot ev))
        then Some {| shouldHeartbeat := true; Heartbeat.account := account |}
        else None)).
Proof.
  intros Hquiet.
  unfold _evaluateAccountForHeartbeat, eligible. cbv zeta.
  destruct (_isClaudePlatform account); cbn [negb andb]; cbv iota; [|reflexivity].
  destruct (_isOAuthAccount account); cbn [negb andb]; cbv iota; [|reflexivity].
  destruct (_isAccountHealthy account); cbn [negb andb]; cbv iota; [|reflexivity].
  destruct (_isClaudeMaxAccount JSON_parse account); cbn [negb andb]; cbv iota;
    [|reflexivity].
  unfold bind at 1, gets at 1. cbv beta.
  destruct (inCooldown _ _ _); cbn [negb andb]; cbv iota; [reflexivity|].
  assert (Hno : negb (hasCountdown (snapshot ev))
                && usageIsStale heartbeatConfig account nowMs = false).
  { destruct Hquiet as [-> | ->]; [reflexivity|apply andb_false_r]. }
  rewrite Hno. cbv iota. unfold bind at 1, ret at 1. cbv iota beta.
  destruct (hasCountdown (snapshot ev)); reflexivity.
Qed.

(** The stored usage is not stale when it was updated within the
    freshness window, and never when the window is set negative. *)
Lemma usage_within_window_is_fresh heartbeatConfig account nowMs ms :
  claudeUsageUpdatedAt account = IsoTime ms ->
  ms <> 0 -> Z.abs ms <= maxTimeValue ->
  nowMs - ms <= usageFreshnessMs heartbeatConfig ->
  usageIsStale heartbeatConfig account nowMs = false.
Proof.
  intros Hat Hne Hrange Hwithin. unfold usageIsStale. rewrite Hat. simpl.
  destruct (Z.leb_spec (Z.abs ms) maxTimeValue); [|lia].
  destruct (Z.eqb_spec ms 0); [contradiction|].
  destruct (Z.ltb_spec (usageFreshnessMs heartbeatConfig) (nowMs - ms)); [lia|].
  apply andb_false_r.
Qed.

(** ** The outcomes of a probe *)

(** The world after a probe that made the calls [made]: the calls are on
    record and the cooldown record of the account holds the exit time. *)
Definition afterProbe (env : SendEnv) (account : Account) (made : list Call) (w : World)
  : World :=
  {| interval := interval w; isRunning := isRunning w; intervalMs := intervalMs w;
     recentHeartbeats := <[id account := exitTime env]> (recentHeartbeats w);
     calls := calls w ++ made |}.

(** X16: with a token but no endpoint configured ([heartbeat.endpoint] and
    [apiUrl] both empty), the probe of that account fails alone: nothing is
    posted, no remediation is called, the call returns normally and the
    cooldown record is set. *)
Theorem missing_endpoint_fails_that_probe_only
    (config : ClaudeConfig) (env : SendEnv) (account : Account) (options : Options)
    (w : World) (tok : string) (proxyAgent : option string) :
  token env = Normal tok -> nonEmpty tok = true ->
  agent env = Normal proxyAgent ->
  hb_endpoint (heartbeat config) = "" -> apiUrl config = "" ->
  _sendHeartbeatForAccount config env account options w
  = (afterProbe env account [CallGetValidAccessToken (id account)] w, Normal tt).
Proof.
  intros Htoken Htok Hagent Hendpoint Hurl.
  unfold _sendHeartbeatForAccount, tryFinally, tryCatch, heartbeatBody.
  unfold bind at 1, call at 1. unfold bind at 1, modify at 1, lift at 1.
  rewrite Htoken, Htok. cbn [negb]. cbv iota beta.
  unfold bind at 1, lift at 1. rewrite Hagent. cbv zeta iota beta.
  rewrite Hendpoint, Hurl. reflexivity.
Qed.

(** A rejection whose status is neither 429 nor 529: an answer outside
    200-299 with another status, or no answer at all. *)
Definition plainFailure (answer : AxiosAnswer) : Prop :=
  match answer with
  | Answered r =>
      (resp_status r < 200 \/ 300 <= resp_status r)
      /\ resp_status r <> 429 /\ resp_status r <> 529
  | TransportFailure e =>
      match response e with
      | Some r => resp_status r <> 429 /\ resp_status r <> 529
      | None => True
      end
  end.

(** X17: a probe that fails with any status but 429 and 529, or without
    an answer, calls no remediation: the token request and the post are
    its only calls, it returns normally, and the cooldown record is set. *)
Theorem plain_failure_calls_no_remediation
    (config : ClaudeConfig) (env : SendEnv) (account : Account) (options : Options)
    (w : World) (tok : string) (proxyAgent : option string) :
  token env = Normal tok -> nonEmpty tok = true ->
  agent env = Normal proxyAgent ->
  nonEmpty (strOr (hb_endpoint (heartbeat config)) (apiUrl config)) = true ->
  plainFailure (posted env) ->
  _sendHeartbeatForAccount config env account options w
  = (afterProbe env account
       [CallGetValidAccessToken (id account);
        CallPost (postRequestFor config account options
                    (strOr (hb_endpoint (heartbeat config)) (apiUrl config))
                    tok proxyAgent)] w,
     Normal tt).
Proof.
  intros Htoken Htok Hagent Hurl Hplain.
  unfold _sendHeartbeatForAccount, tryFinally, tryCatch, heartbeatBody.
  unfold bind at 1, call at 1. unfold bind at 1, modify at 1, lift at 1.
  rewrite Htoken, Htok. cbn [negb]. cbv iota beta.
  unfold bind at 1, lift at 1. rewrite Hagent. cbv zeta iota beta.
  rewrite Hurl. cbn [negb]. cbv iota beta.
  unfold bind at 1, call at 1. unfold bind at 1, modify at 1, lift at 1.
  unfold plainFailure in Hplain.
  destruct (posted env) as [r|e]; unfold axios, defaultValidateStatus.
  - destruct Hplain as (Hout & H429 & H529).
    assert (Hreject : (200 <=? resp_status r) && (resp_status r <? 300) = false).
    { destruct (Z.leb_spec 200 (resp_status r)); [|reflexivity].
      destruct (Z.ltb_spec (resp_status r) 300); [lia|reflexivity]. }
    rewrite Hreject. cbv iota beta.
    unfold heartbeatFailed. cbv zeta. cbn [response option_map].
    destruct (Z.eqb_spec (resp_status r) 429); [contradiction|].
    destruct (Z.eqb_spec (resp_status r) 529); [contradiction|].
    unfold ret, modify, record, afterProbe. simpl. rewrite <- app_assoc. reflexivity.
  - cbv iota beta. unfold heartbeatFailed. cbv zeta.
    destruct (response e) as [r|]; cbn [option_map].
    + destruct Hplain as (H429 & H529).
      destruct (Z.eqb_spec (resp_status r) 429); [contradiction|].
      destruct (Z.eqb_spec (resp_status r) 529); [contradiction|].
      unfold ret, modify, record, afterProbe. simpl. rewrite <- app_assoc. reflexivity.
    + unfold ret, modify, record, afterProbe. simpl. rewrite <- app_assoc. reflexivity.
Qed.

(** X18: a probe answered with a status in 200-299 is followed at once by
    one usage refresh of the account; whatever that refresh comes to, the
    failure of its account read included (an error that carries no HTTP
    response), nothing is marked, the call returns normally and the
    cooldown record is set. *)
Theorem successful_probe_refreshes_the_usage
    (config : ClaudeConfig) (env : SendEnv) (account : Account) (options : Options)
    (w : World) (tok : string) (proxyAgent : option string) (r : Response) :
  token env = Normal tok -> nonEmpty tok = true ->
  agent env = Normal proxyAgent ->
  nonEmpty (strOr (hb_endpoint (heartbeat config)) (apiUrl config)) = true ->
  posted env = Answered r ->
  200 <= resp_status r < 300 ->
  match latest (afterSuccess env) with
  | Throw e => response e = None
  | Normal _ => True
  end ->
  _sendHeartbeatForAccount config env account options w
  = (afterProbe env account
       ([CallGetValidAccessToken (id account);
         CallPost (postRequestFor config account options
                     (strOr (hb_endpoint (heartbeat config)) (apiUrl config))
                     tok proxyAgent)]
        ++ refreshCalls (afterSuccess env) (id account)) w,
     Normal tt).
Proof.
  intros Htoken Htok Hagent Hurl Hposted [Hlow Hhigh] Hread.
  unfold _sendHeartbeatForAccount, tryFinally, tryCatch, heartbeatBody.
  unfold bind at 1, call at 1. unfold bind at 1, modify at 1, lift at 1.
  rewrite Htoken, Htok. cbn [negb]. cbv iota beta.
  unfold bind at 1, lift at 1. rewrite Hagent. cbv zeta iota beta.
  rewrite Hurl. cbn [negb]. cbv iota beta.
  unfold bind at 1, call at 1. unfold bind at 1, modify at 1, lift at 1.
  rewrite Hposted. unfold axios, defaultValidateStatus.
  assert (Haccept : (200 <=? resp_status r) && (resp_status r <? 300) = true).
  { destruct (Z.leb_spec 200 (resp_status r)); [|lia].
    destruct (Z.ltb_spec (resp_status r) 300); [reflexivity|lia]. }
  rewrite Haccept. cbv iota beta.
  unfold bind at 1. rewrite refresh_runs.
  destruct (latest (afterSuccess env)) as [[a|]|e]; cbv iota beta;
    unfold ret, modify, record, afterProbe, heartbeatFailed; simpl;
    rewrite ?Hread; simpl; rewrite <- ?app_assoc; reflexivity.
Qed.

(** ** Sample cycles *)

Lemma scan_interval_is_at_least_15_seconds_witness :
  exists p,
    run (sampleConfig "") newProcess [Start; WarmupFires; Stop] = Some p
    /\ 15000 <= intervalMs (world p)
    /\ (interval (world p) = true ->
        hb_enabled (heartbeat (sampleConfig "")) = true
        /\ intervalMs (world p) = 60000).
Proof.
  eexists. split; [reflexivity|].
  exact (scan_interval_is_at_least_15_seconds (sampleConfig "")
           [Start; WarmupFires; Stop] _ eq_refl).
Defined.

(** The sample account once it has been marked rate-limited. *)
Definition limitedAccount : Account := {|
  id := "claude-1"; name := "primary"; platform := "claude"; accountType := "";
  scopes := VStr "user:profile user:inference";
  isActive := "true"; schedulable := "true"; fiveHourAutoStopped := "";
  rateLimitAutoStopped := ""; rateLimitStatus := "limited";
  rateLimitedAt := "2023-11-14T22:13:20.000Z";
  status := "active";
  subscriptionInfo := VObj [("accountType", VStr "claude_max")];
  claudeUsageUpdatedAt := IsoAbsent; proxy := ""
|}.

Definition limitedCycle : CycleEnv := {|
  allAccounts := Normal (Some [limitedAccount]);
  evaluations := fun _ => {| snapshot := countdown 0; refresh := quietRefresh (countdown 0) |};
  sends := fun _ => sendEnv "token" (answering 200 []) 1700000301000
|}.

Lemma ineligible_account_is_never_probed_witness :
  exists new,
    calls (fst (_runHeartbeatCycle rejectJson (sampleConfig "") limitedCycle
                  1700000300000 newWorld))
    = calls newWorld ++ new
    /\ Forall (fun c => ~ probes "claude-1" c) new.
Proof.
  apply (ineligible_account_is_never_probed rejectJson (sampleConfig "") limitedCycle
           1700000300000 "claude-1" newWorld).
  intros accounts k a Hall Hk Hid.
  injection Hall as <-.
  destruct k as [|k]; [|discriminate Hk]. injection Hk as <-.
  right. right. left. reflexivity.
Defined.

Lemma fresh_usage_is_not_fetched_again_witness :
  _evaluateAccountForHeartbeat rejectJson
    {| snapshot := countdown 120; refresh := quietRefresh (countdown 0) |}
    sampleAccount 1700000300000 (sampleHeartbeat "") 600000 newWorld
  = (newWorld, Normal None).
Proof.
  exact (fresh_usage_is_not_fetched_again rejectJson
           {| snapshot := countdown 120; refresh := quietRefresh (countdown 0) |}
           sampleAccount 1700000300000 600000 (sampleHeartbeat "") newWorld
           (or_introl eq_refl)).
Defined.

(** A configuration that names no endpoint. *)
Definition noEndpoint : ClaudeConfig := {|
  heartbeat := sampleHeartbeat ""; defaultModel := ""; fallbackModel := "";
  apiUrl := ""; apiVersion := ""; betaHeader := ""
|}.

Lemma missing_endpoint_fails_that_probe_only_witness :
  _sendHeartbeatForAccount noEndpoint (sendEnv "token" (answering 200 []) 1700000000000)
    sampleAccount (optionsOf noEndpoint) newWorld
  = (afterProbe (sendEnv "token" (answering 200 []) 1700000000000) sampleAccount
       [CallGetValidAccessToken "claude-1"] newWorld,
     Normal tt).
Proof.
  exact (missing_endpoint_fails_that_probe_only noEndpoint
           (sendEnv "token" (answering 200 []) 1700000000000) sampleAccount
           (optionsOf noEndpoint) newWorld "token" None
           eq_refl eq_refl eq_refl eq_refl eq_refl).
Defined.

Lemma plain_failure_calls_no_remediation_witness :
  _sendHeartbeatForAccount (sampleConfig "")
    (sendEnv "token" (answering 401 []) 1700000000000)
    sampleAccount (optionsOf (sampleConfig "")) newWorld
  = (afterProbe (sendEnv "token" (answering 401 []) 1700000000000) sampleAccount
       [CallGetValidAccessToken "claude-1";
        CallPost (postRequestFor (sampleConfig "") sampleAccount
                    (optionsOf (sampleConfig ""))
                    "https://api.anthropic.com/v1/messages" "token" None)] newWorld,
     Normal tt).
Proof.
  apply (plain_failure_calls_no_remediation (sampleConfig "")
           (sendEnv "token" (answering 401 []) 1700000000000) sampleAccount
           (optionsOf (sampleConfig "")) newWorld "token" None
           eq_refl eq_refl eq_refl eq_refl).
  simpl. split; [right; lia|split; discriminate].
Defined.

Lemma successful_probe_refreshes_the_usage_witness :
  _sendHeartbeatForAccount (sampleConfig "")
    (sendEnv "token" (answering 200 []) 1700000000000)
    sampleAccount (optionsOf (sampleConfig "")) newWorld
  = (afterProbe (sendEnv "token" (answering 200 []) 1700000000000) sampleAccount
       [CallGetValidAccessToken "claude-1";
        CallPost (postRequestFor (sampleConfig "") sampleAccount
                    (optionsOf (sampleConfig ""))
                    "https://api.anthropic.com/v1/messages" "token" None);
        CallFetchOAuthUsage "claude-1";
        CallGetClaudeAccount "claude-1"] newWorld,
     Normal tt).
Proof.
  apply (successful_probe_refreshes_the_usage (sampleConfig "")
           (sendEnv "token" (answering 200 []) 1700000000000) sampleAccount
           (optionsOf (sampleConfig "")) newWorld "token" None
           {| resp_status := 200; resp_headers := []; resp_data := VNull |}
           eq_refl eq_refl eq_refl eq_refl eq_refl).
  - simpl. lia.
  - exact I.
Defined.

End KeepaliveOutcomes.

(** * Starting and stopping the monitors *)

Module Lifecycle.

(** ** Starting and stopping *)

(** X19: a monitor that is disabled in the configuration never ticks:
    whatever sequence of [start] and [stop] calls it gets, no timer is ever
    set, no cycle is ever entered and the instance stays as constructed. *)
Theorem disabled_monitors_never_tick
    (svc : Recovery.Service) (registry : gmap string Recovery.DroidAccount)
    (config : Heartbeat.ClaudeConfig)
    (recoveryEvents : list Recovery.Event) (keepaliveEvents : list Heartbeat.Event)
    (recovery : Recovery.Process) (keepalive : Heartbeat.Process) :
  Recovery.enabled svc = false ->
  Heartbeat.hb_enabled (Heartbeat.heartbeat config) = false ->
  Recovery.run svc (Recovery.newProcess registry) recoveryEvents = Some recovery ->
  Heartbeat.run config Heartbeat.newProcess keepaliveEvents = Some keepalive ->
  recovery = Recovery.newProcess registry
  /\ keepalive = Heartbeat.newProcess
  /\ Forall (fun e => e = Recovery.Start \/ e = Recovery.Stop) recoveryEvents
  /\ Forall (fun e => e = Heartbeat.Start \/ e = Heartbeat.Stop) keepaliveEvents.
Proof.
  intros Hoff Hoff' Hrun Hrun'.
  assert (Hrec : recovery = Recovery.newProcess registry
                 /\ Forall (fun e => e = Recovery.Start \/ e = Recovery.Stop) recoveryEvents).
  { clear Hrun' Hoff'. revert Hrun.
    induction recoveryEvents as [|e events IH]; simpl; intros Hrun.
    - injection Hrun as <-. split; [reflexivity|apply List.Forall_nil].
    - destruct e; simpl in Hrun; try discriminate.
      + unfold Recovery.start in Hrun. rewrite Hoff in Hrun. simpl in Hrun.
        destruct (IH Hrun) as [H1 H2]. split; [exact H1|].
        apply List.Forall_cons; [left; reflexivity|exact H2].
      + destruct (IH Hrun) as [H1 H2]. split; [exact H1|].
        apply List.Forall_cons; [right; reflexivity|exact H2]. }
  assert (Hkeep : keepalive = Heartbeat.newProcess
                  /\ Forall (fun e => e = Heartbeat.Start \/ e = Heartbeat.Stop)
                       keepaliveEvents).
  { clear Hrun Hoff Hrec. revert Hrun'.
    induction keepaliveEvents as [|e events IH]; simpl; intros Hrun.
    - injection Hrun as <-. split; [reflexivity|apply List.Forall_nil].
    - destruct e; simpl in Hrun; try discriminate.
      + unfold Heartbeat.start in Hrun. rewrite Hoff' in Hrun. simpl in Hrun.
        destruct (IH Hrun) as [H1 H2]. split; [exact H1|].
        apply List.Forall_cons; [left; reflexivity|exact H2].
      + destruct (IH Hrun) as [H1 H2]. split; [exact H1|].
        apply List.Forall_cons; [right; reflexivity|exact H2]. }
  destruct Hrec as [H1 H2]. destruct Hkeep as [H3 H4]. repeat split; assumption.
Qed.

(** X20: the two services differ on a second [start].  The recovery
    service ignores it: starting twice is starting once.  The keepalive
    service has no such test: every [start] sets a warm-up timeout and an
    interval timer, and [stop] clears only the timer set last, so that
    after two starts and a stop one interval timer still fires although the
    instance holds none. *)
Theorem second_start_is_ignored_by_recovery_only
    (svc : Recovery.Service) (r : Recovery.Process)
    (config : Heartbeat.ClaudeConfig) (k : Heartbeat.Process) :
  Heartbeat.hb_enabled (Heartbeat.heartbeat config) = true ->
  Recovery.start svc (Recovery.start svc r) = Recovery.start svc r
  /\ let twice := Heartbeat.start config (Heartbeat.start config k) in
     Heartbeat.timers twice = S (S (Heartbeat.timers k))
     /\ Heartbeat.warmups twice = S (S (Heartbeat.warmups k))
     /\ Heartbeat.timers (Heartbeat.stop twice) = S (Heartbeat.timers k)
     /\ Heartbeat.interval (Heartbeat.world (Heartbeat.stop twice)) = false
     /\ Heartbeat.step config (Heartbeat.stop twice) Heartbeat.IntervalFires
        = Some (Heartbeat.tickEnters (Heartbeat.stop twice)).
Proof.
  intros Hon. split.
  - unfold Recovery.start.
    destruct (Recovery.enabled svc); cbn [negb]; cbv iota; [|reflexivity].
    destruct (Recovery.intervalHandle (Recovery.world r)) eqn:Hheld.
    + rewrite Hheld. reflexivity.
    + unfold Recovery.tickEnters. simpl.
      destruct (Recovery.isTickRunning (Recovery.world r)); reflexivity.
  - cbv zeta. unfold Heartbeat.start. rewrite Hon. simpl. repeat split.
Qed.

(** ** Sample configurations *)

Definition recoveryOff : Recovery.Service :=
  Recovery.constructor
    {| Recovery.cfg_enabled := Some false; Recovery.cfg_scanIntervalMs := None;
       Recovery.cfg_probeIntervalMs := None; Recovery.cfg_recoveryWindowMs := None;
       Recovery.cfg_maxConcurrentProbes := None; Recovery.cfg_probePrompt := "";
       Recovery.cfg_anthropicModel := ""; Recovery.cfg_openaiModel := "";
       Recovery.cfg_requestTimeout := None |}.

Definition keepaliveOff : Heartbeat.ClaudeConfig := {|
  Heartbeat.heartbeat :=
    {| Heartbeat.hb_enabled := false; Heartbeat.hb_scanIntervalMs := "";
       Heartbeat.hb_model := ""; Heartbeat.hb_maxTokens := None;
       Heartbeat.hb_prompt := ""; Heartbeat.hb_includeSystemPrompt := None;
       Heartbeat.hb_systemPrompt := ""; Heartbeat.hb_cooldownMinutes := "";
       Heartbeat.hb_usageRefreshMaxAgeMs := ""; Heartbeat.hb_endpoint := "";
       Heartbeat.hb_userAgent := ""; Heartbeat.hb_timeoutMs := None |};
  Heartbeat.defaultModel := ""; Heartbeat.fallbackModel := "";
  Heartbeat.apiUrl := "https://api.anthropic.com/v1/messages";
  Heartbeat.apiVersion := ""; Heartbeat.betaHeader := ""
|}.

Lemma disabled_monitors_never_tick_witness :
  Recovery.run recoveryOff (Recovery.newProcess ∅) [Recovery.Start; Recovery.Stop]
  = Some (Recovery.newProcess ∅)
  /\ Heartbeat.run keepaliveOff Heartbeat.newProcess [Heartbeat.Start; Heartbeat.Stop]
     = Some Heartbeat.newProcess.
Proof.
  destruct (disabled_monitors_never_tick recoveryOff ∅ keepaliveOff
              [Recovery.Start; Recovery.Stop] [Heartbeat.Start; Heartbeat.Stop]
              (Recovery.newProcess ∅) Heartbeat.newProcess
              eq_refl eq_refl eq_refl eq_refl) as (Hrecovery & Hkeepalive & _).
  split; reflexivity.
Defined.

Lemma second_start_is_ignored_by_recovery_only_witness :
  Recovery.start RecoveryFacts.sampleService
    (Recovery.start RecoveryFacts.sampleService (Recovery.newProcess ∅))
  = Recovery.start RecoveryFacts.sampleService (Recovery.newProcess ∅)
  /\ Heartbeat.timers
       (Heartbeat.stop
          (Heartbeat.start (HeartbeatFacts.sampleConfig "")
             (Heartbeat.start (HeartbeatFacts.sampleConfig "") Heartbeat.newProcess)))
     = 1%nat.
Proof.
  destruct (second_start_is_ignored_by_recovery_only RecoveryFacts.sampleService
              (Recovery.newProcess ∅) (HeartbeatFacts.sampleConfig "")
              Heartbeat.newProcess eq_refl) as (Honce & _ & _ & Hleft & _).
  split; [exact Honce|exact Hleft].
Defined.

End Lifecycle.

(** * Properties of the headers service *)

Module HeadersFacts.
Import Headers.

(** ** Versions *)

Lemma lessThan_asymmetric (a b : number) : lessThan a b = true -> lessThan b a = false.
Proof.
  destruct a as [|x| |], b as [|y| |]; simpl; try reflexivity; try discriminate.
  intros Hlt. apply bool_decide_eq_true in Hlt. apply bool_decide_eq_false.
  intros Hgt. exact (Qcanon.Qclt_not_le _ _ Hlt (Qcanon.Qclt_le_weak _ _ Hgt)).
Qed.

Lemma lessThan_irreflexive (a : number) : lessThan a a = false.
Proof.
  destruct (lessThan a a) eqn:H; [|reflexivity].
  rewrite (lessThan_asymmetric a a H) in H. discriminate.
Qed.

Lemma compareFrom_swapped (n : nat) :
  forall i parts1 parts2,
    compareFrom n i parts2 parts1 = - compareFrom n i parts1 parts2.
Proof.
  induction n as [|n IH]; intros i parts1 parts2; simpl; [reflexivity|].
  destruct (lessThan (orZero (parts1 !! i)) (orZero (parts2 !! i))) eqn:H12.
  - rewrite (lessThan_asymmetric _ _ H12). reflexivity.
  - destruct (lessThan (orZero (parts2 !! i)) (orZero (parts1 !! i))); [reflexivity|].
    apply IH.
Qed.

Lemma compareFrom_same (n : nat) : forall i parts, compareFrom n i parts parts = 0.
Proof.
  induction n as [|n IH]; intros i parts; simpl; [reflexivity|].
  rewrite lessThan_irreflexive. apply IH.
Qed.

Lemma compareFrom_sign (n : nat) :
  forall i parts1 parts2,
    compareFrom n i parts1 parts2 = -1 \/ compareFrom n i parts1 parts2 = 0
    \/ compareFrom n i parts1 parts2 = 1.
Proof.
  induction n as [|n IH]; intros i parts1 parts2; simpl; [right; left; reflexivity|].
  destruct (lessThan _ _); [right; right; reflexivity|].
  destruct (lessThan _ _); [left; reflexivity|apply IH].
Qed.

(** X21: [compareVersions] is a comparison: swapping the versions negates
    the result, a version equals itself, the result is -1, 0 or 1, and a
    missing or empty version compares equal to anything.  This holds
    whatever [Number] makes of the parts. *)
Theorem compareVersions_is_antisymmetric
    (Number : string -> number) (v1 v2 : option string) :
  compareVersions Number v2 v1 = - compareVersions Number v1 v2
  /\ compareVersions Number v1 v1 = 0
  /\ (compareVersions Number v1 v2 = -1 \/ compareVersions Number v1 v2 = 0
      \/ compareVersions Number v1 v2 = 1)
  /\ compareVersions Number None v2 = 0
  /\ compareVersions Number v1 None = 0
  /\ compareVersions Number (Some "") v2 = 0
  /\ compareVersions Number v1 (Some "") = 0.
Proof.
  split; [|split; [|split; [|split; [|split; [|split]]]]].
  - destruct v1 as [s1|], v2 as [s2|]; simpl; try reflexivity.
    destruct (nonEmpty s1), (nonEmpty s2); simpl; try reflexivity.
    rewrite Nat.max_comm. apply compareFrom_swapped.
  - destruct v1 as [s1|]; simpl; [|reflexivity].
    destruct (nonEmpty s1); simpl; [|reflexivity]. apply compareFrom_same.
  - destruct v1 as [s1|], v2 as [s2|]; simpl; try (right; left; reflexivity).
    destruct (negb (nonEmpty s1) || negb (nonEmpty s2)); [right; left; reflexivity|].
    apply compareFrom_sign.
  - reflexivity.
  - destruct v1; reflexivity.
  - destruct v2; reflexivity.
  - destruct v1 as [s1|]; simpl; [|reflexivity]. rewrite orb_true_r. reflexivity.
Qed.

Lemma splitOn_nonempty (sep : ascii) (s : string) : splitOn sep s <> [].
Proof.
  destruct s as [|c rest]; simpl; [discriminate|].
  destruct (Ascii.eqb c sep); [discriminate|].
  destruct (splitOn sep rest); discriminate.
Qed.

Lemma splitOn_one_more_part (s : string) :
  splitOn "." (s +:+ ".0") = splitOn "." s ++ ["0"].
Proof.
  induction s as [|c rest IH]; [reflexivity|].
  change (String c rest +:+ ".0") with (String c (rest +:+ ".0")).
  cbn [splitOn]. rewrite IH.
  destruct (Ascii.eqb c "."); [reflexivity|].
  pose proof (splitOn_nonempty "." rest) as Hne.
  destruct (splitOn "." rest) as [|w ws]; [contradiction|reflexivity].
Qed.

Lemma compareFrom_ext (n : nat) :
  forall i parts1 parts1' parts2,
    (forall j, orZero (parts1 !! j) = orZero (parts1' !! j)) ->
    compareFrom n i parts1 parts2 = compareFrom n i parts1' parts2.
Proof.
  induction n as [|n IH]; intros i parts1 parts1' parts2 Hsame; cbn [compareFrom];
    [reflexivity|].
  cbv zeta. rewrite (Hsame i). rewrite (IH (S i) parts1 parts1' parts2 Hsame). reflexivity.
Qed.

Lemma compareFrom_past_the_end (n : nat) :
  forall i parts1 parts2,
    (length parts1 <= i)%nat -> (length parts2 <= i)%nat ->
    compareFrom n i parts1 parts2 = 0.
Proof.
  induction n as [|n IH]; intros i parts1 parts2 H1 H2; cbn [compareFrom]; [reflexivity|].
  rewrite (lookup_ge_None_2 parts1 i H1), (lookup_ge_None_2 parts2 i H2).
  cbv zeta. rewrite lessThan_irreflexive. apply IH; lia.
Qed.

Lemma compareFrom_enough (n m : nat) :
  forall i parts1 parts2,
    (length parts1 <= i + n)%nat -> (length parts2 <= i + n)%nat ->
    (n <= m)%nat ->
    compareFrom m i parts1 parts2 = compareFrom n i parts1 parts2.
Proof.
  revert m. induction n as [|n IH]; intros m i parts1 parts2 H1 H2 Hle.
  - simpl. apply compareFrom_past_the_end; lia.
  - destruct m as [|m]; [lia|]. cbn [compareFrom]. cbv zeta.
    rewrite (IH m (S i) parts1 parts2); [reflexivity|lia|lia|lia].
Qed.

(** X22: a trailing part [.0] does not change how a version compares:
    [2.0] and [2.0.0] stand for the same version against any other, since
    a missing part counts as 0. *)
Theorem trailing_zero_part_does_not_matter
    (Number : string -> number) (version : string) (other : option string) :
  Number "0" = Finite (Qc_of_Z 0) ->
  nonEmpty version = true ->
  compareVersions Number (Some (version +:+ ".0")) other
  = compareVersions Number (Some version) other
  /\ compareVersions Number (Some (version +:+ ".0")) (Some version) = 0.
Proof.
  intros Hzero Hne.
  assert (Hne' : nonEmpty (version +:+ ".0") = true).
  { destruct version; [discriminate|reflexivity]. }
  assert (Hgeneral : forall other,
            compareVersions Number (Some (version +:+ ".0")) other
            = compareVersions Number (Some version) other).
  { clear other. intros [u|]; simpl; [|reflexivity]. rewrite Hne, Hne'. simpl.
    destruct (nonEmpty u); cbn [negb]; cbv iota; [|reflexivity].
    rewrite splitOn_one_more_part, map_app. cbn [map]. rewrite Hzero.
    set (parts := map Number (splitOn "." version)).
    set (others := map Number (splitOn "." u)).
    assert (Hsame : forall j,
              orZero ((parts ++ [Finite (Qc_of_Z 0)]) !! j) = orZero (parts !! j)).
    { intros j. destruct (Nat.lt_ge_cases j (length parts)) as [Hlt|Hge].
      - rewrite lookup_app_l by exact Hlt. reflexivity.
      - rewrite lookup_app_r by exact Hge. rewrite (lookup_ge_None_2 parts j Hge).
        destruct (j - length parts)%nat; reflexivity. }
    rewrite (compareFrom_ext _ 0 _ parts others Hsame).
    apply compareFrom_enough; rewrite ?length_app; simpl; lia. }
  split; [apply Hgeneral|].
  rewrite Hgeneral. simpl. rewrite Hne. simpl. apply compareFrom_same.
Qed.

(** ** User agents *)

Lemma append_empty (s : string) : s +:+ "" = s.
Proof.
  induction s as [|c s IH]; [reflexivity|].
  change (String c s +:+ "") with (String c (s +:+ "")). f_equal. exact IH.
Qed.

Lemma white_space_ends_a_version (c : ascii) :
  isWhiteSpace c = true -> isSuffixChar c = false /\ isVersionChar c = false.
Proof.
  destruct c as [[] [] [] [] [] [] [] []]; intros H; try discriminate H; split; reflexivity.
Qed.

Lemma takeWhile_nonempty_head (f : ascii -> bool) (s : string) :
  nonEmpty (takeWhile f s) = true -> exists c rest, s = String c rest /\ f c = true.
Proof.
  destruct s as [|c rest]; simpl; [discriminate|].
  destruct (f c) eqn:Hc; [|discriminate]. intros _. exists c, rest. split; reflexivity || exact Hc.
Qed.

Lemma tested_agent_version (userAgent : string) :
  looksLikeClaudeCli userAgent = true ->
  nonEmpty (takeWhile isVersionChar (dropChars 11 userAgent)) = true
  /\ firstVersion userAgent = Some (takeWhile isVersionChar (dropChars 11 userAgent))
  /\ nonEmpty userAgent = true.
Proof.
  unfold looksLikeClaudeCli. cbv zeta. intros Htest.
  apply andb_prop in Htest as [Hcli Htest].
  apply andb_prop in Htest as [Htest _].
  apply andb_prop in Htest as [Hdigits Hspace].
  split; [exact Hdigits|].
  assert (Hat : versionAt userAgent
                = Some (takeWhile isVersionChar (dropChars 11 userAgent))).
  { unfold versionAt. rewrite Hcli. cbv zeta. rewrite Hdigits.
    destruct (takeWhile_nonempty_head _ _ Hspace) as (c & rest & Hafter & Hc).
    rewrite Hafter. simpl.
    destruct (white_space_ends_a_version c Hc) as [Hsuffix _]. rewrite Hsuffix.
    f_equal. apply append_empty. }
  destruct userAgent as [|a rest]; [discriminate Hcli|].
  split; [|reflexivity].
  cbn [firstVersion]. rewrite Hat. reflexivity.
Qed.

(** X23: a user agent that passes the test of [storeAccountHeaders] always
    yields a version: the match of [extractVersionFromUserAgent] is at its
    start, and the version is exactly the run of digits and dots after
    [claude-cli/], with no suffix.  The branch that handles a missing
    version is never taken after the test. *)
Theorem tested_user_agent_has_a_version (userAgent : string) :
  looksLikeClaudeCli userAgent = true ->
  let digits := takeWhile isVersionChar (dropChars 11 userAgent) in
  nonEmpty digits = true
  /\ extractVersionFromUserAgent (VStr userAgent) = Normal (Some digits).
Proof.
  intros Htest digits.
  destruct (tested_agent_version userAgent Htest) as (Hdigits & Hfirst & Hagent).
  split; [exact Hdigits|].
  unfold extractVersionFromUserAgent. simpl truthy. unfold nonEmpty in Hagent.
  rewrite Hagent. cbn [negb]. cbv iota. rewrite Hfirst. reflexivity.
Qed.

(** ** The headers kept of a request *)

(** The value of the last entry of [entries] whose name is [name] in
    lower case, starting from [found]. *)
Definition lastValueFrom (name : string) (entries : list (string * string))
    (found : option string) : option string :=
  fold_left (fun found entry =>
               if String.eqb (toLowerCase (fst entry)) name then Some (snd entry) else found)
    entries found.

Definition entriesOf (clientHeaders : option (list (string * string)))
  : list (string * string) :=
  match clientHeaders with Some entries => entries | None => [] end.

Lemma lowered_lookup (name : string) (entries : list (string * string)) :
  forall (lower : gmap string string),
    fold_left (fun lower entry => <[toLowerCase (fst entry) := snd entry]> lower)
      entries lower !! name
    = lastValueFrom name entries (lower !! name).
Proof.
  unfold lastValueFrom.
  induction entries as [|[k v] entries IH]; intros lower; simpl; [reflexivity|].
  rewrite IH. f_equal.
  destruct (String.eqb_spec (toLowerCase k) name) as [->|Hne].
  - apply lookup_insert_eq.
  - apply lookup_insert_ne. exact Hne.
Qed.

Lemma lookupHeader_kept (name : string) (lower : gmap string string) (keys : list string) :
  lookupHeader name
    (omap (fun key =>
             match lower !! toLowerCase key with
             | Some value => if nonEmpty value then Some (key, value) else None
             | None => None
             end) keys)
  = if existsb (String.eqb name) keys
    then match lower !! toLowerCase name with
         | Some value => if nonEmpty value then Some value else None
         | None => None
         end
    else None.
Proof.
  assert (Hcons : forall (f : string -> option (string * string)) key keys,
            omap f (key :: keys)
            = match f key with Some kept => kept :: omap f keys | None => omap f keys end)
    by reflexivity.
  induction keys as [|key keys IH]; [reflexivity|].
  rewrite Hcons. cbn [existsb].
  destruct (String.eqb_spec name key) as [<-|Hne]; cbn [orb].
  - destruct (lower !! toLowerCase name) as [value|] eqn:Hvalue.
    + destruct (nonEmpty value) eqn:Hne.
      * cbn [lookupHeader]. rewrite String.eqb_refl. reflexivity.
      * rewrite IH. destruct (existsb _ keys); reflexivity.
    + rewrite IH. destruct (existsb _ keys); reflexivity.
  - destruct (lower !! toLowerCase key) as [value|]; [|exact IH].
    destruct (nonEmpty value); [|exact IH].
    cbn [lookupHeader]. destruct (String.eqb_spec name key); [contradiction|exact IH].
Qed.

Lemma kept_header (svc : Service) (clientHeaders : option (list (string * string)))
    (name : string) :
  lookupHeader name (extractClaudeCodeHeaders svc clientHeaders)
  = if existsb (String.eqb name) (claudeCodeHeaderKeys svc)
    then match lastValueFrom (toLowerCase name) (entriesOf clientHeaders) None with
         | Some value => if nonEmpty value then Some value else None
         | None => None
         end
    else None.
Proof.
  unfold extractClaudeCodeHeaders. cbv zeta.
  rewrite lookupHeader_kept, lowered_lookup, lookup_empty. reflexivity.
Qed.

(** X24: what [extractClaudeCodeHeaders] keeps of a request.  A header is
    kept only under one of the seventeen listed names; under such a name
    the value kept is the one the request gives it in any letter case, the
    last one if several spellings occur, and an empty value is not kept.
    So no credential of the request ([authorization], [x-api-key],
    [cookie]) is ever kept. *)
Theorem only_listed_headers_are_kept
    (clientHeaders : option (list (string * string))) (name : string) :
  let kept := extractClaudeCodeHeaders constructor clientHeaders in
  lookupHeader name kept
  = (if existsb (String.eqb name) (claudeCodeHeaderKeys constructor)
     then match lastValueFrom name (entriesOf clientHeaders) None with
          | Some value => if nonEmpty value then Some value else None
          | None => None
          end
     else None)
  /\ lookupHeader "authorization" kept = None
  /\ lookupHeader "x-api-key" kept = None
  /\ lookupHeader "cookie" kept = None
  /\ Forall (fun header => nonEmpty (snd header) = true
                           /\ In (fst header) (claudeCodeHeaderKeys constructor)) kept.
Proof.
  cbv zeta. split; [|split; [|split; [|split]]].
  - rewrite kept_header.
    destruct (existsb (String.eqb name) (claudeCodeHeaderKeys constructor)) eqn:Hin;
      [|reflexivity].
    assert (Hlower : toLowerCase name = name).
    { apply existsb_exists in Hin as (key & Hkey & Heq).
      apply String.eqb_eq in Heq. subst key.
      simpl in Hkey.
      repeat (destruct Hkey as [<-|Hkey]; [reflexivity|]). contradiction. }
    rewrite Hlower. reflexivity.
  - rewrite kept_header. reflexivity.
  - rewrite kept_header. reflexivity.
  - rewrite kept_header. reflexivity.
  - unfold extractClaudeCodeHeaders. cbv zeta.
    set (lower := fold_left _ _ ∅). clearbody lower.
    generalize (claudeCodeHeaderKeys constructor). intros keys.
    induction keys as [|key keys IH]; [apply List.Forall_nil|].
    change (omap ?f (key :: keys))
      with (match f key with Some kept => kept :: omap f keys | None => omap f keys end).
    cbv beta.
    destruct (lower !! toLowerCase key) as [value|].
    + destruct (nonEmpty value) eqn:Hne.
      * apply List.Forall_cons; [split; [exact Hne|left; reflexivity]|].
        eapply Forall_impl; [exact IH|]. intros header (H1 & H2).
        split; [exact H1|right; exact H2].
      * eapply Forall_impl; [exact IH|]. intros header (H1 & H2).
        split; [exact H1|right; exact H2].
    + eapply Forall_impl; [exact IH|]. intros header (H1 & H2).
      split; [exact H1|right; exact H2].
Qed.

(** ** Storing the headers of an account *)

(** The entry [storeAccountHeaders] writes. *)
Definition writtenEntry (env : StoreEnv) (kept : list (string * string)) (version : string)
  : Entry :=
  {| text := Json (VObj [("headers", headersObject kept);
                         ("version", VStr version);
                         ("updatedAt", VStr (updatedAt env))]);
     ttl := Some 604800 |}.

Lemma jsonClone_headersObject (kept : list (string * string)) :
  jsonClone (headersObject kept) = headersObject kept.
Proof.
  unfold headersObject. simpl. f_equal.
  induction kept as [|[k v] kept IH]; [reflexivity|].
  change (omap ?f (?x :: ?l))
    with (match f x with Some y => y :: omap f l | None => omap f l end).
  simpl. f_equal. exact IH.
Qed.

Lemma stringify_entry (kept : list (string * string)) (version updated : string) :
  jsonClone (VObj [("headers", headersObject kept);
                   ("version", VStr version);
                   ("updatedAt", VStr updated)])
  = VObj [("headers", headersObject kept);
          ("version", VStr version);
          ("updatedAt", VStr updated)].
Proof.
  pose proof (jsonClone_headersObject kept) as Hkept.
  unfold headersObject in *. simpl in *. rewrite Hkept. reflexivity.
Qed.

(** The version of the user agent in the request, when it passes the
    test. *)
Definition cliVersion (svc : Service) (clientHeaders : option (list (string * string)))
  : option string :=
  match lookupHeader "user-agent" (extractClaudeCodeHeaders svc clientHeaders) with
  | Some userAgent =>
      if looksLikeClaudeCli userAgent
      then Some (takeWhile isVersionChar (dropChars 11 userAgent))
      else None
  | None => None
  end.

Section Store.

Variable Number : string -> number.
Variables (svc : Service) (env : StoreEnv) (accountId : string).
Variable clientHeaders : option (list (string * string)).

Lemma store_runs (w : World) :
  storeAccountHeaders Number svc env accountId clientHeaders w
  = match cliVersion svc clientHeaders, currentRead env with
    | Some version, Normal _ =>
        match supersedes Number version (option_map text (w !! headersKey accountId)),
              storeWrite env with
        | Normal true, Normal _ =>
            (<[headersKey accountId :=
                 writtenEntry env (extractClaudeCodeHeaders svc clientHeaders) version]> w,
             Normal tt)
        | _, _ => (w, Normal tt)
        end
    | _, _ => (w, Normal tt)
    end.
Proof.
  unfold storeAccountHeaders, cliVersion, tryCatch. cbv zeta.
  destruct (lookupHeader "user-agent" (extractClaudeCodeHeaders svc clientHeaders))
    as [userAgent|]; [|reflexivity].
  destruct (looksLikeClaudeCli userAgent) eqn:Htest.
  - destruct (tested_agent_version userAgent Htest) as (Hdigits & Hfirst & Hagent).
    rewrite Hagent. cbn [negb orb]. cbv iota.
    unfold extractVersionFromUserAgent. simpl truthy. unfold nonEmpty in Hagent.
    rewrite Hagent. cbn [negb]. cbv iota. rewrite Hfirst.
    unfold bind at 1, lift at 1. cbv iota beta. rewrite Hdigits. cbn [negb]. cbv iota.
    unfold bind at 1, client_get.
    destruct (currentRead env) as [[]|e]; [|reflexivity].
    unfold gets. cbv iota beta.
    unfold bind at 1, lift at 1.
    destruct (supersedes Number _ _) as [[|]|e]; cbv iota beta; try reflexivity.
    unfold client_setex, JSON_stringify, writtenEntry.
    destruct (storeWrite env) as [[]|e]; [|reflexivity].
    unfold modify. rewrite stringify_entry. reflexivity.
  - rewrite orb_true_r. reflexivity.
Qed.

End Store.

(** X25: [storeAccountHeaders] never throws and touches no key but the
    one of the account; a request that is not from the Claude Code client
    (no user agent kept, or one that fails the test) changes nothing, and
    neither does a read or a write that redis fails. *)
Theorem store_is_safe
    (Number : string -> number) (svc : Service) (env : StoreEnv) (accountId : string)
    (clientHeaders : option (list (string * string))) (w : World) :
  let run := storeAccountHeaders Number svc env accountId clientHeaders w in
  snd run = Normal tt
  /\ (forall key, key <> headersKey accountId -> fst run !! key = w !! key)
  /\ (cliVersion svc clientHeaders = None -> fst run = w)
  /\ (isNormal (currentRead env) = false -> fst run = w)
  /\ (isNormal (storeWrite env) = false -> fst run = w).
Proof.
  cbv zeta. rewrite store_runs.
  destruct (cliVersion svc clientHeaders) as [version|];
    [|repeat split; reflexivity].
  destruct (currentRead env) as [[]|e]; [|repeat split; reflexivity].
  destruct (supersedes Number version _) as [[|]|e];
    try (repeat split; intros; reflexivity || discriminate).
  destruct (storeWrite env) as [[]|e];
    [|repeat split; intros; reflexivity || discriminate].
  split; [reflexivity|].
  split; [intros key Hne; simpl; apply lookup_insert_ne; congruence|].
  repeat split; intros; discriminate.
Qed.

(** The user agent of the entry redis holds for an account:
    [current.headers['user-agent']], which throws when the text is no
    JSON, when it is null, or when it has no [headers]. *)
Definition heldAgent (held : Entry) : completion jsval :=
  andThen (JSON_parse (text held)) (fun current =>
  andThen (getProp current "headers") (fun currentHeaders =>
    getProp currentHeaders "user-agent")).

Lemma compareVersions_above (Number : string -> number) (v1 v2 : option string) :
  negb (compareVersions Number v1 v2 <=? 0) = true -> compareVersions Number v1 v2 = 1.
Proof.
  intros Habove. apply negb_true_iff, Z.leb_gt in Habove.
  assert (Hsign : compareVersions Number v1 v2 = -1 \/ compareVersions Number v1 v2 = 0
                  \/ compareVersions Number v1 v2 = 1).
  { destruct v1 as [s1|], v2 as [s2|]; simpl; try (right; left; reflexivity).
    destruct (negb (nonEmpty s1) || negb (nonEmpty s2)); [right; left; reflexivity|].
    apply compareFrom_sign. }
  lia.
Qed.

(** X26: the version held for an account only goes up.  When redis holds
    an entry whose text is not empty, [storeAccountHeaders] replaces it
    only if the text can be read and the version of the request compares
    above the version of its user agent: a text that is no JSON, that has
    no headers, or whose user agent shows no version is never replaced.
    An entry whose text is empty counts as no entry: every request of the
    Claude Code client replaces it when redis serves the commands. *)
Theorem held_version_only_goes_up
    (Number : string -> number) (svc : Service) (env : StoreEnv) (accountId : string)
    (clientHeaders : option (list (string * string))) (w : World) (held : Entry) :
  w !! headersKey accountId = Some held ->
  let after := fst (storeAccountHeaders Number svc env accountId clientHeaders w) in
  (after = w
   \/ exists version,
        cliVersion svc clientHeaders = Some version
        /\ after
           = <[headersKey accountId :=
                 writtenEntry env (extractClaudeCodeHeaders svc clientHeaders) version]> w
        /\ (textTruthy (text held) = false
            \/ exists currentAgent currentVersion,
                 heldAgent held = Normal currentAgent
                 /\ extractVersionFromUserAgent currentAgent = Normal (Some currentVersion)
                 /\ compareVersions Number (Some version) (Some currentVersion) = 1))
  /\ (forall version,
        textTruthy (text held) = false ->
        cliVersion svc clientHeaders = Some version ->
        currentRead env = Normal tt -> storeWrite env = Normal tt ->
        after
        = <[headersKey accountId :=
              writtenEntry env (extractClaudeCodeHeaders svc clientHeaders) version]> w).
Proof.
  intros Hheld. cbv zeta. rewrite store_runs, Hheld. simpl option_map. split.
  - destruct (cliVersion svc clientHeaders) as [version|]; [|left; reflexivity].
    destruct (currentRead env) as [[]|e]; [|left; reflexivity].
    unfold supersedes.
    destruct (textTruthy (text held)) eqn:Htruthy.
    + unfold heldAgent.
      destruct (JSON_parse (text held)) as [current|e]; cbn [andThen]; [|left; reflexivity].
      destruct (getProp current "headers") as [currentHeaders|e]; cbn [andThen];
        [|left; reflexivity].
      destruct (getProp currentHeaders "user-agent") as [currentAgent|e]; cbn [andThen];
        [|left; reflexivity].
      destruct (extractVersionFromUserAgent currentAgent) as [currentVersion|e] eqn:Hversion;
        cbn [andThen]; [|left; reflexivity].
      destruct (negb (compareVersions Number (Some version) currentVersion <=? 0))
        eqn:Habove; [|left; reflexivity].
      destruct (storeWrite env) as [[]|e]; [|left; reflexivity].
      apply compareVersions_above in Habove.
      destruct currentVersion as [currentVersion|]; [|discriminate Habove].
      right. exists version. split; [reflexivity|]. split; [reflexivity|].
      right. exists currentAgent, currentVersion.
      split; [reflexivity|]. split; [exact Hversion|exact Habove].
    + destruct (storeWrite env) as [[]|e]; [|left; reflexivity].
      right. exists version. split; [reflexivity|]. split; [reflexivity|].
      left. reflexivity.
  - intros version Hempty Hcli Hread Hwrite.
    rewrite Hcli, Hread. unfold supersedes. rewrite Hempty, Hwrite. reflexivity.
Qed.

(** ** Reading the headers of an account *)

(** X27: what [storeAccountHeaders] stores, [getAccountHeaders] reads
    back: after a request of the Claude Code client has been stored (redis
    serving the commands, and no entry of the same or a later version in
    the way), the headers of the account are the headers kept of that
    request. *)
Theorem stored_headers_are_read_back
    (Number : string -> number) (svc : Service) (env : StoreEnv) (reading : GetEnv)
    (accountId : string) (clientHeaders : option (list (string * string))) (w : World)
    (version : string) :
  cliVersion svc clientHeaders = Some version ->
  currentRead env = Normal tt -> storeWrite env = Normal tt ->
  supersedes Number version (option_map text (w !! headersKey accountId)) = Normal true ->
  storedRead reading = Normal tt ->
  let after := fst (storeAccountHeaders Number svc env accountId clientHeaders w) in
  after !! headersKey accountId
  = Some (writtenEntry env (extractClaudeCodeHeaders svc clientHeaders) version)
  /\ getAccountHeaders svc reading accountId after
     = (after, Normal (headersObject (extractClaudeCodeHeaders svc clientHeaders))).
Proof.
  intros Hcli Hread Hwrite Hnewer Hstored. cbv zeta.
  rewrite store_runs, Hcli, Hread, Hnewer, Hwrite. simpl fst.
  split; [apply lookup_insert_eq|].
  unfold getAccountHeaders, tryCatch. cbv zeta.
  unfold bind at 1, client_get. rewrite Hstored. unfold gets. cbv iota beta.
  rewrite (lookup_insert_eq (M := gmap string) w). simpl option_map.
  unfold writtenEntry at 1. simpl text. simpl textTruthy. cbv iota.
  unfold bind at 1. unfold bind at 1, lift at 1. simpl JSON_parse. cbv iota beta.
  unfold bind at 1, lift at 1. simpl getProp. cbv iota beta.
  unfold ret. cbv iota beta.
  unfold cloneHeaders. simpl truthy. cbv iota. rewrite jsonClone_headersObject.
  reflexivity.
Qed.

(** ** Default headers *)

Lemma truthy_jsonClone (v : jsval) : truthy (jsonClone v) = truthy v.
Proof. destruct v; reflexivity. Qed.

Lemma jsonClone_idempotent : forall v : jsval, jsonClone (jsonClone v) = jsonClone v.
Proof.
  fix IH 1. intros [| |b|n|s|items|fields]; try reflexivity.
  - simpl. f_equal.
    induction items as [|item items IHitems]; [reflexivity|].
    cbn [map]. f_equal; [|exact IHitems].
    pose proof (IH item) as Hitem.
    destruct item; try reflexivity; exact Hitem.
  - simpl. f_equal.
    induction fields as [|[k x] fields IHfields]; [reflexivity|].
    change (omap ?f ((k, x) :: fields))
      with (match f (k, x) with Some y => y :: omap f fields | None => omap f fields end).
    cbn [snd fst].
    pose proof (IH x) as Hx.
    destruct x; try exact IHfields;
      change (omap ?f (?y :: ?l))
        with (match f y with Some z => z :: omap f l | None => omap f l end);
      cbn [snd fst]; try (f_equal; exact IHfields).
    + cbn [jsonClone] in Hx |- *. fold jsonClone in Hx |- *.
      f_equal; [|exact IHfields]. f_equal. exact Hx.
    + cbn [jsonClone] in Hx |- *. fold jsonClone in Hx |- *.
      f_equal; [|exact IHfields]. f_equal. exact Hx.
Qed.

Lemma picked_is_kept (svc : Service) (random : nat) :
  let picked := _pickRandomProfile svc random in
  truthy (headers picked) = true
  /\ jsonClone (headers picked) = headers picked
  /\ exists id, profileId picked = VStr id /\ nonEmpty id = true.
Proof.
  assert (Hclone : forall v, truthy (cloneHeaders v) = true
                             /\ jsonClone (cloneHeaders v) = cloneHeaders v).
  { intros v. unfold cloneHeaders. split; [|apply jsonClone_idempotent].
    rewrite truthy_jsonClone. destruct (truthy v) eqn:Hv; [exact Hv|reflexivity]. }
  unfold _pickRandomProfile.
  destruct (headerProfiles svc) as [|first others]; cbv zeta; cbn [headers profileId].
  - destruct (Hclone (defaultHeaders svc)) as [H1 H2].
    split; [exact H1|]. split; [exact H2|]. exists "default". split; reflexivity.
  - set (index := (random mod length (first :: others))%nat).
    set (profile := nth index (first :: others) first).
    match goal with |- truthy (cloneHeaders ?v) = true /\ _ =>
      destruct (Hclone v) as [H1 H2] end.
    split; [exact H1|]. split; [exact H2|].
    destruct (nonEmpty (profile_id profile)) eqn:Hid.
    + exists (profile_id profile). split; [reflexivity|exact Hid].
    + exists ("profile-" +:+ pretty index). split; reflexivity.
Qed.

(** X28: default headers stick to an account.  The first call for an
    account that has none draws a profile, stores it and returns it; every
    later call that redis serves returns that same assignment, headers and
    profile id, and writes nothing, whatever [randomInt] would draw. *)
Theorem assigned_headers_stick
    (svc : Service) (env again : AssignEnv) (accountId : string) (w : World) :
  nonEmpty accountId = true ->
  w !! _getDefaultHeadersKey accountId = None ->
  cachedRead env = Normal tt -> assignWrite env = Normal tt ->
  cachedRead again = Normal tt ->
  let first := getOrAssignDefaultHeaders svc env accountId w in
  snd first = Normal (_pickRandomProfile svc (random env))
  /\ (forall key, key <> _getDefaultHeadersKey accountId -> fst first !! key = w !! key)
  /\ getOrAssignDefaultHeaders svc again accountId (fst first)
     = (fst first, Normal (_pickRandomProfile svc (random env))).
Proof.
  intros Hid Hnone Hread Hwrite Hagain. cbv zeta.
  destruct (picked_is_kept svc (random env)) as (Htruthy & Hclone & id & Hprofile & Hne).
  set (picked := _pickRandomProfile svc (random env)) in *.
  assert (Hfirst : getOrAssignDefaultHeaders svc env accountId w
                   = (<[_getDefaultHeadersKey accountId :=
                          {| text := Json (VObj [("headers", headers picked);
                                                 ("profileId", profileId picked);
                                                 ("assignedAt", VStr (assignedAt env))]);
                             ttl := None |}]> w,
                      Normal picked)).
  { unfold getOrAssignDefaultHeaders. rewrite Hid. cbn [negb]. cbv iota zeta.
    unfold tryCatch. unfold bind at 1, client_get. rewrite Hread. unfold gets.
    cbv iota beta. rewrite Hnone. simpl option_map. cbv iota.
    unfold bind at 1, ret at 1. cbv iota beta.
    fold picked. unfold bind at 1, client_set. rewrite Hwrite. unfold modify.
    cbv iota beta. unfold ret. cbv iota beta.
    unfold JSON_stringify.
    assert (Hpayload :
      jsonClone (VObj [("headers", headers picked); ("profileId", profileId picked);
                       ("assignedAt", VStr (assignedAt env))])
      = VObj [("headers", headers picked); ("profileId", profileId picked);
              ("assignedAt", VStr (assignedAt env))]).
    { rewrite Hprofile. cbn [jsonClone].
      change (omap ?f (?y :: ?l))
        with (match f y with Some z => z :: omap f l | None => omap f l end).
      cbn [snd fst].
      destruct (headers picked) eqn:Hh; try discriminate Htruthy;
        cbn [jsonClone] in Hclone |- *; fold jsonClone in Hclone |- *;
        rewrite ?Hclone; reflexivity. }
    rewrite Hpayload. reflexivity. }
  rewrite Hfirst. simpl fst. simpl snd.
  split; [reflexivity|].
  split; [intros key Hkey; apply lookup_insert_ne; congruence|].
  unfold getOrAssignDefaultHeaders. rewrite Hid. cbn [negb]. cbv iota zeta.
  unfold tryCatch. unfold bind at 1, client_get. rewrite Hagain. unfold gets.
  cbv iota beta.
  rewrite (lookup_insert_eq (M := gmap string) w). simpl option_map. cbv iota.
  simpl textTruthy. cbv iota.
  unfold bind at 1. unfold bind at 1, lift at 1. simpl JSON_parse. cbv iota beta.
  set (payload := VObj [("headers", headers picked); ("profileId", profileId picked);
                        ("assignedAt", VStr (assignedAt env))]).
  assert (Hheaders : prop payload "headers" = headers picked) by reflexivity.
  assert (Hprofiled : prop payload "profileId" = profileId picked) by reflexivity.
  assert (Hpayload : truthy payload = true) by reflexivity.
  rewrite Hheaders, Hprofiled, Hpayload, Htruthy, Hprofile.
  cbn [andb truthy]. fold (nonEmpty id). rewrite Hne. cbv iota.
  unfold ret. cbv iota beta.
  unfold cloneHeaders. rewrite Htruthy, Hclone.
  destruct picked as [h p]. simpl in Hprofile. subst p. reflexivity.
Qed.

(** The headers every fallback returns. *)
Definition fallbackHeaders (svc : Service) : jsval := cloneHeaders (defaultHeaders svc).

(** The entry held for the defaults of an account gives no assignment:
    there is none, its text is empty, or the value it holds is falsy or
    has no headers.  [getOrAssignDefaultHeaders] then draws a profile. *)
Definition assignsAnew (held : option RedisText) : bool :=
  match held with
  | Some cachedText =>
      if textTruthy cachedText then
        match JSON_parse cachedText with
        | Normal parsed => negb (truthy parsed && truthy (prop parsed "headers"))
        | Throw _ => false
        end
      else true
  | None => true
  end.

(** The entry [getOrAssignDefaultHeaders] writes for the profile drawn. *)
Definition assignedEntry (svc : Service) (env : AssignEnv) : Entry :=
  let picked := _pickRandomProfile svc (random env) in
  {| text := Json (VObj [("headers", headers picked);
                         ("profileId", profileId picked);
                         ("assignedAt", VStr (assignedAt env))]);
     ttl := None |}.

Lemma stringify_assignment (svc : Service) (env : AssignEnv) :
  let picked := _pickRandomProfile svc (random env) in
  JSON_stringify (VObj [("headers", headers picked);
                        ("profileId", profileId picked);
                        ("assignedAt", VStr (assignedAt env))])
  = text (assignedEntry svc env).
Proof.
  cbv zeta. unfold JSON_stringify, assignedEntry. cbn [text]. f_equal.
  destruct (picked_is_kept svc (random env)) as (Htruthy & Hclone & id & Hprofile & _).
  set (picked := _pickRandomProfile svc (random env)) in *.
  rewrite Hprofile. cbn [jsonClone].
  change (omap ?f (?y :: ?l))
    with (match f y with Some z => z :: omap f l | None => omap f l end).
  cbn [snd fst].
  destruct (headers picked) eqn:Hh; try discriminate Htruthy;
    cbn [jsonClone] in Hclone |- *; fold jsonClone in Hclone |- *;
    rewrite ?Hclone; reflexivity.
Qed.

(** [getOrAssignDefaultHeaders] for an account id, by what redis holds and
    answers. *)
Lemma assign_runs (svc : Service) (env : AssignEnv) (accountId : string) (w : World) :
  nonEmpty accountId = true ->
  let held := option_map text (w !! _getDefaultHeadersKey accountId) in
  let failed :=
    (w, Normal {| headers := cloneHeaders (defaultHeaders svc);
                  profileId := VStr "fallback-error" |}) in
  getOrAssignDefaultHeaders svc env accountId w
  = match cachedRead env with
    | Throw _ => failed
    | Normal _ =>
        if assignsAnew held then
          match assignWrite env with
          | Normal _ =>
              (<[_getDefaultHeadersKey accountId := assignedEntry svc env]> w,
               Normal (_pickRandomProfile svc (random env)))
          | Throw _ => failed
          end
        else
          match held with
          | Some (Json parsed) =>
              (w, Normal {| headers := cloneHeaders (prop parsed "headers");
                            profileId :=
                              if truthy (prop parsed "profileId")
                              then prop parsed "profileId" else VStr "assigned" |})
          | _ => failed
          end
    end.
Proof.
  intros Hid. cbv zeta.
  unfold getOrAssignDefaultHeaders. rewrite Hid. cbn [negb]. cbv iota zeta.
  unfold tryCatch. unfold bind at 1, client_get.
  destruct (cachedRead env) as [[]|e]; [|reflexivity].
  unfold gets. cbv iota beta.
  assert (Hdraw :
    (let* _ := client_set (assignWrite env) (_getDefaultHeadersKey accountId)
                 (JSON_stringify
                    (VObj [("headers", headers (_pickRandomProfile svc (random env)));
                           ("profileId", profileId (_pickRandomProfile svc (random env)));
                           ("assignedAt", VStr (assignedAt env))])) in
     ret (_pickRandomProfile svc (random env))) w
    = match assignWrite env with
      | Normal _ =>
          (<[_getDefaultHeadersKey accountId := assignedEntry svc env]> w,
           Normal (_pickRandomProfile svc (random env)))
      | Throw e => (w, Throw e)
      end).
  { unfold bind, client_set. rewrite stringify_assignment.
    destruct (assignWrite env) as [[]|e]; [|reflexivity].
    unfold modify, ret, assignedEntry. reflexivity. }
  destruct (w !! _getDefaultHeadersKey accountId) as [[cachedText life]|];
    cbn [option_map text assignsAnew].
  - destruct cachedText as [parsed|raw]; cbn [textTruthy JSON_parse].
    + unfold bind at 1. unfold bind at 1, lift at 1. cbv iota beta.
      destruct (truthy parsed && truthy (prop parsed "headers")); cbn [negb];
        unfold ret at 1; cbv iota beta.
      * reflexivity.
      * rewrite Hdraw. destruct (assignWrite env) as [[]|e]; reflexivity.
    + destruct (nonEmpty raw).
      * reflexivity.
      * unfold bind at 1, ret at 1. cbv iota beta.
        rewrite Hdraw. destruct (assignWrite env) as [[]|e]; reflexivity.
  - unfold bind at 1, ret at 1. cbv iota beta.
    rewrite Hdraw. destruct (assignWrite env) as [[]|e]; reflexivity.
Qed.

(** X29: looking headers up never throws.  Without an account id
    [getOrAssignDefaultHeaders] does not touch redis and answers the
    default headers as [fallback].  With one, it answers them as
    [fallback-error], and stores nothing, when redis fails the read, when
    the text held is not empty and no JSON, or when a profile has to be
    drawn and redis fails the write.  A profile is drawn when no entry is
    held, and also when the text held is empty or holds no headers: redis
    serving, it is stored over that entry and returned.
    [getAccountHeaders] answers the default headers, and stores nothing,
    when its own read fails or the text held is not empty and no JSON. *)
Theorem header_lookups_fall_back
    (svc : Service) (env : AssignEnv) (reading : GetEnv) (accountId : string) (w : World) :
  let held := option_map text (w !! _getDefaultHeadersKey accountId) in
  (exists assignment,
     snd (getOrAssignDefaultHeaders svc env accountId w) = Normal assignment)
  /\ (exists answered, snd (getAccountHeaders svc reading accountId w) = Normal answered)
  /\ getOrAssignDefaultHeaders svc env "" w
     = (w, Normal {| headers := fallbackHeaders svc; profileId := VStr "fallback" |})
  /\ (nonEmpty accountId = true ->
      isNormal (cachedRead env) = false
      \/ (exists raw, held = Some (Garbled raw) /\ nonEmpty raw = true)
      \/ (assignsAnew held = true /\ isNormal (assignWrite env) = false) ->
      getOrAssignDefaultHeaders svc env accountId w
      = (w, Normal {| headers := fallbackHeaders svc;
                      profileId := VStr "fallback-error" |}))
  /\ (nonEmpty accountId = true ->
      cachedRead env = Normal tt -> assignWrite env = Normal tt ->
      held = None \/ held = Some (Garbled "") \/ assignsAnew held = true ->
      getOrAssignDefaultHeaders svc env accountId w
      = (<[_getDefaultHeadersKey accountId := assignedEntry svc env]> w,
         Normal (_pickRandomProfile svc (random env))))
  /\ (isNormal (storedRead reading) = false
      \/ (exists raw, option_map text (w !! headersKey accountId) = Some (Garbled raw)
                      /\ nonEmpty raw = true) ->
      getAccountHeaders svc reading accountId w = (w, Normal (fallbackHeaders svc))).
Proof.
  cbv zeta.
  assert (Hassign : forall accountId' w',
            exists w'' assignment,
              getOrAssignDefaultHeaders svc env accountId' w' = (w'', Normal assignment)).
  { intros accountId' w'. unfold getOrAssignDefaultHeaders.
    destruct (nonEmpty accountId'); cbn [negb]; cbv iota; [|eexists _, _; reflexivity].
    unfold tryCatch.
    match goal with |- context [let (s', c) := ?body w' in _] =>
      destruct (body w') as [w1 [a|e]] end; eexists _, _; reflexivity. }
  split; [destruct (Hassign accountId w) as (w' & a & H); rewrite H; eexists; reflexivity|].
  split.
  { unfold getAccountHeaders, tryCatch.
    match goal with |- context [let (s', c) := ?body w in _] =>
      destruct (body w) as [w1 [a|e]] end; eexists; reflexivity. }
  split; [reflexivity|].
  split; [|split].
  - intros Hid Hcause. rewrite (assign_runs svc env accountId w Hid). cbv zeta.
    unfold fallbackHeaders.
    destruct (cachedRead env) as [[]|e]; [|reflexivity].
    destruct Hcause as [Hread|[(raw & Hheld & Hraw)|(Hanew & Hwrite)]].
    + discriminate Hread.
    + rewrite Hheld. cbn [assignsAnew textTruthy JSON_parse]. rewrite Hraw. reflexivity.
    + rewrite Hanew. destruct (assignWrite env) as [[]|e]; [discriminate Hwrite|reflexivity].
  - intros Hid Hread Hwrite Hanew. rewrite (assign_runs svc env accountId w Hid). cbv zeta.
    rewrite Hread, Hwrite.
    assert (Hdrawn : assignsAnew (option_map text (w !! _getDefaultHeadersKey accountId))
                     = true).
    { destruct Hanew as [-> | [-> | H]]; [reflexivity|reflexivity|exact H]. }
    rewrite Hdrawn. reflexivity.
  - intros Hcause. unfold getAccountHeaders, tryCatch, fallbackHeaders. cbv zeta.
    unfold bind at 1, client_get.
    destruct (storedRead reading) as [[]|e]; [|reflexivity].
    destruct Hcause as [Hread|(raw & Hheld & Hraw)]; [discriminate Hread|].
    unfold gets. cbv iota beta. rewrite Hheld. cbn [textTruthy]. rewrite Hraw.
    reflexivity.
Qed.

(** ** Clearing *)

(** X30: [clearAccountHeaders] never throws; when redis serves both
    commands the account has neither stored headers nor an assignment left
    and every other key is untouched; when the first command fails the
    second is not sent and nothing is deleted. *)
Theorem clearing_forgets_the_account (env : ClearEnv) (accountId : string) (w : World) :
  let run := clearAccountHeaders env accountId w in
  snd run = Normal tt
  /\ (headersDel env = Normal tt -> defaultsDel env = Normal tt ->
      fst run !! headersKey accountId = None
      /\ fst run !! _getDefaultHeadersKey accountId = None
      /\ forall key,
           key <> headersKey accountId -> key <> _getDefaultHeadersKey accountId ->
           fst run !! key = w !! key)
  /\ (isNormal (headersDel env) = false -> fst run = w).
Proof.
  cbv zeta. unfold clearAccountHeaders, tryCatch, client_del. cbv zeta.
  unfold bind, modify, throw, ret.
  destruct (headersDel env) as [[]|e1]; destruct (defaultsDel env) as [[]|e2]; simpl;
    (split; [reflexivity|]); (split; [|intros H; try discriminate H; reflexivity]);
    intros H1 H2; try discriminate H1; try discriminate H2.
  unfold World in *.
  split; [|split].
  - destruct (decide (headersKey accountId = _getDefaultHeadersKey accountId)) as [Heq|Hne].
    + rewrite Heq. apply lookup_delete_eq.
    + rewrite lookup_delete_ne by congruence. apply lookup_delete_eq.
  - apply lookup_delete_eq.
  - intros key Hk1 Hk2. rewrite !lookup_delete_ne by congruence. reflexivity.
Qed.

(** ** Sample requests *)

Fixpoint allDigits (s : string) : bool :=
  match s with
  | String c rest => isDigit c && allDigits rest
  | EmptyString => true
  end.

(** [Number] on the parts of a plain version: an empty part is 0, a
    decimal numeral its value, anything else is taken as [NaN]. *)
Definition decimalNumber (part : string) : number :=
  if allDigits part then Finite (Qc_of_Z (parseDigits 0 part)) else NaN.

Lemma trailing_zero_part_does_not_matter_witness :
  compareVersions decimalNumber (Some "2.0.0") (Some "2.0.19")
  = compareVersions decimalNumber (Some "2.0") (Some "2.0.19")
  /\ compareVersions decimalNumber (Some "2.0.0") (Some "2.0") = 0.
Proof.
  exact (trailing_zero_part_does_not_matter decimalNumber "2.0" (Some "2.0.19")
           eq_refl eq_refl).
Defined.

Lemma tested_user_agent_has_a_version_witness :
  extractVersionFromUserAgent (VStr "claude-cli/2.0.19 (external, cli)")
  = Normal (Some "2.0.19").
Proof.
  destruct (tested_user_agent_has_a_version "claude-cli/2.0.19 (external, cli)" eq_refl)
    as [_ Hversion].
  exact Hversion.
Defined.

(** A request of the Claude Code client, version 2.0.20. *)
Definition cliRequest : option (list (string * string)) :=
  Some [("Host", "relay.example");
        ("User-Agent", "claude-cli/2.0.20 (external, cli)");
        ("Authorization", "Bearer sk-ant-oat01-secret");
        ("X-Stainless-OS", "Linux");
        ("X-App", "cli")].

Definition redisServes : StoreEnv := {|
  currentRead := Normal tt; updatedAt := "2023-11-14T23:13:20.000Z";
  storeWrite := Normal tt
|}.

(** Redis holds the headers of version 2.0.19 for the account. *)
Definition olderHeld : Entry :=
  {| text := Json (VObj [("headers", headersObject claudeCliHeaders);
                         ("version", VStr "2.0.19");
                         ("updatedAt", VStr "2023-11-14T22:13:20.000Z")]);
     ttl := Some 604800 |}.

Definition holdingOlder : World := {[ headersKey "claude-1" := olderHeld ]}.

Lemma held_version_only_goes_up_witness :
  let after :=
    fst (storeAccountHeaders decimalNumber constructor redisServes "claude-1" cliRequest
           holdingOlder) in
  after = holdingOlder
  \/ exists version,
       cliVersion constructor cliRequest = Some version
       /\ after
          = <[headersKey "claude-1" :=
                writtenEntry redisServes
                  (extractClaudeCodeHeaders constructor cliRequest) version]> holdingOlder
       /\ (textTruthy (text olderHeld) = false
           \/ exists currentAgent currentVersion,
                heldAgent olderHeld = Normal currentAgent
                /\ extractVersionFromUserAgent currentAgent = Normal (Some currentVersion)
                /\ compareVersions decimalNumber (Some version) (Some currentVersion) = 1).
Proof.
  destruct (held_version_only_goes_up decimalNumber constructor redisServes "claude-1"
              cliRequest holdingOlder olderHeld) as [Hup _].
  - reflexivity.
  - exact Hup.
Defined.

Definition readingServes : GetEnv := {|
  storedRead := Normal tt;
  assign := {| cachedRead := Normal tt; random := 0; assignedAt := "2023-11-14T23:13:20.000Z";
               assignWrite := Normal tt |}
|}.

Lemma stored_headers_are_read_back_witness :
  let after :=
    fst (storeAccountHeaders decimalNumber constructor redisServes "claude-1" cliRequest ∅) in
  after !! headersKey "claude-1"
  = Some (writtenEntry redisServes (extractClaudeCodeHeaders constructor cliRequest)
            "2.0.20")
  /\ getAccountHeaders constructor readingServes "claude-1" after
     = (after,
        Normal (headersObject [("x-stainless-os", "Linux"); ("x-app", "cli");
                               ("user-agent", "claude-cli/2.0.20 (external, cli)")])).
Proof.
  exact (stored_headers_are_read_back decimalNumber constructor redisServes readingServes
           "claude-1" cliRequest ∅ "2.0.20" eq_refl eq_refl eq_refl eq_refl eq_refl).
Defined.

Lemma assigned_headers_stick_witness :
  let first :=
    getOrAssignDefaultHeaders constructor (assign readingServes) "claude-1" (∅ : World) in
  snd first = Normal (_pickRandomProfile constructor 0)
  /\ (forall key,
        key <> _getDefaultHeadersKey "claude-1" -> fst first !! key = (∅ : World) !! key)
  /\ getOrAssignDefaultHeaders constructor
       {| cachedRead := Normal tt; random := 7; assignedAt := "2023-11-15T00:00:00.000Z";
          assignWrite := Normal tt |} "claude-1" (fst first)
     = (fst first, Normal (_pickRandomProfile constructor 0)).
Proof.
  exact (assigned_headers_stick constructor (assign readingServes)
           {| cachedRead := Normal tt; random := 7;
              assignedAt := "2023-11-15T00:00:00.000Z"; assignWrite := Normal tt |}
           "claude-1" ∅ eq_refl eq_refl eq_refl eq_refl eq_refl).
Defined.

End HeadersFacts.
